(** * Shortest: replay cache, test runner and action adapter

    A shallow embedding of the test runner of [anti-work/shortest]
    ([packages/shortest/src/core/runner/index.ts]: [runCachedTest],
    [executeTest], [executeTestFile], [runTests]) and of the adapter that
    turns model actions into browser calls ([LLMAdapter.transformAndExecute]),
    together with the command line that builds the runner ([cli/bin.ts]:
    [isValidArg], [main]).

    Asynchronous code is sequential here: every [await] is a bind of the
    effect monad [M] below.  Exceptions are the [Throw] outcome, and every
    call that leaves the runner (browser, model, cache, hooks, reporter) is
    recorded in a trace of events, so that statements such as "no model call
    is made" or "the cache entry is deleted" are statements about the trace
    and the final state. *)

From Stdlib Require Import ZArith Lia Ascii String.
From stdpp Require Import gmap strings list pretty.

Local Open Scope string_scope.
Local Open Scope list_scope.

(** ** JavaScript strings *)

Module JsString.

(** [s.includes(sub)] *)
Fixpoint includes (s sub : string) : bool :=
  String.prefix sub s ||
  match s with
  | EmptyString => false
  | String _ s' => includes s' sub
  end.

Definition is_open_brace (c : Ascii.ascii) : bool := Ascii.eqb c "{"%char.
Definition is_close_brace (c : Ascii.ascii) : bool := Ascii.eqb c "}"%char.

(** The suffix of [s] that starts at its first opening brace. *)
Fixpoint from_first_open (s : string) : option string :=
  match s with
  | EmptyString => None
  | String c s' => if is_open_brace c then Some s else from_first_open s'
  end.

(** The longest prefix of [s] that ends in a closing brace. *)
Fixpoint upto_last_close (s : string) : option string :=
  match s with
  | EmptyString => None
  | String c s' =>
      match upto_last_close s' with
      | Some t => Some (String c t)
      | None => if is_close_brace c then Some (String c EmptyString) else None
      end
  end.

(** [s.match(/{[\s\S]*}/)]: the leftmost opening brace followed, greedily,
    by everything up to the last closing brace after it.  [None] is the
    [null] of a failed match, [Some m] is [jsonMatch[0]]. *)
Definition match_braces (s : string) : option string :=
  match from_first_open s with
  | Some (String c rest) =>
      match upto_last_close rest with
      | Some t => Some (String c t)
      | None => None
      end
  | _ => None
  end.

Definition lower_ascii (c : Ascii.ascii) : Ascii.ascii :=
  let n := Ascii.nat_of_ascii c in
  if (Nat.leb 65 n && Nat.leb n 90)%bool then Ascii.ascii_of_nat (n + 32) else c.

(** [s.toLowerCase()] on the ASCII letters. *)
Fixpoint toLowerCase (s : string) : string :=
  match s with
  | EmptyString => EmptyString
  | String c s' => String (lower_ascii c) (toLowerCase s')
  end.

(** Truthiness of an optional string: [undefined] and the empty string
    are falsy. *)
Definition truthy (o : option string) : bool :=
  match o with
  | Some s => negb (String.eqb s EmptyString)
  | None => false
  end.

(** The string behind a truthy optional string. *)
Definition nonEmpty (o : option string) : option string :=
  match o with
  | Some s => if String.eqb s EmptyString then None else Some s
  | None => None
  end.

End JsString.

(** ** Thrown values *)

(** What a [catch (error)] clause can receive: an [Error] object with its
    [message], or any other value, kept as [String(error)] renders it. *)
Inductive Thrown : Type :=
| ErrorObj (message : string)
| NonError (rendered : string).

(** [error instanceof Error ? error.message : String(error)] *)
Definition errorText (error : Thrown) : string :=
  match error with
  | ErrorObj message => message
  | NonError rendered => rendered
  end.

(** ** The effect monad: state, exceptions, trace, fuel *)

Inductive Outcome (A : Type) : Type :=
| Ret (a : A)
| Throw (error : Thrown)
| OutOfFuel.
Arguments Ret {A} a.
Arguments Throw {A} error.
Arguments OutOfFuel {A}.

Section Effects.
Context {S E : Type}.

Record Run (A : Type) : Type := MkRun {
  outcome : Outcome A;
  final : S;
  trace : list E
}.
Arguments MkRun {A}.
Arguments outcome {A}.
Arguments final {A}.
Arguments trace {A}.

Definition M (A : Type) : Type := S -> Run A.

Definition ret {A} (a : A) : M A := fun s => MkRun (Ret a) s [].
Definition throw {A} (error : Thrown) : M A := fun s => MkRun (Throw error) s [].
Definition outOfFuel {A} : M A := fun s => MkRun OutOfFuel s [].
Definition emit (ev : E) : M unit := fun s => MkRun (Ret tt) s [ev].

Definition bind {A B} (m : M A) (k : A -> M B) : M B := fun s =>
  let r := m s in
  match outcome r with
  | Ret a =>
      let r' := k a (final r) in
      MkRun (outcome r') (final r') (trace r ++ trace r')
  | Throw error => MkRun (Throw error) (final r) (trace r)
  | OutOfFuel => MkRun OutOfFuel (final r) (trace r)
  end.

(** [try { m } catch (error) { handler error }] *)
Definition tryCatch {A} (m : M A) (handler : Thrown -> M A) : M A := fun s =>
  let r := m s in
  match outcome r with
  | Throw error =>
      let r' := handler error (final r) in
      MkRun (outcome r') (final r') (trace r ++ trace r')
  | _ => r
  end.

(** [try { m } finally { cleanup }]: the cleanup always runs; when it
    completes normally the outcome of [m] stands, when it throws its
    exception replaces that outcome. *)
Definition tryFinally {A} (m : M A) (cleanup : M unit) : M A := fun s =>
  let r := m s in
  match outcome r with
  | OutOfFuel => r
  | _ =>
      let r' := cleanup (final r) in
      MkRun (match outcome r' with
             | Ret _ => outcome r
             | Throw error => Throw error
             | OutOfFuel => OutOfFuel
             end) (final r') (trace r ++ trace r')
  end.

(** A promise that is started and never awaited: its effects happen, its
    result and its rejection are invisible to the caller. *)
Definition floating {A} (m : M A) : M unit := fun s =>
  let r := m s in
  MkRun (match outcome r with
         | OutOfFuel => OutOfFuel
         | _ => Ret tt
         end) (final r) (trace r).

(** The run [r], after the events [t] have happened. *)
Definition prefixed {A} (t : list E) (r : Run A) : Run A :=
  MkRun (outcome r) (final r) (t ++ trace r).

(** [Emits P m]: every event of a run of [m] satisfies [P]. *)
Definition Emits {A} (P : E -> Prop) (m : M A) : Prop :=
  forall s, Forall P (trace (m s)).

(** [Preserves proj m]: a run of [m] leaves the component [proj] of the
  state as it found it. *)
Definition Preserves {A T} (proj : S -> T) (m : M A) : Prop :=
  forall s, proj (final (m s)) = proj s.

(** [Fueled m]: a run of [m] does not run out of fuel. *)
Definition Fueled {A} (m : M A) : Prop :=
  forall s, outcome (m s) <> OutOfFuel.

End Effects.

Arguments Run : clear implicits.
Arguments M : clear implicits.
Arguments MkRun {S E A}.
Arguments outcome {S E A}.
Arguments final {S E A}.
Arguments trace {S E A}.

Declare Scope eff_scope.
Delimit Scope eff_scope with eff.
Notation "x <- m ;; k" := (bind m (fun x => k))
  (at level 100, m at next level, right associativity) : eff_scope.
Notation "m ;;; k" := (bind m (fun _ => k))
  (at level 100, right associativity) : eff_scope.
Local Open Scope eff_scope.

(** ** Data model of the runner *)

(** The input of a browser action ([step.action.input], and the argument of
    [browserTool.execute]): the action tag and the optional fields the
    runner and the adapter read.  Coordinates are pixel positions. *)
Record ActionInput : Type := {
  action : string;
  coordinate : option (Z * Z);
  text : option string;
  url : option string;
  duration : option Z
}.

Definition actionOnly (tag : string) : ActionInput :=
  {| action := tag; coordinate := None; text := None; url := None; duration := None |}.

(** Modelled from the spec: the declaration of [BrowserActionEnum] (in
    [types]) is not part of the sources at hand; its two members used by the
    runner carry the tags of the action descriptors, the ones
    [executeTest] ([action: "screenshot"]) and the adapter ([case "mouse_move"])
    spell out. *)
Module BrowserActionEnum.
Definition Screenshot : string := "screenshot".
Definition MouseMove : string := "mouse_move".
End BrowserActionEnum.

(** What [browserTool.execute] resolves to, as far as the runner reads it:
    [metadata?.window_info?.url] and [.title]. *)
Record ToolResult : Type := {
  tool_output : string;
  window_url : option string;
  window_title : option string
}.

(** The [extras] of a recorded step, as far as the runner reads them:
    [extras.componentStr]. *)
Record StepExtras : Type := {
  componentStr : option string
}.

(** One recorded step: [step.action?.input] and [step.extras].  The runner
    reads [step.action] through [?.] and [step.extras] without: a step may
    lack either. *)
Record CacheStep : Type := {
  step_input : option ActionInput;
  step_extras : option StepExtras
}.

(** The recorded fingerprint of a step, when it has one. *)
Definition extras_componentStr (step : CacheStep) : option string :=
  match step_extras step with
  | Some extras => componentStr extras
  | None => None
  end.

(** A cache entry: [cachedTest.data.steps], which may be absent. *)
Record CacheEntry : Type := {
  data_steps : option (list CacheStep)
}.

Record TokenMetrics : Type := {
  tokens_input : Z;
  tokens_output : Z
}.

Definition zeroTokens : TokenMetrics := {| tokens_input := 0; tokens_output := 0 |}.

(** [TestResult] without its [test] back-pointer.  [status] is a string: the
    result of a fresh run is whatever [JSON.parse] found in the reply. *)
Record TestResult : Type := {
  status : string;
  reason : string;
  tokenUsage : TokenMetrics
}.

Record FileResult : Type := {
  filePath : string;
  file_status : string;
  file_reason : string
}.

(** A block of [result.finalResponse.content]. *)
Inductive ContentBlock : Type :=
| TextBlock (block_text : string)
| OtherBlock.

(** What [aiClient.processAction] resolves to when it is not [undefined]. *)
Record ProcessResult : Type := {
  finalResponse_content : list ContentBlock;
  result_tokenUsage : TokenMetrics;
  pendingCache : CacheEntry
}.

(** The [status] and [reason] fields of a parsed reply. *)
Record ParsedVerdict : Type := {
  parsed_status : string;
  parsed_reason : string
}.

(** Calls of the reporter, in the order the runner makes them. *)
Inductive ReporterCall : Type :=
| OnRunStart (files : nat)
| OnFileStart (file : string) (tests : nat)
| OnTestStart (test : string)
| OnTestEnd (result : TestResult)
| OnFileEnd (result : FileResult)
| OnRunEnd
| OnError (category message : string).

Inductive CallbackKind : Type :=
| DirectFn | BeforeFn | AfterFn
| BeforeAllHook | AfterAllHook | BeforeEachHook | AfterEachHook.

(** Every call that leaves the runner. *)
Inductive Event : Type :=
| EvExecute (input : ActionInput)
| EvFingerprint (x y : Z)
| EvGoto (target : option string)
| EvSettle
| EvProcessAction (test : string)
| EvCacheGet (key : string)
| EvCacheSet (key : string)
| EvCacheDelete (key : string)
| EvCallback (kind : CallbackKind)
| EvImport (file : string)
| EvLaunch
| EvClose
| EvReport (call : ReporterCall)
| EvExit (code : Z).

Definition isProcessAction (ev : Event) : bool :=
  match ev with EvProcessAction _ => true | _ => false end.
Definition isCacheSet (ev : Event) : bool :=
  match ev with EvCacheSet _ => true | _ => false end.
Definition isCacheDelete (ev : Event) : bool :=
  match ev with EvCacheDelete _ => true | _ => false end.
Definition isFingerprint (ev : Event) : bool :=
  match ev with EvFingerprint _ _ => true | _ => false end.
Definition isExecute (ev : Event) : bool :=
  match ev with EvExecute _ => true | _ => false end.

(** Number of model calls ([aiClient.processAction]) in a trace. *)
Definition modelCalls (t : list Event) : nat := length (List.filter isProcessAction t).

Section World.
Context {World : Type}.

(** A user callback ([test.fn], [beforeFn], [afterFn], a file hook) run
    against the shared test context: it changes the world and either
    resolves ([None]) or throws. *)
Definition Callback : Type := World -> option Thrown * World.

(** The fields of [TestFunction] that decide the control flow. *)
Record TestFunction : Type := {
  name : string;
  directExecution : bool;
  fn : option Callback;
  beforeFn : option Callback;
  afterFn : option Callback
}.

(** The process-wide registry ([global.__shortest__.registry]). *)
Record Registry : Type := {
  currentFileTests : list TestFunction;
  beforeAllFns : list Callback;
  afterAllFns : list Callback;
  beforeEachFns : list Callback;
  afterEachFns : list Callback
}.

Record RunnerState : Type := {
  world : World;
  cacheStore : gmap string CacheEntry;
  registry : Registry
}.

Definition withWorld (s : RunnerState) (w : World) : RunnerState :=
  {| world := w; cacheStore := cacheStore s; registry := registry s |}.
Definition withCache (s : RunnerState) (c : gmap string CacheEntry) : RunnerState :=
  {| world := world s; cacheStore := c; registry := registry s |}.
Definition withRegistry (s : RunnerState) (r : Registry) : RunnerState :=
  {| world := world s; cacheStore := cacheStore s; registry := r |}.

End World.

Arguments Callback : clear implicits.
Arguments TestFunction : clear implicits.
Arguments Registry : clear implicits.
Arguments RunnerState : clear implicits.

(** The collaborators of the runner, none of which is in the sources at
    hand: the browser tool, the model client, the compiler and importer of
    test files, the browser manager, [JSON.parse] and [hashData].  Each one
    acts on the world and either resolves or throws. *)
Class Host (World : Type) : Type := {
  browserTool_execute : ActionInput -> World -> (Thrown + ToolResult) * World;
  getNormalizedComponentStringByCoords : Z -> Z -> World -> (Thrown + string) * World;
  page_goto : option string -> World -> (Thrown + unit) * World;
  (** [aiClient.processAction(prompt, browserTool)]: the prompt is a function
      of the test and of the initial page state; [None] is [undefined]. *)
  aiClient_processAction :
    TestFunction World -> ToolResult -> World -> (Thrown + option ProcessResult) * World;
  (** [JSON.parse], followed by the reads of [.status] and [.reason]. *)
  JSON_parse : string -> Thrown + ParsedVerdict;
  hashData : TestFunction World -> string;
  (** [compiler.compileFile] and the dynamic [import]: the file's top level
      registers its tests and hooks. *)
  compileAndImport : string -> Registry World -> World -> (Thrown + Registry World) * World;
  browserManager_launch : World -> (Thrown + unit) * World;
  browserManager_close : World -> (Thrown + unit) * World
}.

(** The fields of the runner ([this.noCache], [this.config.anthropicKey]). *)
Record TestRunner : Type := {
  noCache : bool;
  anthropicKey : option string
}.

(** The third argument of [executeTest]. *)
Record ExecConfig : Type := {
  config_noCache : bool
}.

(** ** The runner ([core/runner/index.ts])

    The embedding keeps the control flow of [TestRunner]: what is returned,
    what is thrown and caught, and which collaborator is called in which
    order.  It leaves out what flows nowhere: the text of the prompt (the
    model client receives the test and the initial page state instead),
    console output, the [test] back-pointer of a result, and the memoised
    test context, which is the same object throughout a file.
    [unnamed/part_002] is another revision of the same file; its cache
    branch and its replay loop are the ones embedded here. *)

Section Runner.
Context {World : Type} `{Host World}.
Variable this : TestRunner.

Definition R (A : Type) : Type := M (RunnerState World) Event A.

(** A call to a collaborator: one event, the world moves on, and the call
    resolves or throws. *)
Definition hostCall {A} (ev : Event) (op : World -> (Thrown + A) * World) : R A :=
  fun s =>
    let '(r, w) := op (world s) in
    MkRun (match r with inl error => Throw error | inr a => Ret a end)
          (withWorld s w) [ev].

Definition runCallback (kind : CallbackKind) (cb : Callback World) : R unit :=
  hostCall (EvCallback kind)
    (fun w => let '(r, w') := cb w in
              (match r with Some error => inl error | None => inr tt end, w')).

Definition report (call : ReporterCall) : R unit := emit (EvReport call).

(** Modelled from the spec: [BaseCache] is not part of the sources at hand.
    It is the store of section 4.2, [get(fingerprint) -> Trace?],
    [set(fingerprint, trace)], [delete(fingerprint)], keyed by the hash of
    the test. *)
Definition cache_get (test : TestFunction World) : R (option CacheEntry) :=
  emit (EvCacheGet (hashData test)) ;;;
  fun s => ret (cacheStore s !! hashData test) s.

Definition cache_set (test : TestFunction World) (entry : CacheEntry) : R unit :=
  emit (EvCacheSet (hashData test)) ;;;
  fun s => MkRun (Ret tt) (withCache s (<[hashData test := entry]> (cacheStore s))) [].

Definition cache_delete (test : TestFunction World) : R unit :=
  emit (EvCacheDelete (hashData test)) ;;;
  fun s => MkRun (Ret tt) (withCache s (delete (hashData test) (cacheStore s))) [].

Definition failedWith (why : string) (usage : TokenMetrics) : TestResult :=
  {| status := "failed"; reason := why; tokenUsage := usage |}.

Definition noStepsReason : string :=
  "No steps to execute, running test in normal mode".

Definition noStepsResult : TestResult := failedWith noStepsReason zeroTokens.

Definition mismatchResult : TestResult :=
  failedWith "Component UI elements are different, running test in normal mode" zeroTokens.

Definition replayedResult : TestResult :=
  {| status := "passed";
     reason := "All actions successfully replayed from cache";
     tokenUsage := zeroTokens |}.

(** [step.action?.input.action !== BrowserActionEnum.Screenshot.toString()] *)
Definition notScreenshot (step : CacheStep) : bool :=
  match step_input step with
  | Some input => negb (String.eqb (action input) BrowserActionEnum.Screenshot)
  | None => true
  end.

(** The coordinates at which a step is verified: the guard
    [step.action?.input.action === BrowserActionEnum.MouseMove &&
     step.action.input.coordinate]. *)
Definition verifiedAt (step : CacheStep) : option (Z * Z) :=
  match step_input step with
  | Some input =>
      if String.eqb (action input) BrowserActionEnum.MouseMove
      then coordinate input
      else None
  | None => None
  end.

(** [componentStr !== step.extras.componentStr], for a step that has
    extras; a recorded value that is [undefined] differs from every live
    one. *)
Definition differs (live : string) (extras : StepExtras) : bool :=
  match componentStr extras with
  | Some recorded => negb (String.eqb live recorded)
  | None => true
  end.

(** The [TypeError] of reading [step.extras.componentStr] on a step
    without extras, with the message of Node. *)
Definition undefinedExtras : Thrown :=
  ErrorObj "Cannot read properties of undefined (reading 'componentStr')".

(** Lines 510-530: the live check of a pointer move.  [Some r] is
    [return r] out of [runCachedTest].  The comparison of line 521 reads
    [step.extras.componentStr] after the query, and throws when the step
    has no extras. *)
Definition verifyStep (step : CacheStep) : R (option TestResult) :=
  match verifiedAt step with
  | Some (x, y) =>
      live <- hostCall (EvFingerprint x y) (getNormalizedComponentStringByCoords x y) ;;
      match step_extras step with
      | Some extras =>
          if differs live extras then ret (Some mismatchResult) else ret None
      | None => throw undefinedExtras
      end
  | None => ret None
  end.

(** Lines 531-542: the step is executed, an error of the browser is
    swallowed by the [catch]. *)
Definition executeStep (step : CacheStep) : R unit :=
  match step_input step with
  | Some input =>
      tryCatch (hostCall (EvExecute input) (browserTool_execute input) ;;; ret tt)
               (fun _ => ret tt)
  | None => ret tt
  end.

(** One iteration of the replay loop: the settle delay, the check, the
    execution.  [Some r] is [return r] out of [runCachedTest], [None] is
    the end of the iteration. *)
Definition replayStep (step : CacheStep) : R (option TestResult) :=
  emit EvSettle ;;;
  stop <- verifyStep step ;;
  match stop with
  | Some r => ret (Some r)
  | None => executeStep step ;;; ret None
  end.

Fixpoint replaySteps (steps : list CacheStep) : R (option TestResult) :=
  match steps with
  | [] => ret None
  | step :: rest =>
      stop <- replayStep step ;;
      match stop with
      | Some r => ret (Some r)
      | None => replaySteps rest
      end
  end.

(** [cachedTest?.data.steps?.filter(...)] *)
Definition stepsToReplay (cachedTest : option CacheEntry) : option (list CacheStep) :=
  match cachedTest with
  | Some entry =>
      match data_steps entry with
      | Some steps => Some (List.filter notScreenshot steps)
      | None => None
      end
  | None => None
  end.

Definition runCachedTest (test : TestFunction World) : R TestResult :=
  cachedTest <- cache_get test ;;
  match stepsToReplay cachedTest with
  | None => ret noStepsResult
  | Some steps =>
      stop <- replaySteps steps ;;
      match stop with
      | Some r => ret r
      | None => ret replayedResult
      end
  end.

(** The reason of a result whose after-hook threw: the two arms of
    [status === "failed" ? `AI: ${reason}, After: ${...}` : ...]. *)
Definition afterFailureReason (ai : TestResult) (error : Thrown) : string :=
  if String.eqb (status ai) "failed"
  then "AI: " +:+ reason ai +:+ ", After: " +:+ errorText error
  else errorText error.

(** [if (test.afterFn) { try { await test.afterFn(ctx) } catch (error) {
    return failed } }]: [Some r] is the [return] of the catch clause. *)
Definition runAfterFn (test : TestFunction World) (ai : TestResult) (usage : TokenMetrics)
  : R (option TestResult) :=
  match afterFn test with
  | Some cb =>
      tryCatch (runCallback AfterFn cb ;;; ret None)
               (fun error => ret (Some (failedWith (afterFailureReason ai error) usage)))
  | None => ret None
  end.

(** The needle of the search for the verdict: the seven letters of status
    between double quotes, then a colon. *)
Definition statusKey : string :=
  String (Ascii.ascii_of_nat 34) "status" +:+ String (Ascii.ascii_of_nat 34) ":".

(** [content.find(block => block.type === "text" &&
     block.text.includes(statusKey))] *)
Fixpoint findFinalMessage (content : list ContentBlock) : option string :=
  match content with
  | [] => None
  | TextBlock t :: rest =>
      if JsString.includes t statusKey then Some t else findFinalMessage rest
  | OtherBlock :: rest => findFinalMessage rest
  end.

(** The verdict of a reply: the three ways in which parsing it throws, or
    the parsed object (lines 319-339). *)
Definition parseAiResult (result : ProcessResult) : Thrown + ParsedVerdict :=
  match findFinalMessage (finalResponse_content result) with
  | None => inl (ErrorObj "No test result found in AI response")
  | Some finalMessage =>
      match JsString.match_braces finalMessage with
      | None => inl (ErrorObj "Invalid test result format")
      | Some jsonMatch => JSON_parse jsonMatch
      end
  end.

Definition liftThrown {A} (r : Thrown + A) : R A :=
  match r with
  | inl error => throw error
  | inr a => ret a
  end.

(** [if (test.beforeFn) { try { await test.beforeFn(ctx) } catch (error) {
    return failed } }] (lines 298-310): [Some r] is the [return]. *)
Definition runBeforeFn (test : TestFunction World) : R (option TestResult) :=
  match beforeFn test with
  | Some cb =>
      tryCatch (runCallback BeforeFn cb ;;; ret None)
               (fun error => ret (Some (failedWith (errorText error) zeroTokens)))
  | None => ret None
  end.

(** [const aiResult = JSON.parse(jsonMatch[0]) as TestResult], as it is
    returned with [tokenUsage: result.tokenUsage]. *)
Definition aiResultOf (result : ProcessResult) (parsed : ParsedVerdict) : TestResult :=
  {| status := parsed_status parsed;
     reason := parsed_reason parsed;
     tokenUsage := result_tokenUsage result |}.

(** Lines 341-366: the after-hook, then the write to the cache when the
    parsed status is ["passed"]. *)
Definition concludeRun (test : TestFunction World) (result : ProcessResult)
    (parsed : ParsedVerdict) : R TestResult :=
  let aiResult := aiResultOf result parsed in
  stop <- runAfterFn test aiResult (result_tokenUsage result) ;;
  match stop with
  | Some r => ret r
  | None =>
      (if String.eqb (status aiResult) "passed"
       then cache_set test (pendingCache result)
       else ret tt) ;;;
      ret aiResult
  end.

(** Lines 312-367: the model-driven run, the parsing of its verdict, the
    after-hook and the write to the cache. *)
Definition modelRun (test : TestFunction World) (initialState : ToolResult) : R TestResult :=
  result <- hostCall (EvProcessAction (name test))
                     (aiClient_processAction test initialState) ;;
  match result with
  | None => throw (ErrorObj "AI processing failed: no result returned")
  | Some result =>
      parsed <- liftThrown (parseAiResult result) ;;
      concludeRun test result parsed
  end.

(** Lines 298-367 of [executeTest]: the before-hook, then the model-driven
    run. *)
Definition freshRun (test : TestFunction World) (initialState : ToolResult) : R TestResult :=
  stop <- runBeforeFn test ;;
  match stop with
  | Some r => ret r
  | None => modelRun test initialState
  end.

(** Lines 171-190: direct execution skips the model and the cache. *)
Definition directRun (test : TestFunction World) : R TestResult :=
  tryCatch
    (match fn test with
     | Some cb => runCallback DirectFn cb
     | None => ret tt
     end ;;;
     ret {| status := "passed"; reason := "Direct execution successful";
            tokenUsage := zeroTokens |})
    (fun error =>
       ret (failedWith (match error with
                        | ErrorObj message => message
                        | NonError _ => "Direct execution failed"
                        end) zeroTokens)).

(** Lines 258-296: the cache branch.  [Some r] is a [return r] out of
    [executeTest]; [None] falls through to line 298.  [retry] is the
    recursive call [this.executeTest(test, context, { noCache: true })],
    whose result is dropped. *)
Definition cachedBranch (retry : R TestResult) (test : TestFunction World)
    (config : ExecConfig) (initialState : ToolResult) : R (option TestResult) :=
  if negb (noCache this) && negb (config_noCache config) then
    hit <- cache_get test ;;
    match hit with
    | Some _ =>
        tryCatch
          (result <- runCachedTest test ;;
           stop <- runAfterFn test result zeroTokens ;;
           match stop with
           | Some r => ret (Some r)
           | None => ret (Some {| status := status result; reason := reason result;
                                  tokenUsage := zeroTokens |})
           end)
          (fun _ =>
             cache_delete test ;;;
             hostCall (EvGoto (window_url initialState))
                      (page_goto (window_url initialState)) ;;;
             retry ;;;
             ret None)
    | None => ret None
    end
  else ret None.

(** [executeTest(test, context, config)], lines 165-367.  The function
    calls itself in the [catch] of the cache branch; [fuel] bounds the depth
    of these calls, and two units are always enough, since the inner call
    runs with [noCache: true] and skips the cache branch. *)
Fixpoint executeTest (fuel : nat) (test : TestFunction World) (config : ExecConfig)
  : R TestResult :=
  match fuel with
  | O => outOfFuel
  | Datatypes.S fuel' =>
      if directExecution test then directRun test
      else if negb (JsString.truthy (anthropicKey this))
      then ret (failedWith "ANTHROPIC_KEY is not set" zeroTokens)
      else
        initialState <- hostCall (EvExecute (actionOnly "screenshot"))
                                 (browserTool_execute (actionOnly "screenshot")) ;;
        stop <- cachedBranch (executeTest fuel' test {| config_noCache := true |})
                             test config initialState ;;
        match stop with
        | Some r => ret r
        | None => freshRun test initialState
        end
  end.

(** The default third argument of [executeTest], [{ noCache: false }]. *)
Definition defaultConfig : ExecConfig := {| config_noCache := false |}.

Fixpoint runHooks (kind : CallbackKind) (hooks : list (Callback World)) : R unit :=
  match hooks with
  | [] => ret tt
  | hook :: rest => runCallback kind hook ;;; runHooks kind rest
  end.

(** Lines 408-422: the loop over the tests of the file. *)
Fixpoint runFileTests (fuel : nat) (tests : list (TestFunction World)) : R unit :=
  match tests with
  | [] => ret tt
  | test :: rest =>
      (fun s => runHooks BeforeEachHook (beforeEachFns (registry s)) s) ;;;
      report (OnTestStart (name test)) ;;;
      testResult <- executeTest fuel test defaultConfig ;;
      report (OnTestEnd testResult) ;;;
      (fun s => runHooks AfterEachHook (afterEachFns (registry s)) s) ;;;
      runFileTests fuel rest
  end.

Definition resetTests (r : Registry World) : Registry World :=
  {| currentFileTests := [];
     beforeAllFns := beforeAllFns r; afterAllFns := afterAllFns r;
     beforeEachFns := beforeEachFns r; afterEachFns := afterEachFns r |}.

Definition resetHooks (r : Registry World) : Registry World :=
  {| currentFileTests := currentFileTests r;
     beforeAllFns := []; afterAllFns := []; beforeEachFns := []; afterEachFns := [] |}.

Definition modifyRegistry (f : Registry World -> Registry World) : R unit :=
  fun s => MkRun (Ret tt) (withRegistry s (f (registry s))) [].

(** Lines 396-441: the hooks and tests of one file, and the [finally]. *)
Definition runFileBody (fuel : nat) (file : string) : R unit :=
  tryFinally
    ((fun s => runHooks BeforeAllHook (beforeAllFns (registry s)) s) ;;;
     (fun s => report (OnFileStart file (length (currentFileTests (registry s)))) s) ;;;
     (fun s => runFileTests fuel (currentFileTests (registry s)) s) ;;;
     (fun s => runHooks AfterAllHook (afterAllFns (registry s)) s))
    (hostCall EvClose browserManager_close ;;;
     modifyRegistry resetHooks ;;;
     report (OnFileEnd {| filePath := file; file_status := "passed";
                         file_reason := EmptyString |})).

(** [executeTestFile(file)], lines 369-455.  The relative path handed to
    the reporter is written [file] as well. *)
Definition executeTestFile (fuel : nat) (file : string) : R unit :=
  tryCatch
    (modifyRegistry resetTests ;;;
     (fun s =>
        (r <- hostCall (EvImport file) (compileAndImport file (registry s)) ;;
         modifyRegistry (fun _ => r)) s) ;;;
     launched <- tryCatch (hostCall EvLaunch browserManager_launch ;;; ret true)
                          (fun _ => ret false) ;;
     if launched : bool then runFileBody fuel file else ret tt)
    (fun error =>
       match error with
       | ErrorObj message =>
           report (OnFileEnd {| filePath := file; file_status := "failed";
                                file_reason := message |})
       | NonError _ => ret tt
       end).

(** Lines 469-474 of [runTests], on the files that [findTestFiles] found. *)
Fixpoint runFiles (fuel : nat) (files : list string) : R unit :=
  match files with
  | [] => ret tt
  | file :: rest => executeTestFile fuel file ;;; runFiles fuel rest
  end.

(** [process.exit(code)]: the process ends there, and the event is the
    last of the trace. *)
Definition exit (code : Z) : R unit := emit (EvExit code).

(** [pattern || this.config.testPattern || "**/*.test.ts"] (line 111) *)
Definition resolvePattern (pattern configured : option string) : string :=
  match JsString.nonEmpty pattern with
  | Some given => given
  | None =>
      match JsString.nonEmpty configured with
      | Some fromConfig => fromConfig
      | None => "**/*.test.ts"
      end
  end.

(** [findTestFiles], lines 110-127.  [found] is what [glob] resolves to
    for [testPattern].  When it is empty the error is reported and the
    process exits; [None] stands for that end. *)
Definition findTestFiles (testPattern : string) (found : list string)
  : R (option (list string)) :=
  match found with
  | [] =>
      report (OnError "Test Discovery" ("No test files found matching: " +:+ testPattern)) ;;;
      exit 1 ;;;
      ret None
  | _ => ret (Some found)
  end.

(** [runTests], lines 457-482.  The second test for an empty list (lines
    461-467) is never met, since [findTestFiles] has left by then.  The
    exit code that follows [onRunEnd] depends on
    [reporter.allTestsPassed()], which is not in the sources at hand. *)
Definition runTests (fuel : nat) (testPattern : string) (found : list string) : R unit :=
  files <- findTestFiles testPattern found ;;
  match files with
  | None => ret tt
  | Some files =>
      report (OnRunStart (length files)) ;;;
      runFiles fuel files ;;;
      report OnRunEnd
  end.

End Runner.

Arguments R : clear implicits.

(** ** The adapter from model actions to browser calls ([LLMAdapter]) *)

Module LLMAdapter.

(** [BrowserActionResult], as far as the adapter reads it:
    [metadata?.browserState?.cursor?.position]. *)
Record BrowserActionResult : Type := {
  message : string;
  payload : option string;
  cursor_position : option (Z * Z)
}.

(** The calls of the [Browser] interface, as events. *)
Inductive BrowserCall : Type :=
| PressKey (keys : list string)
| TypeText (content : string)
| MoveCursor (x y : Z)
| Click (x y : option Z)
| Drag (x y : Z)
| TakeScreenshot
| GetState
| Navigate (target : string) (shoultInitialize : bool)
| Sleep (ms : option Z).

(** An entry of the [keyboardShortcuts] table: one key or a chord. *)
Inductive Shortcut : Type :=
| OneKey (key : string)
| Chord (keys : list string).

(** The [Browser] interface of [core/browser/browser], and the
    [keyboardShortcuts] table of [browser/actions]; neither declaration is
    in the sources at hand, so both are taken as given. *)
Class Browser (World : Type) : Type := {
  pressKey : list string -> World -> (Thrown + BrowserActionResult) * World;
  type : string -> World -> (Thrown + BrowserActionResult) * World;
  moveCursor : Z -> Z -> World -> (Thrown + BrowserActionResult) * World;
  click : option Z -> option Z -> World -> (Thrown + BrowserActionResult) * World;
  drag : Z -> Z -> World -> (Thrown + BrowserActionResult) * World;
  screenshot : World -> (Thrown + BrowserActionResult) * World;
  getState : World -> (Thrown + BrowserActionResult) * World;
  navigate : string -> bool -> World -> (Thrown + BrowserActionResult) * World;
  sleep : option Z -> World -> (Thrown + BrowserActionResult) * World;
  keyboardShortcuts : string -> option Shortcut
}.

Section Adapter.
Context {World : Type} `{Browser World}.

Definition A (T : Type) : Type := M World BrowserCall T.

Definition call {T} (ev : BrowserCall) (op : World -> (Thrown + T) * World) : A T :=
  fun w =>
    let '(r, w') := op w in
    MkRun (match r with inl error => Throw error | inr a => Ret a end) w' [ev].

(** [Array.isArray(shortcuts[text]) ? shortcuts[text] : [shortcuts[text] || text]] *)
Definition toPress (text : string) : list string :=
  match keyboardShortcuts text with
  | Some (Chord keys) => keys
  | Some (OneKey key) => [if String.eqb key EmptyString then text else key]
  | None => [text]
  end.

Definition handleKeyPress (response : ActionInput) : A BrowserActionResult :=
  match JsString.nonEmpty (text response) with
  | None => throw (ErrorObj "Text required for key press action.")
  | Some content =>
      let keys := toPress (JsString.toLowerCase content) in
      call (PressKey keys) (pressKey keys)
  end.

Definition handleTypeText (response : ActionInput) : A BrowserActionResult :=
  match JsString.nonEmpty (text response) with
  | None => throw (ErrorObj "Text required for type action.")
  | Some content => call (TypeText content) (type content)
  end.

Definition handleMouseMove (response : ActionInput) : A BrowserActionResult :=
  match coordinate response with
  | None => throw (ErrorObj "Coordinate required for mouse_move action.")
  | Some (x, y) => call (MoveCursor x y) (moveCursor x y)
  end.

(** [const [x, y] = response.coordinate ?? [null, null]] *)
Definition handleLeftClick (response : ActionInput) : A BrowserActionResult :=
  let '(x, y) := match coordinate response with
                 | Some (x, y) => (Some x, Some y)
                 | None => (None, None)
                 end in
  call (Click x y) (click x y).

Definition handleLeftClickDrag (response : ActionInput) : A BrowserActionResult :=
  match coordinate response with
  | None => throw (ErrorObj "Coordinate required for left_click_drag action.")
  | Some (x, y) => call (Drag x y) (drag x y)
  end.

Definition handleRightClick (_ : ActionInput) : A BrowserActionResult :=
  throw (ErrorObj "Right click not supported yet.").

Definition handleMiddleClick (_ : ActionInput) : A BrowserActionResult :=
  throw (ErrorObj "Right click not supported yet.").

Definition handleDoubleClick (response : ActionInput) : A BrowserActionResult :=
  handleLeftClick response.

Definition handleScreenshot : A BrowserActionResult :=
  call TakeScreenshot screenshot.

(** [${cursorPosition?.x}] renders a missing position as [undefined]. *)
Definition cursorMessage (position : option (Z * Z)) : string :=
  match position with
  | Some (x, y) => "Cursor position is: (" +:+ pretty x +:+ ", " +:+ pretty y +:+ ")"
  | None => "Cursor position is: (undefined, undefined)"
  end.

Definition handleCursorPosition : A BrowserActionResult :=
  result <- call GetState getState ;;
  ret {| message := cursorMessage (cursor_position result);
         payload := payload result;
         cursor_position := cursor_position result |}.

Definition handleNavigate (response : ActionInput) : A BrowserActionResult :=
  match JsString.nonEmpty (url response) with
  | None => throw (ErrorObj "URL required for navigate action.")
  | Some target => call (Navigate target true) (navigate target true)
  end.

Definition handleSleep (response : ActionInput) : A BrowserActionResult :=
  call (Sleep (duration response)) (sleep (duration response)).

Definition unsupported (tag : string) : Thrown :=
  ErrorObj ("Unsupported action: " +:+ tag).

(** The [switch] of [transformAndExecute].  Every case but the last one
    returns; [case "sleep"] calls [this.handleSleep(response)] without
    [return] or [await] and runs on into [default]. *)
Definition transformAndExecute (response : ActionInput) : A BrowserActionResult :=
  let tag := action response in
  if String.eqb tag "key" then handleKeyPress response
  else if String.eqb tag "type" then handleTypeText response
  else if String.eqb tag "mouse_move" then handleMouseMove response
  else if String.eqb tag "left_click" then handleLeftClick response
  else if String.eqb tag "left_click_drag" then handleLeftClickDrag response
  else if String.eqb tag "right_click" then handleRightClick response
  else if String.eqb tag "middle_click" then handleMiddleClick response
  else if String.eqb tag "double_click" then handleDoubleClick response
  else if String.eqb tag "screenshot" then handleScreenshot
  else if String.eqb tag "cursor_position" then handleCursorPosition
  else if String.eqb tag "navigate" then handleNavigate response
  else if String.eqb tag "sleep"
       then floating (handleSleep response) ;;; throw (unsupported tag)
  else throw (unsupported tag).

(** The tags that have a [case] in the [switch]. *)
Definition recognized : list string :=
  ["key"; "type"; "mouse_move"; "left_click"; "left_click_drag"; "right_click";
   "middle_click"; "double_click"; "screenshot"; "cursor_position"; "navigate";
   "sleep"].

End Adapter.
End LLMAdapter.

(** ** Specification vocabulary for the runner *)

Section RunnerSpec.
Context {World : Type} `{Host World}.
Variable this : TestRunner.
Implicit Types (s : RunnerState World) (step : CacheStep) (test : TestFunction World).

(** A step that moves the pointer to a recorded coordinate. *)
Definition PointerMove step (x y : Z) : Prop :=
  exists input, step_input step = Some input /\
                action input = BrowserActionEnum.MouseMove /\
                coordinate input = Some (x, y).

(** The events a replay of [steps] can produce. *)
Definition ReplayEvent test (steps : list CacheStep) (ev : Event) : Prop :=
  match ev with
  | EvSettle => True
  | EvCacheGet key => key = hashData test
  | EvFingerprint x y => exists step, In step steps /\ PointerMove step x y
  | EvExecute input => exists step, In step steps /\ step_input step = Some input
  | _ => False
  end.

(** The steps [runCachedTest] replays in state [s]. *)
Definition replayed test s : list CacheStep :=
  default [] (stepsToReplay (cacheStore s !! hashData test)).

(** The live fingerprint at the coordinates of [step], when it has some,
    is the recorded one. *)
Definition StepVerifies step s : Prop :=
  forall x y, PointerMove step x y ->
    exists live, fst (getNormalizedComponentStringByCoords x y (world s)) = inr live /\
                 extras_componentStr step = Some live.

(** [step] is a pointer move that carries its extras, and the live
    fingerprint is not the recorded one. *)
Definition StepMismatches step s : Prop :=
  exists x y live, PointerMove step x y /\
    fst (getNormalizedComponentStringByCoords x y (world s)) = inr live /\
    step_extras step <> None /\
    extras_componentStr step <> Some live.

(** Every step verifies in the state the replay reaches it in. *)
Inductive CleanReplay : list CacheStep -> RunnerState World -> Prop :=
| clean_done s : CleanReplay [] s
| clean_step step rest s :
    StepVerifies step s ->
    CleanReplay rest (final (replayStep step s)) ->
    CleanReplay (step :: rest) s.

(** Some step mismatches, the ones before it verify. *)
Inductive FirstMismatch : list CacheStep -> RunnerState World -> Prop :=
| mismatch_here step rest s :
    StepMismatches step s -> FirstMismatch (step :: rest) s
| mismatch_later step rest s :
    StepVerifies step s ->
    FirstMismatch rest (final (replayStep step s)) ->
    FirstMismatch (step :: rest) s.

(** The input of the initial [browserTool.execute]. *)
Definition screenshotInput : ActionInput := actionOnly "screenshot".

(** [executeTest] reaches the cache branch and finds an entry: the test is
    not a direct execution, the key is set, caching is enabled on both
    sides, the initial screenshot resolves (leaving the world [w1]) and the
    store holds [entry]. *)
Definition CacheHit test (config : ExecConfig) s (initialState : ToolResult)
    (w1 : World) (entry : CacheEntry) : Prop :=
  directExecution test = false /\
  JsString.truthy (anthropicKey this) = true /\
  noCache this = false /\
  config_noCache config = false /\
  browserTool_execute screenshotInput (world s) = (inr initialState, w1) /\
  cacheStore s !! hashData test = Some entry.

(** Caching is disabled for this call, or the store has no entry. *)
Definition NoReplay test (config : ExecConfig) s : Prop :=
  noCache this = true \/ config_noCache config = true \/
  cacheStore s !! hashData test = None.

(** [executeTest] reaches line 298 without a replay. *)
Definition FreshStart test (config : ExecConfig) s (initialState : ToolResult)
    (w1 : World) : Prop :=
  directExecution test = false /\
  JsString.truthy (anthropicKey this) = true /\
  browserTool_execute screenshotInput (world s) = (inr initialState, w1) /\
  NoReplay test config s.

(** The events of the path that leads to line 298 without a replay. *)
Definition freshPrefix test config : list Event :=
  EvExecute screenshotInput ::
  (if negb (noCache this) && negb (config_noCache config)
   then [EvCacheGet (hashData test)] else []).

(** The before-hook is absent, or resolves and takes the world from [w1]
    to [w2]. *)
Definition BeforeResolves test (w1 w2 : World) : Prop :=
  match beforeFn test with
  | Some cb => cb w1 = (None, w2)
  | None => w2 = w1
  end.

(** The test has a before-hook, which throws [error] in the world [w1]. *)
Definition BeforeThrows test (w1 : World) (error : Thrown) (w2 : World) : Prop :=
  exists cb, beforeFn test = Some cb /\ cb w1 = (Some error, w2).

(** The model client resolves to [result]. *)
Definition ModelReplies test (initialState : ToolResult) (w2 : World)
    (result : ProcessResult) (w3 : World) : Prop :=
  aiClient_processAction test initialState w2 = (inr (Some result), w3).

(** The test has an after-hook, which throws [error] in the world [w3]. *)
Definition AfterThrows test (w3 : World) (error : Thrown) (w4 : World) : Prop :=
  exists cb, afterFn test = Some cb /\ cb w3 = (Some error, w4).

(** The before-hook is absent or never throws. *)
Definition BeforeQuiet test : Prop :=
  forall cb w, beforeFn test = Some cb -> fst (cb w) = None.


(** The event of the before-hook, when the test has one. *)
Definition beforeEvents test : list Event :=
  match beforeFn test with
  | Some _ => [EvCallback BeforeFn]
  | None => []
  end.

(** The run [r], started in state [s], wrote the trace of [test] to the
    cache exactly if it returned a result with status "passed", and left
    the store alone if it returned another result. *)
Definition StoresIffPassed test s (r : Run (RunnerState World) Event TestResult) : Prop :=
  (In (EvCacheSet (hashData test)) (trace r) <->
   exists v, outcome r = Ret v /\ status v = "passed") /\
  (forall v, outcome r = Ret v -> status v <> "passed" ->
             cacheStore (final r) = cacheStore s).

(** The after-hook of the test was called. *)
Definition afterHookRuns (t : list Event) : bool :=
  existsb (fun ev => match ev with EvCallback AfterFn => true | _ => false end) t.

(** The names of the tests the reporter was told have started. *)
Fixpoint testsStarted (t : list Event) : list string :=
  match t with
  | [] => []
  | EvReport (OnTestStart test) :: rest => test :: testsStarted rest
  | _ :: rest => testsStarted rest
  end.

(** The number of test results the reporter received. *)
Definition testsEnded (t : list Event) : nat :=
  length (List.filter (fun ev => match ev with
                                 | EvReport (OnTestEnd _) => true
                                 | _ => false
                                 end) t).

End RunnerSpec.

(** ** A scripted host, for concrete runs

    The world is a clock that ticks at every call to a collaborator; the
    script fixes what the browser, the model and [JSON.parse] answer. *)

Module Scripted.

Definition quote : string := String (Ascii.ascii_of_nat 34) EmptyString.

(** The text of a reply that carries the verdict object. *)
Definition verdictText (st why : string) : string :=
  "Done. {" +:+ quote +:+ "status" +:+ quote +:+ ": " +:+ quote +:+ st +:+ quote +:+ ", "
    +:+ quote +:+ "reason" +:+ quote +:+ ": " +:+ quote +:+ why +:+ quote +:+ "}".

Definition verdictJson (st why : string) : string :=
  "{" +:+ quote +:+ "status" +:+ quote +:+ ": " +:+ quote +:+ st +:+ quote +:+ ", "
    +:+ quote +:+ "reason" +:+ quote +:+ ": " +:+ quote +:+ why +:+ quote +:+ "}".

Record Script : Type := {
  (** the live fingerprint at a point, or the error of the query *)
  live : Z -> Z -> Thrown + string;
  (** the content of the final response of the model *)
  reply : list ContentBlock;
  (** the objects [JSON.parse] accepts, by their [status] and [reason] *)
  parses : list (string * string);
  (** the steps the model client hands over for caching *)
  recording : CacheEntry;
  (** the tests and hooks each file registers *)
  declares : string -> Registry nat
}.

Definition page : ToolResult :=
  {| tool_output := "ok";
     window_url := Some "http://localhost:3000/login";
     window_title := Some "Login" |}.

Fixpoint parseWith (known : list (string * string)) (s : string) : Thrown + ParsedVerdict :=
  match known with
  | [] => inl (ErrorObj "Unexpected token in JSON")
  | (st, why) :: rest =>
      if String.eqb s (verdictJson st why)
      then inr {| parsed_status := st; parsed_reason := why |}
      else parseWith rest s
  end.

Definition tick {A} (a : Thrown + A) (w : nat) : (Thrown + A) * nat := (a, Datatypes.S w).

Definition usage : TokenMetrics := {| tokens_input := 1200; tokens_output := 80 |}.

(** What the model client resolves to under a script. *)
Definition replyOf (sc : Script) : ProcessResult :=
  {| finalResponse_content := reply sc; result_tokenUsage := usage;
     pendingCache := recording sc |}.

#[local] Instance host (sc : Script) : Host nat := {|
  browserTool_execute := fun _ => tick (inr page);
  getNormalizedComponentStringByCoords := fun x y => tick (live sc x y);
  page_goto := fun _ => tick (inr tt);
  aiClient_processAction := fun _ _ => tick (inr (Some (replyOf sc)));
  JSON_parse := parseWith (parses sc);
  hashData := fun test => name test;
  compileAndImport := fun file _ => tick (inr (declares sc file));
  browserManager_launch := tick (inr tt);
  browserManager_close := tick (inr tt)
|}.

Definition resolves : Callback nat := fun w => (None, Datatypes.S w).
Definition throws (why : string) : Callback nat := fun w => (Some (ErrorObj why), Datatypes.S w).

Definition emptyRegistry : Registry nat :=
  {| currentFileTests := []; beforeAllFns := []; afterAllFns := [];
     beforeEachFns := []; afterEachFns := [] |}.

Definition startWith (store : gmap string CacheEntry) : RunnerState nat :=
  {| world := 0%nat; cacheStore := store; registry := emptyRegistry |}.

Definition runner : TestRunner := {| noCache := false; anthropicKey := Some "sk-test" |}.

(** The login test of the end-to-end scenario, with optional hooks. *)
Definition login (before after : option (Callback nat)) : TestFunction nat :=
  {| name := "login"; directExecution := false; fn := None;
     beforeFn := before; afterFn := after |}.

Definition moveTo (x y : Z) (fingerprint : string) : CacheStep :=
  {| step_input := Some {| action := "mouse_move"; coordinate := Some (x, y);
                           text := None; url := None; duration := None |};
     step_extras := Some {| componentStr := Some fingerprint |} |}.

Definition clickAt (x y : Z) : CacheStep :=
  {| step_input := Some {| action := "left_click"; coordinate := Some (x, y);
                           text := None; url := None; duration := None |};
     step_extras := None |}.

Definition typeText (s : string) : CacheStep :=
  {| step_input := Some {| action := "type"; coordinate := None;
                           text := Some s; url := None; duration := None |};
     step_extras := None |}.

Definition shot : CacheStep :=
  {| step_input := Some (actionOnly "screenshot"); step_extras := None |}.

(** A recorded trace of the login test: the initial screenshot, a move to
    the button, whose fingerprint was "A", a click on it, the user name. *)
Definition loginSteps : list CacheStep :=
  [shot; moveTo 10 20 "A"; clickAt 10 20; typeText "admin"].

Definition loginTrace : CacheEntry := {| data_steps := Some loginSteps |}.

(** A trace without steps. *)
Definition emptyTrace : CacheEntry := {| data_steps := None |}.

(** The three stores of the scenarios: the login trace, nothing, a trace
    without steps. *)
Definition cached : RunnerState nat := startWith {["login" := loginTrace]}.
Definition uncached : RunnerState nat := startWith ∅.
Definition cachedEmpty : RunnerState nat := startWith {["login" := emptyTrace]}.

(** The second test of the file. *)
Definition checkout : TestFunction nat :=
  {| name := "checkout"; directExecution := false; fn := None;
     beforeFn := None; afterFn := None |}.

(** What [login.test.ts] registers; the other files register nothing. *)
Definition loginFile (file : string) : Registry nat :=
  if String.eqb file "login.test.ts"
  then {| currentFileTests := [login None None; checkout];
          beforeAllFns := []; afterAllFns := []; beforeEachFns := []; afterEachFns := [] |}
  else emptyRegistry.

(** The interface is unchanged and the model reports success. *)
Definition passing : Script :=
  {| live := fun _ _ => inr "A";
     reply := [OtherBlock; TextBlock (verdictText "passed" "login succeeded")];
     parses := [("passed", "login succeeded"); ("failed", "button not found")];
     recording := loginTrace;
     declares := loginFile |}.

(** The element under the recorded point is now another one. *)
Definition stale : Script :=
  {| live := fun _ _ => inr "B";
     reply := reply passing; parses := parses passing;
     recording := loginTrace; declares := loginFile |}.

(** The fingerprint query itself fails. *)
Definition flaky : Script :=
  {| live := fun _ _ => inl (ErrorObj "Execution context was destroyed");
     reply := reply passing; parses := parses passing;
     recording := loginTrace; declares := loginFile |}.

(** The model reports a failure. *)
Definition failing : Script :=
  {| live := fun _ _ => inr "A";
     reply := [TextBlock (verdictText "failed" "button not found")];
     parses := parses passing;
     recording := loginTrace; declares := loginFile |}.

(** The model ends without a verdict. *)
Definition silent : Script :=
  {| live := fun _ _ => inr "A";
     reply := [TextBlock "I could not finish the test."];
     parses := parses passing;
     recording := loginTrace; declares := loginFile |}.

(** A browser whose every call resolves; the world counts the calls. *)
Definition done : LLMAdapter.BrowserActionResult :=
  {| LLMAdapter.message := "ok"; LLMAdapter.payload := None;
     LLMAdapter.cursor_position := Some (10, 20)%Z |}.

#[local] Instance browser : LLMAdapter.Browser nat := {|
  LLMAdapter.pressKey := fun _ => tick (inr done);
  LLMAdapter.type := fun _ => tick (inr done);
  LLMAdapter.moveCursor := fun _ _ => tick (inr done);
  LLMAdapter.click := fun _ _ => tick (inr done);
  LLMAdapter.drag := fun _ _ => tick (inr done);
  LLMAdapter.screenshot := tick (inr done);
  LLMAdapter.getState := tick (inr done);
  LLMAdapter.navigate := fun _ _ => tick (inr done);
  LLMAdapter.sleep := fun _ => tick (inr done);
  LLMAdapter.keyboardShortcuts := fun key =>
    if String.eqb key "return" then Some (LLMAdapter.OneKey "Enter") else None
|}.

Definition sleepFor (ms : Z) : ActionInput :=
  {| action := "sleep"; coordinate := None; text := None; url := None;
     duration := Some ms |}.

End Scripted.

(** ** More vocabulary: what a run touches *)

Section RunnerObservations.
Context {World : Type} `{Host World}.
Variable this : TestRunner.
Implicit Types (s : RunnerState World) (test : TestFunction World) (config : ExecConfig).

(** The events of the cache branch (lines 258-296): a lookup or a deletion
    in the cache, a step of a replay, the reset of the page. *)
Definition usesCache (ev : Event) : bool :=
  match ev with
  | EvCacheGet _ | EvCacheDelete _ | EvFingerprint _ _ | EvSettle | EvGoto _ => true
  | _ => false
  end.

(** The events one call of [executeTest] can produce: calls of the browser
    tool, of the model and of the three callbacks of the test, writes to
    the cache, and, only when caching is enabled on both sides, what the
    cache branch does. *)
Definition ExecEvent config (ev : Event) : Prop :=
  match ev with
  | EvExecute _ | EvProcessAction _ | EvCacheSet _ => True
  | EvCallback kind => kind = DirectFn \/ kind = BeforeFn \/ kind = AfterFn
  | EvCacheGet _ | EvCacheDelete _ | EvFingerprint _ _ | EvSettle | EvGoto _ =>
      noCache this = false /\ config_noCache config = false
  | EvImport _ | EvLaunch | EvClose | EvReport _ | EvExit _ => False
  end.

(** The inputs handed to [browserTool.execute], in order. *)
Fixpoint executedInputs (t : list Event) : list ActionInput :=
  match t with
  | [] => []
  | EvExecute input :: rest => input :: executedInputs rest
  | _ :: rest => executedInputs rest
  end.

(** The inputs of the steps that have one ([step.action?.input]). *)
Fixpoint stepInputs (steps : list CacheStep) : list ActionInput :=
  match steps with
  | [] => []
  | step :: rest =>
      match step_input step with
      | Some input => input :: stepInputs rest
      | None => stepInputs rest
      end
  end.

(** The calls the reporter received, in order. *)
Fixpoint reports (t : list Event) : list ReporterCall :=
  match t with
  | [] => []
  | EvReport call :: rest => call :: reports rest
  | _ :: rest => reports rest
  end.

(** The after-hook is absent, or resolves and takes the world from [w3]
    to [w4]. *)
Definition AfterResolves test (w3 w4 : World) : Prop :=
  match afterFn test with
  | Some cb => cb w3 = (None, w4)
  | None => w4 = w3
  end.

(** The part of [executeTestFile] that the [finally] protects (lines
    397-427): the before-all hooks, the start of the file, its tests, the
    after-all hooks. *)
Definition fileHooksAndTests (fuel : nat) (file : string) : R World unit :=
  (fun s => runHooks BeforeAllHook (beforeAllFns (registry s)) s) ;;;
  (fun s => report (OnFileStart file (length (currentFileTests (registry s)))) s) ;;;
  (fun s => runFileTests this fuel (currentFileTests (registry s)) s) ;;;
  (fun s => runHooks AfterAllHook (afterAllFns (registry s)) s).

(** The two results a file can be reported with. *)
Definition filePassed (file : string) : ReporterCall :=
  OnFileEnd {| filePath := file; file_status := "passed"; file_reason := EmptyString |}.

Definition fileFailed (file message : string) : ReporterCall :=
  OnFileEnd {| filePath := file; file_status := "failed"; file_reason := message |}.

(** The registry holds no hook. *)
Definition hooksCleared (r : Registry World) : Prop :=
  beforeAllFns r = [] /\ afterAllFns r = [] /\
  beforeEachFns r = [] /\ afterEachFns r = [].

(** The events of the hooks and tests of a file: no import, no launch or
    close of the browser, and of the reporter's calls only those about the
    start of the file and about its tests. *)
Definition FileEvent (ev : Event) : Prop :=
  match ev with
  | EvImport _ | EvLaunch | EvClose | EvExit _ => False
  | EvReport (OnFileEnd _) | EvReport (OnRunStart _) | EvReport OnRunEnd => False
  | EvReport (OnError _ _) => False
  | _ => True
  end.

(** The files that were compiled and imported, in order. *)
Fixpoint importedFiles (t : list Event) : list string :=
  match t with
  | [] => []
  | EvImport file :: rest => file :: importedFiles rest
  | _ :: rest => importedFiles rest
  end.

(** How often the browser was launched, and closed. *)
Definition launches (t : list Event) : nat :=
  length (List.filter (fun ev => match ev with EvLaunch => true | _ => false end) t).

Definition closes (t : list Event) : nat :=
  length (List.filter (fun ev => match ev with EvClose => true | _ => false end) t).

End RunnerObservations.

(** The character [c] does not occur in [s]. *)
Definition lacks (c : Ascii.ascii) (s : string) : Prop :=
  ~ In c (list_ascii_of_string s).

(** ** A scripted host whose compiler and browser manager can fail *)

Module Faulty.
Import Scripted.

Record Faults : Type := {
  importError : option Thrown;
  launchError : option Thrown;
  closeError : option Thrown
}.

Definition orElse {A} (error : option Thrown) (a : A) : Thrown + A :=
  match error with
  | Some e => inl e
  | None => inr a
  end.

#[local] Instance host (sc : Script) (f : Faults) : Host nat := {|
  browserTool_execute := fun _ => tick (inr page);
  getNormalizedComponentStringByCoords := fun x y => tick (live sc x y);
  page_goto := fun _ => tick (inr tt);
  aiClient_processAction := fun _ _ => tick (inr (Some (replyOf sc)));
  JSON_parse := parseWith (parses sc);
  hashData := fun test => name test;
  compileAndImport := fun file _ => tick (orElse (importError f) (declares sc file));
  browserManager_launch := tick (orElse (launchError f) tt);
  browserManager_close := tick (orElse (closeError f) tt)
|}.

Definition noFault : Faults :=
  {| importError := None; launchError := None; closeError := None |}.

Definition noDisplay : Faults :=
  {| importError := None;
     launchError := Some (ErrorObj "browserType.launch: Executable not found");
     closeError := None |}.

Definition syntaxError : Faults :=
  {| importError := Some (ErrorObj "Unexpected token"); launchError := None;
     closeError := None |}.

Definition crashOnClose : Faults :=
  {| importError := None; launchError := None;
     closeError := Some (ErrorObj "Target closed") |}.

(** A file whose only test is a direct execution. *)
Definition ping (cb : option (Callback nat)) : TestFunction nat :=
  {| name := "ping"; directExecution := true; fn := cb;
     beforeFn := None; afterFn := None |}.

(** A file that registers a before-all hook and one test. *)
Definition hookedFile (file : string) : Registry nat :=
  {| currentFileTests := [ping None];
     beforeAllFns := [resolves]; afterAllFns := []; beforeEachFns := [];
     afterEachFns := [] |}.

Definition hooked : Script :=
  {| live := fun _ _ => inr "A";
     reply := reply passing; parses := parses passing;
     recording := loginTrace; declares := hookedFile |}.

End Faulty.

(** ** The command line ([cli/bin.ts])

    [main] reads [process.argv.slice(2)] and ends in one of five ways: the
    [init] command, the help text, the GitHub code generator, an error
    about invalid arguments, or a run of the tests with a [TestRunner]
    built from the flags.  Printing and [process.exit] are left out; the
    way [main] ends is its result. *)

Module Cli.

Definition VALID_FLAGS : list string :=
  ["--headless"; "--github-code"; "--debug-ai"; "--help"; "--no-cache"; "-h"].

Definition VALID_PARAMS : list string := ["--target"; "--secret"].

(** [list.includes(x)] on an array of strings *)
Definition includes (l : list string) (x : string) : bool :=
  existsb (String.eqb x) l.

(** [s.split("=")]: never empty; the empty string gives one empty piece. *)
Fixpoint split_eq (s : string) : list string :=
  match s with
  | EmptyString => [EmptyString]
  | String c s' =>
      if Ascii.eqb c "="%char then EmptyString :: split_eq s'
      else match split_eq s' with
           | piece :: pieces => String c piece :: pieces
           | [] => [String c EmptyString]
           end
  end.

(** Lines 96-109. *)
Definition isValidArg (arg : string) : bool :=
  if includes VALID_FLAGS arg then true
  else
    let paramName := hd EmptyString (split_eq arg) in
    if includes VALID_PARAMS paramName then true else false.

(** [args.find((arg) => arg.startsWith(prefix))?.split("=")[1]], the
    expression of lines 76-78 and 138-140. *)
Definition paramValue (prefix : string) (args : list string) : option string :=
  match List.find (String.prefix prefix) args with
  | Some arg => nth_error (split_eq arg) 1
  | None => None
  end.

(** The ways in which [main] ends. *)
Inductive Command : Type :=
| Init
| Help
| GitHubCode (secret : option string)
| InvalidArguments (invalidFlags : list string)
| Run (headless : bool) (targetUrl : option string) (cliTestPattern : option string)
      (debugAI noCache : bool).

(** Lines 111-162. *)
Definition main (args : list string) : Command :=
  if match args with
     | first :: _ => String.eqb first "init"
     | [] => false
     end
  then Init
  else if includes args "--help" || includes args "-h" then Help
  else if includes args "--github-code" then GitHubCode (paramValue "--secret=" args)
  else
    let invalidFlags :=
      List.filter (fun arg => negb (isValidArg arg))
                  (List.filter (String.prefix "--") args) in
    if Nat.ltb 0 (length invalidFlags) then InvalidArguments invalidFlags
    else Run (includes args "--headless")
             (paramValue "--target=" args)
             (List.find (fun arg => negb (String.prefix "--" arg)) args)
             (includes args "--debug-ai")
             (includes args "--no-cache").

(** [new TestRunner(process.cwd(), true, headless, targetUrl, debugAI,
    noCache)], as far as the runner is modelled; the key comes from the
    configuration. *)
Definition runnerOf (command : Command) (key : option string) : option TestRunner :=
  match command with
  | Run _ _ _ _ noCache => Some {| noCache := noCache; anthropicKey := key |}
  | _ => None
  end.

(** [cliTestPattern || config.testPattern] *)
Definition testPattern (cliTestPattern : option string) (configured : string) : string :=
  match JsString.nonEmpty cliTestPattern with
  | Some pattern => pattern
  | None => configured
  end.

End Cli.

(** * Properties *)

(** ** The effect monad *)

Section EffectFacts.
Context {S E : Type}.
Implicit Types s : S.

Lemma bind_Ret {A B} (m : M S E A) (k : A -> M S E B) s a :
  outcome (m s) = Ret a ->
  bind m k s = prefixed (trace (m s)) (k a (final (m s))).
Proof. intros Hm. unfold bind. rewrite Hm. reflexivity. Qed.

Lemma tryCatch_Ret {A} (m : M S E A) handler s a :
  outcome (m s) = Ret a -> tryCatch m handler s = m s.
Proof. intros Hm. unfold tryCatch. rewrite Hm. reflexivity. Qed.

Lemma tryCatch_Throw {A} (m : M S E A) handler s error :
  outcome (m s) = Throw error ->
  tryCatch m handler s = prefixed (trace (m s)) (handler error (final (m s))).
Proof. intros Hm. unfold tryCatch. rewrite Hm. reflexivity. Qed.

Lemma prefixed_nil {A} (r : Run S E A) : prefixed [] r = r.
Proof. destruct r. reflexivity. Qed.

Lemma prefixed_prefixed {A} t t' (r : Run S E A) :
  prefixed t (prefixed t' r) = prefixed (t ++ t') r.
Proof. unfold prefixed. simpl. rewrite app_assoc. reflexivity. Qed.

Lemma bind_assoc {A B C} (m : M S E A) (k : A -> M S E B) (k' : B -> M S E C) s :
  bind (bind m k) k' s = bind m (fun a => bind (k a) k') s.
Proof.
  unfold bind. destruct (outcome (m s)); cbn; try reflexivity.
  destruct (outcome (k a (final (m s)))); cbn; rewrite ?app_assoc; reflexivity.
Qed.

Lemma bind_cong {A B} (m : M S E A) (k k' : A -> M S E B) s :
  (forall a s', k a s' = k' a s') -> bind m k s = bind m k' s.
Proof. intros Hk. unfold bind. destruct (outcome (m s)); rewrite ?Hk; reflexivity. Qed.

Lemma bind_after {A B} (m m' : M S E A) (k : A -> M S E B) t s s' :
  m s = prefixed t (m' s') -> bind m k s = prefixed t (bind m' k s').
Proof.
  intros Hm. unfold bind. rewrite Hm. unfold prefixed. cbn.
  destruct (outcome (m' s')); cbn; rewrite ?app_assoc; reflexivity.
Qed.

Lemma bind_ret_l {A B} (a : A) (k : A -> M S E B) s : bind (ret a) k s = k a s.
Proof. unfold bind. simpl. destruct (k a s). reflexivity. Qed.

Lemma bind_throw_l {A B} error (k : A -> M S E B) s :
  bind (throw error) k s = throw error s.
Proof. reflexivity. Qed.

Lemma bind_emit {B} (ev : E) (k : unit -> M S E B) s :
  bind (emit ev) k s = prefixed [ev] (k tt s).
Proof. reflexivity. Qed.

Lemma bind_Throw {A B} (m : M S E A) (k : A -> M S E B) s error :
  outcome (m s) = Throw error ->
  bind m k s = MkRun (Throw error) (final (m s)) (trace (m s)).
Proof. intros Hm. unfold bind. rewrite Hm. reflexivity. Qed.

Lemma outcome_bind {A B} (m : M S E A) (k : A -> M S E B) s :
  outcome (bind m k s) =
  match outcome (m s) with
  | Ret a => outcome (k a (final (m s)))
  | Throw error => Throw error
  | OutOfFuel => OutOfFuel
  end.
Proof. unfold bind. destruct (outcome (m s)); reflexivity. Qed.


Lemma trace_bind {A B} (m : M S E A) (k : A -> M S E B) s :
  trace (bind m k s) =
  trace (m s) ++ match outcome (m s) with
                 | Ret a => trace (k a (final (m s)))
                 | _ => []
                 end.
Proof. unfold bind. destruct (outcome (m s)); simpl; rewrite ?app_nil_r; reflexivity. Qed.

Lemma outcome_tryCatch {A} (m : M S E A) (handler : Thrown -> M S E A) s :
  outcome (tryCatch m handler s) =
  match outcome (m s) with
  | Throw error => outcome (handler error (final (m s)))
  | other => other
  end.
Proof. unfold tryCatch. destruct (outcome (m s)) eqn:Hm; simpl; auto. Qed.

Lemma final_tryCatch {A} (m : M S E A) (handler : Thrown -> M S E A) s :
  final (tryCatch m handler s) =
  match outcome (m s) with
  | Throw error => final (handler error (final (m s)))
  | _ => final (m s)
  end.
Proof. unfold tryCatch. destruct (outcome (m s)) eqn:Hm; simpl; auto. Qed.

Lemma trace_tryCatch {A} (m : M S E A) (handler : Thrown -> M S E A) s :
  trace (tryCatch m handler s) =
  trace (m s) ++ match outcome (m s) with
                 | Throw error => trace (handler error (final (m s)))
                 | _ => []
                 end.
Proof. unfold tryCatch. destruct (outcome (m s)); simpl; rewrite ?app_nil_r; reflexivity. Qed.

Lemma Emits_ret {A} (P : E -> Prop) (a : A) : Emits P (ret a : M S E A).
Proof. intros s. constructor. Qed.

Lemma Emits_throw {A} (P : E -> Prop) error : Emits P (throw error : M S E A).
Proof. intros s. constructor. Qed.

Lemma Emits_outOfFuel {A} (P : E -> Prop) : Emits P (outOfFuel : M S E A).
Proof. intros s. constructor. Qed.

Lemma Emits_emit (P : E -> Prop) ev : P ev -> Emits P (emit ev : M S E unit).
Proof. intros Hev s. simpl. auto. Qed.

Lemma Emits_bind {A B} P (m : M S E A) (k : A -> M S E B) :
  Emits P m -> (forall a, Emits P (k a)) -> Emits P (bind m k).
Proof.
  intros Hm Hk s. rewrite trace_bind. apply Forall_app. split; [apply Hm|].
  destruct (outcome (m s)); [apply Hk | constructor | constructor].
Qed.

Lemma Emits_tryCatch {A} P (m : M S E A) handler :
  Emits P m -> (forall error, Emits P (handler error)) -> Emits P (tryCatch m handler).
Proof.
  intros Hm Hh s. rewrite trace_tryCatch. apply Forall_app. split; [apply Hm|].
  destruct (outcome (m s)); [constructor | apply Hh | constructor].
Qed.

Lemma Emits_tryFinally {A} P (m : M S E A) cleanup :
  Emits P m -> Emits P cleanup -> Emits P (tryFinally m cleanup).
Proof.
  intros Hm Hc s. unfold tryFinally.
  destruct (outcome (m s)); simpl; try apply Forall_app; auto.
Qed.

Lemma Emits_floating {A} P (m : M S E A) : Emits P m -> Emits P (floating m).
Proof. intros Hm s. apply Hm. Qed.

Lemma Emits_read {A} P (f : S -> M S E A) :
  (forall s0, Emits P (f s0)) -> Emits P (fun s => f s s).
Proof. intros Hf s. apply Hf. Qed.

Lemma Emits_weaken {A} (P Q : E -> Prop) (m : M S E A) :
  (forall ev, P ev -> Q ev) -> Emits P m -> Emits Q m.
Proof. intros HPQ Hm s. eapply Forall_impl; [apply Hm | exact HPQ]. Qed.

Lemma Preserves_ret {A T} (proj : S -> T) (a : A) : Preserves proj (ret a : M S E A).
Proof. intros s. reflexivity. Qed.

Lemma Preserves_throw {A T} (proj : S -> T) error :
  Preserves proj (throw error : M S E A).
Proof. intros s. reflexivity. Qed.

Lemma Preserves_outOfFuel {A T} (proj : S -> T) :
  Preserves proj (outOfFuel : M S E A).
Proof. intros s. reflexivity. Qed.

Lemma Preserves_emit {T} (proj : S -> T) (ev : E) :
  Preserves proj (emit ev : M S E unit).
Proof. intros s. reflexivity. Qed.

Lemma Preserves_bind {A B T} (proj : S -> T) (m : M S E A) (k : A -> M S E B) :
  Preserves proj m -> (forall a, Preserves proj (k a)) -> Preserves proj (bind m k).
Proof.
  intros Hm Hk s. unfold bind. destruct (outcome (m s)) eqn:Hout; simpl.
  - rewrite Hk. apply Hm.
  - apply Hm.
  - apply Hm.
Qed.

Lemma Preserves_tryCatch {A T} (proj : S -> T) (m : M S E A) handler :
  Preserves proj m -> (forall error, Preserves proj (handler error)) ->
  Preserves proj (tryCatch m handler).
Proof.
  intros Hm Hh s. unfold tryCatch. destruct (outcome (m s)) eqn:Hout; simpl.
  - apply Hm.
  - rewrite Hh. apply Hm.
  - apply Hm.
Qed.

Lemma Preserves_read {A T} (proj : S -> T) (f : S -> M S E A) :
  (forall s0, Preserves proj (f s0)) -> Preserves proj (fun s => f s s).
Proof. intros Hf s. apply Hf. Qed.

Lemma Fueled_ret {A} (a : A) : Fueled (ret a : M S E A).
Proof. intros s. discriminate. Qed.

Lemma Fueled_throw {A} error : Fueled (throw error : M S E A).
Proof. intros s. discriminate. Qed.

Lemma Fueled_emit (ev : E) : Fueled (emit ev : M S E unit).
Proof. intros s. discriminate. Qed.

Lemma Fueled_bind {A B} (m : M S E A) (k : A -> M S E B) :
  Fueled m -> (forall a, Fueled (k a)) -> Fueled (bind m k).
Proof.
  intros Hm Hk s. rewrite outcome_bind.
  destruct (outcome (m s)) eqn:Hout; [apply Hk | discriminate | now apply Hm in Hout].
Qed.

Lemma Fueled_tryCatch {A} (m : M S E A) handler :
  Fueled m -> (forall error, Fueled (handler error)) -> Fueled (tryCatch m handler).
Proof.
  intros Hm Hh s. rewrite outcome_tryCatch.
  destruct (outcome (m s)) eqn:Hout; [discriminate | apply Hh | now apply Hm in Hout].
Qed.

Lemma Fueled_tryFinally {A} (m : M S E A) cleanup :
  Fueled m -> Fueled cleanup -> Fueled (tryFinally m cleanup).
Proof.
  intros Hm Hc s. unfold tryFinally.
  destruct (outcome (m s)) eqn:Hout; cbn.
  - destruct (outcome (cleanup (final (m s)))) eqn:Hcl; try discriminate.
    now apply Hc in Hcl.
  - destruct (outcome (cleanup (final (m s)))) eqn:Hcl; try discriminate.
    now apply Hc in Hcl.
  - now apply Hm in Hout.
Qed.

Lemma Fueled_read {A} (f : S -> M S E A) :
  (forall s0, Fueled (f s0)) -> Fueled (fun s => f s s).
Proof. intros Hf s. apply Hf. Qed.

End EffectFacts.

(** One step down a computation built from the combinators. *)
Ltac effects_core :=
  first
    [ simple apply Emits_ret | simple apply Emits_throw | simple apply Emits_outOfFuel | simple apply Emits_emit
    | simple apply Emits_bind | simple apply Emits_tryCatch | simple apply Emits_tryFinally
    | simple apply Emits_floating
    | simple apply Preserves_ret | simple apply Preserves_throw | simple apply Preserves_outOfFuel
    | simple apply Preserves_emit | simple apply Preserves_bind | simple apply Preserves_tryCatch
    | simple apply Fueled_ret | simple apply Fueled_throw | simple apply Fueled_emit
    | simple apply Fueled_bind | simple apply Fueled_tryCatch | simple apply Fueled_tryFinally
    | match goal with
      | |- forall _, _ => intro
      | |- Fueled (match ?x with _ => _ end) => destruct x eqn:?
      | |- Emits _ (match ?x with _ => _ end) => destruct x eqn:?
      | |- Preserves _ (match ?x with _ => _ end) => destruct x eqn:?
      end ].

(** ** Calls to the collaborators *)

Section HostFacts.
Context {World : Type} `{Host World}.
Implicit Types (s : RunnerState World) (step : CacheStep) (test : TestFunction World).

Lemma verifiedAt_PointerMove step x y :
  verifiedAt step = Some (x, y) <-> PointerMove step x y.
Proof.
  unfold verifiedAt, PointerMove. split.
  - destruct (step_input step) as [input|]; [|discriminate].
    destruct (String.eqb_spec (action input) BrowserActionEnum.MouseMove); [|discriminate].
    intros Hc. exists input. auto.
  - intros (input & -> & Ha & Hc). rewrite Ha, String.eqb_refl. exact Hc.
Qed.

Lemma hostCall_run {A} ev (op : World -> (Thrown + A) * World) s :
  hostCall ev op s =
  MkRun (match fst (op (world s)) with inl error => Throw error | inr a => Ret a end)
        (withWorld s (snd (op (world s)))) [ev].
Proof. unfold hostCall. destruct (op (world s)). reflexivity. Qed.

Lemma Emits_hostCall {A} (P : Event -> Prop) ev (op : World -> (Thrown + A) * World) :
  P ev -> Emits P (hostCall ev op).
Proof. intros Hev s. rewrite hostCall_run. simpl. auto. Qed.

Lemma Preserves_cache_hostCall {A} ev (op : World -> (Thrown + A) * World) :
  Preserves cacheStore (hostCall ev op).
Proof. intros s. rewrite hostCall_run. reflexivity. Qed.

Lemma Emits_runCallback (P : Event -> Prop) kind (cb : Callback World) :
  P (EvCallback kind) -> Emits P (runCallback kind cb).
Proof. apply Emits_hostCall. Qed.

Lemma Preserves_cache_runCallback kind (cb : Callback World) :
  Preserves cacheStore (runCallback kind cb).
Proof. apply Preserves_cache_hostCall. Qed.

Lemma Emits_cache_get (P : Event -> Prop) test :
  P (EvCacheGet (hashData test)) -> Emits P (cache_get test).
Proof.
  intros Hev. unfold cache_get. apply Emits_bind; [apply Emits_emit; exact Hev|].
  intros _ s. constructor.
Qed.

Lemma Preserves_cache_get test : Preserves cacheStore (cache_get test).
Proof. intros s. reflexivity. Qed.

Lemma cache_get_run test s :
  cache_get test s = MkRun (Ret (cacheStore s !! hashData test)) s [EvCacheGet (hashData test)].
Proof. reflexivity. Qed.

Lemma Fueled_hostCall {A} ev (op : World -> (Thrown + A) * World) :
  Fueled (hostCall ev op).
Proof.
  intros s. rewrite hostCall_run. cbn. destruct (fst (op (world s))); discriminate.
Qed.

Lemma Fueled_cache_get test : Fueled (cache_get test).
Proof. intros s. discriminate. Qed.

End HostFacts.

Ltac effects :=
  repeat first
    [ effects_core
    | simple apply Fueled_hostCall | simple apply Fueled_cache_get
    | simple apply Emits_hostCall | simple apply Preserves_cache_hostCall
    | simple apply Emits_runCallback | simple apply Preserves_cache_runCallback
    | simple apply Emits_cache_get | simple apply Preserves_cache_get ].

(** ** Replay *)

Section ReplayFacts.
Context {World : Type} `{Host World}.
Implicit Types (s : RunnerState World) (step : CacheStep) (test : TestFunction World).

Lemma ReplayEvent_mono test (l l' : list CacheStep) ev :
  (forall step, In step l -> In step l') ->
  ReplayEvent test l ev -> ReplayEvent test l' ev.
Proof.
  intros Hsub. destruct ev; simpl; auto.
  - intros (step & Hin & Hs). eauto.
  - intros (step & Hin & Hs). eauto.
Qed.

Lemma replayStep_emits test step :
  Emits (ReplayEvent test [step]) (replayStep step).
Proof.
  unfold replayStep, verifyStep, executeStep.
  destruct (verifiedAt step) as [[x y]|] eqn:Hv.
  - apply verifiedAt_PointerMove in Hv.
    effects; simpl; eauto using in_eq.
  - effects; simpl; eauto using in_eq.
Qed.

Lemma replaySteps_emits test steps :
  Emits (ReplayEvent test steps) (replaySteps steps).
Proof.
  induction steps as [|step rest IH]; simpl.
  - effects.
  - apply Emits_bind.
    + eapply Emits_weaken; [|apply replayStep_emits].
      intros ev. apply ReplayEvent_mono. intros ? [->|[]]. apply in_eq.
    + intros [r|]; [effects|].
      eapply Emits_weaken; [|apply IH].
      intros ev. apply ReplayEvent_mono. intros ? ?. now apply in_cons.
Qed.

Lemma replayStep_preserves_cache step : Preserves cacheStore (replayStep step).
Proof. unfold replayStep, verifyStep, executeStep. effects. Qed.

Lemma replaySteps_preserves_cache steps : Preserves cacheStore (replaySteps steps).
Proof.
  induction steps as [|step rest IH]; simpl; [effects|].
  apply Preserves_bind; [apply replayStep_preserves_cache|].
  intros [r|]; [effects | apply IH].
Qed.

Lemma runCachedTest_preserves_cache test : Preserves cacheStore (runCachedTest test).
Proof.
  unfold runCachedTest. effects. apply replaySteps_preserves_cache.
Qed.

Lemma runCachedTest_emits test s :
  Forall (ReplayEvent test (replayed test s)) (trace (runCachedTest test s)).
Proof.
  unfold runCachedTest, replayed. rewrite trace_bind, cache_get_run. simpl.
  constructor; [reflexivity|].
  destruct (stepsToReplay (cacheStore s !! hashData test)) as [steps|]; simpl.
  - assert (Hs : Emits (ReplayEvent test steps)
                   (stop <- replaySteps steps ;;
                    match stop with Some r => ret r | None => ret replayedResult end)).
    { effects. apply replaySteps_emits. }
    apply Hs.
  - constructor.
Qed.

Lemma executeStep_completes step s : outcome (executeStep step s) = Ret tt.
Proof.
  unfold executeStep. destruct (step_input step) as [input|]; [|reflexivity].
  rewrite outcome_tryCatch, outcome_bind, hostCall_run. simpl.
  destruct (fst (browserTool_execute input (world s))); reflexivity.
Qed.

Lemma differs_spec live (extras : StepExtras) :
  differs live extras = true <-> componentStr extras <> Some live.
Proof.
  unfold differs. destruct (componentStr extras) as [recorded|].
  - destruct (String.eqb_spec live recorded); simpl; split; congruence.
  - split; [discriminate | reflexivity].
Qed.

Lemma verifyStep_verifies step s :
  StepVerifies step s -> outcome (verifyStep step s) = Ret None.
Proof.
  intros Hv. unfold verifyStep.
  destruct (verifiedAt step) as [[x y]|] eqn:Hat; [|reflexivity].
  apply verifiedAt_PointerMove in Hat. destruct (Hv x y Hat) as (live & Hlive & Hrec).
  rewrite outcome_bind, hostCall_run. simpl. rewrite Hlive.
  unfold extras_componentStr in Hrec.
  destruct (step_extras step) as [extras|]; [|discriminate].
  destruct (differs live extras) eqn:Hd; [|reflexivity].
  apply differs_spec in Hd. contradiction.
Qed.

Lemma verifyStep_mismatches step s :
  StepMismatches step s ->
  exists x y,
    outcome (verifyStep step s) = Ret (Some mismatchResult) /\
    trace (verifyStep step s) = [EvFingerprint x y].
Proof.
  intros (x & y & live & Hpm & Hlive & Hext & Hrec). exists x, y.
  apply verifiedAt_PointerMove in Hpm. unfold extras_componentStr in Hrec.
  unfold verifyStep. rewrite Hpm, outcome_bind, trace_bind, hostCall_run. simpl.
  rewrite Hlive. destruct (step_extras step) as [extras|]; [|contradiction].
  apply differs_spec in Hrec. rewrite Hrec. split; reflexivity.
Qed.

Lemma replayStep_verifies step s :
  StepVerifies step s -> outcome (replayStep step s) = Ret None.
Proof.
  intros Hv. unfold replayStep.
  rewrite outcome_bind. simpl. rewrite outcome_bind, (verifyStep_verifies _ _ Hv).
  rewrite outcome_bind, executeStep_completes. reflexivity.
Qed.

(** A mismatching step stops the replay on the spot: the verdict is the
    mismatch verdict and the step itself is not executed. *)
Lemma replayStep_mismatches step s :
  StepMismatches step s ->
  exists x y,
    outcome (replayStep step s) = Ret (Some mismatchResult) /\
    trace (replayStep step s) = [EvSettle; EvFingerprint x y].
Proof.
  intros Hm. destruct (verifyStep_mismatches _ _ Hm) as (x & y & Ho & Ht).
  exists x, y. unfold replayStep.
  rewrite outcome_bind, trace_bind. simpl.
  rewrite outcome_bind, trace_bind, Ho, Ht. split; reflexivity.
Qed.

Lemma replaySteps_clean steps s :
  CleanReplay steps s -> outcome (replaySteps steps s) = Ret None.
Proof.
  induction 1 as [s | step rest s Hv Hrest IH]; [reflexivity|].
  simpl. rewrite outcome_bind, (replayStep_verifies _ _ Hv). exact IH.
Qed.

Lemma replaySteps_mismatch steps s :
  FirstMismatch steps s ->
  outcome (replaySteps steps s) = Ret (Some mismatchResult) /\
  exists x y t, trace (replaySteps steps s) = t ++ [EvFingerprint x y].
Proof.
  induction 1 as [step rest s Hm | step rest s Hv Hrest [IHo (x & y & t & IHt)]].
  - destruct (replayStep_mismatches _ _ Hm) as (x & y & Ho & Ht).
    simpl. rewrite outcome_bind, trace_bind, Ho, Ht. split; [reflexivity|].
    exists x, y, [EvSettle]. reflexivity.
  - simpl. rewrite outcome_bind, trace_bind, (replayStep_verifies _ _ Hv).
    split; [exact IHo|].
    exists x, y, (trace (replayStep step s) ++ t). rewrite IHt, app_assoc. reflexivity.
Qed.

Lemma runCachedTest_no_steps test s entry :
  cacheStore s !! hashData test = Some entry ->
  data_steps entry = None ->
  runCachedTest test s = MkRun (Ret noStepsResult) s [EvCacheGet (hashData test)].
Proof.
  intros Hget Hsteps. unfold runCachedTest, bind. rewrite cache_get_run. simpl.
  rewrite Hget. simpl. rewrite Hsteps. reflexivity.
Qed.

Lemma runCachedTest_steps test s entry steps :
  cacheStore s !! hashData test = Some entry ->
  data_steps entry = Some steps ->
  let r := replaySteps (List.filter notScreenshot steps) s in
  runCachedTest test s =
  MkRun (match outcome r with
         | Ret (Some v) => Ret v
         | Ret None => Ret replayedResult
         | Throw error => Throw error
         | OutOfFuel => OutOfFuel
         end) (final r) (EvCacheGet (hashData test) :: trace r).
Proof.
  intros Hget Hsteps. unfold runCachedTest, bind at 1. rewrite cache_get_run. simpl.
  rewrite Hget. simpl. rewrite Hsteps. unfold bind.
  destruct (outcome (replaySteps _ s)) as [[v|]| |]; simpl; rewrite ?app_nil_r; reflexivity.
Qed.




End ReplayFacts.

(** ** The three paths of [executeTest] *)

Section ExecuteFacts.
Context {World : Type} `{Host World}.
Variable this : TestRunner.
Implicit Types (s : RunnerState World) (test : TestFunction World) (config : ExecConfig).

Lemma runCallback_run kind (cb : Callback World) s :
  runCallback kind cb s =
  MkRun (match fst (cb (world s)) with Some error => Throw error | None => Ret tt end)
        (withWorld s (snd (cb (world s)))) [EvCallback kind].
Proof.
  unfold runCallback. rewrite hostCall_run. destruct (cb (world s)) as [[error|] w]; reflexivity.
Qed.

(** The after-hook never lets an exception out: it resolves, or its error
    becomes a failed result. *)
Lemma runAfterFn_run test ai usage s :
  runAfterFn test ai usage s =
  match afterFn test with
  | Some cb =>
      MkRun (Ret (match fst (cb (world s)) with
                  | Some error => Some (failedWith (afterFailureReason ai error) usage)
                  | None => None
                  end))
            (withWorld s (snd (cb (world s)))) [EvCallback AfterFn]
  | None => MkRun (Ret None) s []
  end.
Proof.
  unfold runAfterFn. destruct (afterFn test) as [cb|]; [|reflexivity].
  unfold tryCatch, bind. rewrite runCallback_run. simpl.
  destruct (fst (cb (world s))); reflexivity.
Qed.


Lemma runAfterFn_emits test ai usage :
  Emits (fun ev => ev = EvCallback AfterFn) (runAfterFn test ai usage).
Proof.
  intros s. rewrite runAfterFn_run. destruct (afterFn test); simpl; auto.
Qed.

Lemma runAfterFn_preserves_cache test ai usage :
  Preserves cacheStore (runAfterFn test ai usage).
Proof. intros s. rewrite runAfterFn_run. destruct (afterFn test); reflexivity. Qed.

Lemma cache_get_bind {B} test (k : option CacheEntry -> R World B) s :
  bind (cache_get test) k s =
  prefixed [EvCacheGet (hashData test)] (k (cacheStore s !! hashData test) s).
Proof. apply bind_Ret. reflexivity. Qed.

(** What the cache branch does when no replay is attempted. *)
Lemma cachedBranch_skipped retry test config initialState s :
  NoReplay this test config s ->
  cachedBranch this retry test config initialState s =
  MkRun (Ret None) s
        (if negb (noCache this) && negb (config_noCache config)
         then [EvCacheGet (hashData test)] else []).
Proof.
  intros Hno. unfold cachedBranch.
  destruct (negb (noCache this) && negb (config_noCache config)) eqn:Hon;
    [|reflexivity].
  apply andb_true_iff in Hon as [H1 H2].
  apply negb_true_iff in H1, H2.
  destruct Hno as [Hno|[Hno|Hno]]; try congruence.
  rewrite cache_get_bind, Hno. reflexivity.
Qed.

(** What the cache branch does on a hit whose replay returns [result]:
    the after-hook runs, and the branch returns out of [executeTest]. *)
Lemma cachedBranch_replayed retry test config initialState s entry result :
  noCache this = false -> config_noCache config = false ->
  cacheStore s !! hashData test = Some entry ->
  outcome (runCachedTest test s) = Ret result ->
  let rc := runCachedTest test s in
  let ra := runAfterFn test result zeroTokens (final rc) in
  cachedBranch this retry test config initialState s =
  MkRun (Ret (Some (match outcome ra with
                    | Ret (Some v) => v
                    | _ => {| status := status result; reason := reason result;
                              tokenUsage := zeroTokens |}
                    end)))
        (final ra)
        (EvCacheGet (hashData test) :: trace rc ++ trace ra).
Proof.
  intros Hn Hc Hget Hrc rc ra. unfold cachedBranch. rewrite Hn, Hc. cbn [negb andb].
  rewrite cache_get_bind, Hget.
  match goal with |- context [tryCatch ?body ?handler s] =>
    assert (Hbody : body s =
                    MkRun (Ret (Some (match outcome ra with
                                      | Ret (Some v) => v
                                      | _ => {| status := status result;
                                                reason := reason result;
                                                tokenUsage := zeroTokens |}
                                      end)))
                          (final ra) (trace rc ++ trace ra))
  end.
  { rewrite (bind_Ret _ _ _ _ Hrc). fold rc. unfold bind. fold ra.
    destruct ra as [[[v|]| |] fa ta] eqn:Hra; cbn; rewrite ?app_nil_r; try reflexivity.
    - subst ra. rewrite runAfterFn_run in Hra. destruct (afterFn test); discriminate.
    - subst ra. rewrite runAfterFn_run in Hra. destruct (afterFn test); discriminate. }
  erewrite tryCatch_Ret by (rewrite Hbody; reflexivity).
  rewrite Hbody. reflexivity.
Qed.

(** What it does on a hit whose replay throws: the entry is deleted, the
    page reset, the test run again without cache, and the result of that
    run dropped. *)
Lemma cachedBranch_invalidated retry test config initialState s entry error :
  noCache this = false -> config_noCache config = false ->
  cacheStore s !! hashData test = Some entry ->
  outcome (runCachedTest test s) = Throw error ->
  let rc := runCachedTest test s in
  cachedBranch this retry test config initialState s =
  prefixed (EvCacheGet (hashData test) :: trace rc)
    ((cache_delete test ;;;
      hostCall (EvGoto (window_url initialState)) (page_goto (window_url initialState)) ;;;
      retry ;;;
      ret None) (final rc)).
Proof.
  intros Hn Hc Hget Hrc rc. unfold cachedBranch. rewrite Hn, Hc. cbn [negb andb].
  rewrite cache_get_bind, Hget.
  erewrite tryCatch_Throw.
  - rewrite (bind_Throw _ _ _ _ Hrc). cbn [trace final]. fold rc.
    rewrite prefixed_prefixed. reflexivity.
  - rewrite outcome_bind, Hrc. reflexivity.
Qed.

Lemma hostCall_bind {A B} ev (op : World -> (Thrown + A) * World) (k : A -> R World B)
    s a w :
  op (world s) = (inr a, w) ->
  bind (hostCall ev op) k s = prefixed [ev] (k a (withWorld s w)).
Proof.
  intros Hop.
  rewrite (bind_Ret _ _ _ a) by (rewrite hostCall_run, Hop; reflexivity).
  rewrite hostCall_run, Hop. reflexivity.
Qed.

Lemma hostCall_bind_throw {A B} ev (op : World -> (Thrown + A) * World)
    (k : A -> R World B) s error w :
  op (world s) = (inl error, w) ->
  bind (hostCall ev op) k s = MkRun (Throw error) (withWorld s w) [ev].
Proof.
  intros Hop.
  rewrite (bind_Throw _ _ _ error) by (rewrite hostCall_run, Hop; reflexivity).
  rewrite hostCall_run, Hop. reflexivity.
Qed.

(** [executeTest] up to the cache branch, for a test that is not a direct
    execution, with the key set and the initial screenshot taken. *)
Lemma executeTest_start fuel test config s initialState w1 :
  directExecution test = false ->
  JsString.truthy (anthropicKey this) = true ->
  browserTool_execute screenshotInput (world s) = (inr initialState, w1) ->
  executeTest this (Datatypes.S fuel) test config s =
  prefixed [EvExecute screenshotInput]
    ((stop <- cachedBranch this (executeTest this fuel test {| config_noCache := true |})
                           test config initialState ;;
      match stop with
      | Some r => ret r
      | None => freshRun test initialState
      end) (withWorld s w1)).
Proof.
  intros Hd Hk Hshot. cbn [executeTest]. rewrite Hd, Hk. cbn [negb].
  rewrite (hostCall_bind _ _ _ s initialState w1 Hshot). reflexivity.
Qed.

Lemma executeTest_fresh fuel test config s initialState w1 :
  FreshStart this test config s initialState w1 ->
  executeTest this (Datatypes.S fuel) test config s =
  prefixed (freshPrefix this test config) (freshRun test initialState (withWorld s w1)).
Proof.
  intros (Hd & Hk & Hshot & Hno).
  rewrite (executeTest_start _ _ _ _ _ _ Hd Hk Hshot).
  unfold bind at 1. rewrite (cachedBranch_skipped _ _ _ _ (withWorld s w1) Hno).
  cbn [outcome final trace]. reflexivity.
Qed.

Lemma executeTest_replayed fuel test config s initialState w1 entry result :
  CacheHit this test config s initialState w1 entry ->
  outcome (runCachedTest test (withWorld s w1)) = Ret result ->
  let rc := runCachedTest test (withWorld s w1) in
  let ra := runAfterFn test result zeroTokens (final rc) in
  executeTest this (Datatypes.S fuel) test config s =
  MkRun (Ret (match outcome ra with
              | Ret (Some v) => v
              | _ => {| status := status result; reason := reason result;
                        tokenUsage := zeroTokens |}
              end))
        (final ra)
        (EvExecute screenshotInput :: EvCacheGet (hashData test) :: trace rc ++ trace ra).
Proof.
  intros (Hd & Hk & Hn & Hc & Hshot & Hget) Hrc rc ra.
  rewrite (executeTest_start _ _ _ _ _ _ Hd Hk Hshot).
  unfold bind at 1.
  rewrite (cachedBranch_replayed _ _ _ _ (withWorld s w1) entry result Hn Hc Hget Hrc).
  fold rc. fold ra. unfold prefixed. cbn. rewrite app_nil_r. reflexivity.
Qed.

Lemma executeTest_invalidated fuel test config s initialState w1 entry error :
  CacheHit this test config s initialState w1 entry ->
  outcome (runCachedTest test (withWorld s w1)) = Throw error ->
  let rc := runCachedTest test (withWorld s w1) in
  executeTest this (Datatypes.S fuel) test config s =
  prefixed (EvExecute screenshotInput :: EvCacheGet (hashData test) :: trace rc)
    ((cache_delete test ;;;
      hostCall (EvGoto (window_url initialState)) (page_goto (window_url initialState)) ;;;
      executeTest this fuel test {| config_noCache := true |} ;;;
      freshRun test initialState) (final rc)).
Proof.
  intros (Hd & Hk & Hn & Hc & Hshot & Hget) Hrc rc.
  rewrite (executeTest_start _ _ _ _ _ _ Hd Hk Hshot).
  erewrite bind_after
    by exact (cachedBranch_invalidated _ _ _ _ (withWorld s w1) entry error Hn Hc Hget Hrc).
  fold rc. rewrite prefixed_prefixed. f_equal.
  rewrite bind_assoc. apply bind_cong. intros _ s2.
  rewrite bind_assoc. apply bind_cong. intros _ s3.
  rewrite bind_assoc. apply bind_cong. intros _ s4.
  rewrite bind_ret_l. reflexivity.
Qed.

(** *** Counting events *)

Lemma filter_none (f : Event -> bool) (t : list Event) :
  Forall (fun ev => f ev = false) t -> List.filter f t = [].
Proof.
  induction 1 as [|ev t Hev _ IH]; [reflexivity|]. cbn. rewrite Hev. exact IH.
Qed.

Lemma ReplayEvent_kind test steps ev :
  ReplayEvent test steps ev ->
  isProcessAction ev = false /\ isCacheDelete ev = false /\ isCacheSet ev = false.
Proof. destruct ev; cbn; intuition. Qed.

Lemma replay_trace_quiet (f : Event -> bool) test s :
  (forall steps ev, ReplayEvent test steps ev -> f ev = false) ->
  List.filter f (trace (runCachedTest test s)) = [].
Proof.
  intros Hf. apply filter_none.
  eapply Forall_impl; [apply runCachedTest_emits|]. intros ev. apply Hf.
Qed.

Lemma after_trace_quiet (f : Event -> bool) test ai usage s :
  f (EvCallback AfterFn) = false ->
  List.filter f (trace (runAfterFn test ai usage s)) = [].
Proof.
  intros Hf. apply filter_none.
  eapply Forall_impl; [apply runAfterFn_emits|]. intros ev ->. exact Hf.
Qed.

(** A replay that returns, whatever its verdict, is the end of
    [executeTest]: no model call, no deletion, the store untouched. *)
Lemma executeTest_replayed_quiet fuel test config s initialState w1 entry result :
  CacheHit this test config s initialState w1 entry ->
  outcome (runCachedTest test (withWorld s w1)) = Ret result ->
  let r := executeTest this (Datatypes.S fuel) test config s in
  modelCalls (trace r) = 0 /\
  List.filter isCacheDelete (trace r) = [] /\
  cacheStore (final r) = cacheStore s.
Proof.
  intros Hhit Hrc r. subst r.
  rewrite (executeTest_replayed _ _ _ _ _ _ _ _ Hhit Hrc). cbn [trace final].
  unfold modelCalls. cbn [List.filter isProcessAction isCacheDelete].
  rewrite !List.filter_app.
  rewrite !(replay_trace_quiet _ test) by (intros ? ? Hev; apply (ReplayEvent_kind _ _ _ Hev)).
  rewrite !after_trace_quiet by reflexivity.
  rewrite runAfterFn_preserves_cache, runCachedTest_preserves_cache. auto.
Qed.

End ExecuteFacts.

(** ** The fresh run *)

Section FreshFacts.
Context {World : Type} `{Host World}.
Variable this : TestRunner.
Implicit Types (s : RunnerState World) (test : TestFunction World) (config : ExecConfig).

Lemma runBeforeFn_run test s :
  runBeforeFn test s =
  match beforeFn test with
  | Some cb =>
      MkRun (Ret (match fst (cb (world s)) with
                  | Some error => Some (failedWith (errorText error) zeroTokens)
                  | None => None
                  end))
            (withWorld s (snd (cb (world s)))) [EvCallback BeforeFn]
  | None => MkRun (Ret None) s []
  end.
Proof.
  unfold runBeforeFn. destruct (beforeFn test) as [cb|]; [|reflexivity].
  unfold tryCatch, bind. rewrite runCallback_run. simpl.
  destruct (fst (cb (world s))); reflexivity.
Qed.

Lemma concludeRun_run test result parsed s :
  let ai := aiResultOf result parsed in
  let ra := runAfterFn test ai (result_tokenUsage result) s in
  concludeRun test result parsed s =
  match outcome ra with
  | Ret (Some v) => MkRun (Ret v) (final ra) (trace ra)
  | _ =>
      if String.eqb (parsed_status parsed) "passed"
      then MkRun (Ret ai)
                 (withCache (final ra)
                    (<[hashData test := pendingCache result]> (cacheStore (final ra))))
                 (trace ra ++ [EvCacheSet (hashData test)])
      else MkRun (Ret ai) (final ra) (trace ra)
  end.
Proof.
  intros ai ra. unfold concludeRun. fold ai. unfold bind at 1. fold ra.
  subst ra. rewrite runAfterFn_run.
  destruct (afterFn test) as [cb|]; cbn [outcome final trace].
  - destruct (fst (cb (world s))); cbn [outcome final trace].
    + rewrite app_nil_r. reflexivity.
    + cbn [status ai aiResultOf]. unfold ai, aiResultOf. cbn [status].
      destruct (String.eqb (parsed_status parsed) "passed"); reflexivity.
  - unfold ai, aiResultOf. cbn [status].
    destruct (String.eqb (parsed_status parsed) "passed"); reflexivity.
Qed.

Lemma modelRun_run test initialState s :
  modelRun test initialState s =
  match fst (aiClient_processAction test initialState (world s)) with
  | inr (Some result) =>
      prefixed [EvProcessAction (name test)]
        (match parseAiResult result with
         | inl error =>
             throw error (withWorld s (snd (aiClient_processAction test initialState (world s))))
         | inr parsed =>
             concludeRun test result parsed
               (withWorld s (snd (aiClient_processAction test initialState (world s))))
         end)
  | inr None =>
      MkRun (Throw (ErrorObj "AI processing failed: no result returned"))
            (withWorld s (snd (aiClient_processAction test initialState (world s))))
            [EvProcessAction (name test)]
  | inl error =>
      MkRun (Throw error)
            (withWorld s (snd (aiClient_processAction test initialState (world s))))
            [EvProcessAction (name test)]
  end.
Proof.
  unfold modelRun.
  destruct (aiClient_processAction test initialState (world s)) as [[error|[result|]] w]
    eqn:Hm; cbn [fst snd].
  - apply (hostCall_bind_throw _ _ _ _ _ _ Hm).
  - rewrite (hostCall_bind _ _ _ _ _ _ Hm).
    destruct (parseAiResult result); cbn [liftThrown];
      rewrite ?bind_ret_l, ?bind_throw_l; reflexivity.
  - rewrite (hostCall_bind _ _ _ _ _ _ Hm). reflexivity.
Qed.

Lemma freshRun_run test initialState s :
  freshRun test initialState s =
  match beforeFn test with
  | Some cb =>
      match fst (cb (world s)) with
      | Some error =>
          MkRun (Ret (failedWith (errorText error) zeroTokens))
                (withWorld s (snd (cb (world s)))) [EvCallback BeforeFn]
      | None =>
          prefixed [EvCallback BeforeFn]
            (modelRun test initialState (withWorld s (snd (cb (world s)))))
      end
  | None => modelRun test initialState s
  end.
Proof.
  unfold freshRun, bind. rewrite runBeforeFn_run.
  destruct (beforeFn test) as [cb|]; cbn [outcome final trace].
  - destruct (fst (cb (world s))); reflexivity.
  - destruct (modelRun test initialState s). reflexivity.
Qed.

(** A fresh run whose before-hook throws ends there. *)
Lemma freshRun_before_throws test initialState s error w2 :
  BeforeThrows test (world s) error w2 ->
  freshRun test initialState s =
  MkRun (Ret (failedWith (errorText error) zeroTokens)) (withWorld s w2)
        [EvCallback BeforeFn].
Proof.
  intros (cb & Hcb & Hrun). rewrite freshRun_run, Hcb, Hrun. reflexivity.
Qed.

(** A fresh run whose before-hook resolves and whose model call resolves
    to [result]: the verdict is parsed, and the run concluded. *)
Lemma freshRun_replied test initialState s w2 result w3 :
  BeforeResolves test (world s) w2 ->
  ModelReplies test initialState w2 result w3 ->
  freshRun test initialState s =
  prefixed (beforeEvents test ++ [EvProcessAction (name test)])
    (match parseAiResult result with
     | inl error => throw error (withWorld s w3)
     | inr parsed => concludeRun test result parsed (withWorld s w3)
     end).
Proof.
  unfold BeforeResolves, ModelReplies, beforeEvents. intros Hb Hm.
  rewrite freshRun_run.
  destruct (beforeFn test) as [cb|].
  - rewrite Hb. cbn [fst snd]. rewrite modelRun_run. cbn [world withWorld].
    rewrite Hm. cbn [fst snd]. rewrite prefixed_prefixed. reflexivity.
  - subst w2. rewrite modelRun_run, Hm. reflexivity.
Qed.

Lemma StoresIffPassed_prefixed test s t r :
  List.filter isCacheSet t = [] ->
  StoresIffPassed test s r -> StoresIffPassed test s (prefixed t r).
Proof.
  intros Ht [Hiff Hkeep]. split; [|exact Hkeep].
  cbn [prefixed outcome trace]. rewrite <- Hiff, in_app_iff. split; [|auto].
  intros [Hin|Hin]; [|exact Hin].
  assert (Hf : In (EvCacheSet (hashData test)) (List.filter isCacheSet t)).
  { apply List.filter_In. split; [exact Hin | reflexivity]. }
  rewrite Ht in Hf. destruct Hf.
Qed.

Lemma StoresIffPassed_throw test s error s' t :
  List.filter isCacheSet t = [] ->
  StoresIffPassed test s (MkRun (Throw error) s' t).
Proof.
  intros Ht. split; cbn [outcome trace final].
  - split.
    + intros Hin.
      assert (Hf : In (EvCacheSet (hashData test)) (List.filter isCacheSet t)).
      { apply List.filter_In. split; [exact Hin | reflexivity]. }
      rewrite Ht in Hf. destruct Hf.
    + intros (v & Hv & _). discriminate.
  - intros v Hv. discriminate.
Qed.

Lemma concludeRun_stores test result parsed s :
  StoresIffPassed test s (concludeRun test result parsed s).
Proof.
  rewrite concludeRun_run. cbv zeta. rewrite runAfterFn_run.
  destruct (afterFn test) as [cb|]; cbn [outcome final trace].
  - destruct (fst (cb (world s))) as [error|].
    + split; cbn [outcome final trace].
      * split; [intros [Hin|[]]; discriminate | intros (v & [= <-] & Hs); discriminate].
      * reflexivity.
    + destruct (String.eqb_spec (parsed_status parsed) "passed") as [Hp|Hp];
        split; cbn [outcome final trace app].
      * split; [intros _; eexists; split; [reflexivity | exact Hp] | cbn; auto].
      * intros v [= <-] Hs. destruct (Hs Hp).
      * split; [intros [Hin|[]]; discriminate | intros (v & [= <-] & Hs); destruct (Hp Hs)].
      * reflexivity.
  - destruct (String.eqb_spec (parsed_status parsed) "passed") as [Hp|Hp];
      split; cbn [outcome final trace app].
    + split; [intros _; eexists; split; [reflexivity | exact Hp] | cbn; auto].
    + intros v [= <-] Hs. destruct (Hs Hp).
    + split; [intros [] | intros (v & [= <-] & Hs); destruct (Hp Hs)].
    + reflexivity.
Qed.

Lemma modelRun_stores test initialState s :
  StoresIffPassed test s (modelRun test initialState s).
Proof.
  rewrite modelRun_run.
  destruct (fst (aiClient_processAction test initialState (world s))) as [error|[result|]].
  - apply StoresIffPassed_throw. reflexivity.
  - apply StoresIffPassed_prefixed; [reflexivity|].
    destruct (parseAiResult result) as [error|parsed].
    + apply (StoresIffPassed_throw _ _ _ _ []). reflexivity.
    + apply (concludeRun_stores test result parsed (withWorld s _)).
  - apply StoresIffPassed_throw. reflexivity.
Qed.

Lemma freshRun_stores test initialState s :
  StoresIffPassed test s (freshRun test initialState s).
Proof.
  rewrite freshRun_run. destruct (beforeFn test) as [cb|].
  - destruct (fst (cb (world s))) as [error|].
    + split; cbn [outcome final trace].
      * split; [intros [Hin|[]]; discriminate | intros (v & [= <-] & Hs); discriminate].
      * reflexivity.
    + apply StoresIffPassed_prefixed; [reflexivity|].
      apply (modelRun_stores test initialState (withWorld s _)).
  - apply modelRun_stores.
Qed.

End FreshFacts.

(** ** Replay with verification *)

Section ReplayTheorems.
Context {World : Type} `{Host World}.
Variable this : TestRunner.
Implicit Types (s : RunnerState World) (test : TestFunction World) (config : ExecConfig).



(** C1, what the code does.  When a replayed step carries a recorded
    fingerprint and the live one differs, the replay stops at the
    fingerprint query of that step and [executeTest] returns a failed
    verdict: the cache entry is still there, nothing was deleted and no
    model call was made. *)
Theorem stale_fingerprint_not_invalidated fuel test config s initialState w1 entry steps :
  CacheHit this test config s initialState w1 entry ->
  data_steps entry = Some steps ->
  FirstMismatch (List.filter notScreenshot steps) (withWorld s w1) ->
  let r := executeTest this (Datatypes.S fuel) test config s in
  (exists v, outcome r = Ret v /\ status v = "failed" /\ tokenUsage v = zeroTokens) /\
  (exists x y t, trace (runCachedTest test (withWorld s w1)) = t ++ [EvFingerprint x y]) /\
  modelCalls (trace r) = 0 /\
  List.filter isCacheDelete (trace r) = [] /\
  cacheStore (final r) !! hashData test = Some entry.
Proof.
  intros Hhit Hsteps Hmis r.
  pose proof Hhit as (_ & _ & _ & _ & _ & Hget).
  pose proof (runCachedTest_steps test (withWorld s w1) entry steps Hget Hsteps) as Hrun.
  cbv zeta in Hrun.
  destruct (replaySteps_mismatch _ _ Hmis) as (Hout & x & y & t & Htr).
  assert (Hrc : outcome (runCachedTest test (withWorld s w1)) = Ret mismatchResult).
  { rewrite Hrun. cbn [outcome]. rewrite Hout. reflexivity. }
  destruct (executeTest_replayed_quiet this fuel _ _ _ _ _ _ _ Hhit Hrc) as (Hm & Hd & Hc).
  repeat split; try assumption.
  - subst r. rewrite (executeTest_replayed this _ _ _ _ _ _ _ _ Hhit Hrc). cbn [outcome].
    rewrite runAfterFn_run.
    destruct (afterFn test) as [cb|]; cbn [outcome];
      [destruct (fst (cb _))|]; eexists; repeat split; reflexivity.
  - exists x, y, (EvCacheGet (hashData test) :: t). rewrite Hrun. cbn [trace].
    rewrite Htr. reflexivity.
  - fold r in Hc. rewrite Hc. exact Hget.
Qed.

(** C10, as amended.  On a cache hit whose entry has no steps,
    [executeTest] returns a failed verdict with zero token usage; its
    reason is "No steps to execute, running test in normal mode" when the
    after-hook is absent or resolves, and that reason composed with the
    error of the after-hook when it throws.  The entry is not deleted and
    no model call follows. *)
Theorem no_steps_fails_without_fallback fuel test config s initialState w1 entry :
  CacheHit this test config s initialState w1 entry ->
  data_steps entry = None ->
  let r := executeTest this (Datatypes.S fuel) test config s in
  outcome r =
    Ret {| status := "failed";
           reason := match afterFn test with
                     | Some cb =>
                         match fst (cb w1) with
                         | Some error =>
                             "AI: " +:+ noStepsReason +:+ ", After: " +:+ errorText error
                         | None => noStepsReason
                         end
                     | None => noStepsReason
                     end;
           tokenUsage := {| tokens_input := 0; tokens_output := 0 |} |} /\
  modelCalls (trace r) = 0 /\
  List.filter isCacheDelete (trace r) = [] /\
  cacheStore (final r) !! hashData test = Some entry.
Proof.
  intros Hhit Hsteps r.
  pose proof Hhit as (_ & _ & _ & _ & _ & Hget).
  pose proof (runCachedTest_no_steps test (withWorld s w1) entry Hget Hsteps) as Hrun.
  assert (Hrc : outcome (runCachedTest test (withWorld s w1)) = Ret noStepsResult).
  { rewrite Hrun. reflexivity. }
  destruct (executeTest_replayed_quiet this fuel _ _ _ _ _ _ _ Hhit Hrc) as (Hm & Hd & Hc).
  repeat split; try assumption.
  - subst r. rewrite (executeTest_replayed this _ _ _ _ _ _ _ _ Hhit Hrc). cbn [outcome].
    rewrite Hrun. cbn [final]. rewrite runAfterFn_run.
    destruct (afterFn test) as [cb|]; cbn [outcome world withWorld]; [|reflexivity].
    destruct (fst (cb w1)); reflexivity.
  - fold r in Hc. rewrite Hc. exact Hget.
Qed.

End ReplayTheorems.

(** ** Fresh runs *)

Section FreshTheorems.
Context {World : Type} `{Host World}.
Variable this : TestRunner.
Implicit Types (s : RunnerState World) (test : TestFunction World) (config : ExecConfig).

Lemma freshPrefix_quiet (f : Event -> bool) test config :
  (forall input, f (EvExecute input) = false) ->
  (forall key, f (EvCacheGet key) = false) ->
  List.filter f (freshPrefix this test config) = [].
Proof.
  intros He Hg. unfold freshPrefix. cbn [List.filter]. rewrite He.
  destruct (negb (noCache this) && negb (config_noCache config)); cbn [List.filter];
    rewrite ?Hg; reflexivity.
Qed.

(** C8.  For every execution of a test that is not a direct execution and
    that does not replay (caching disabled on either side, or no entry in
    the store), [cache.set] is called if and only if [executeTest] returns
    a result whose status is "passed"; when it returns any other result
    the store is left as it was. *)
Theorem cache_set_iff_passed fuel test config s :
  directExecution test = false ->
  NoReplay this test config s ->
  let r := executeTest this (Datatypes.S fuel) test config s in
  (In (EvCacheSet (hashData test)) (trace r) <->
   exists v, outcome r = Ret v /\ status v = "passed") /\
  (forall v, outcome r = Ret v -> status v <> "passed" ->
             cacheStore (final r) = cacheStore s).
Proof.
  intros Hd Hno r. change (StoresIffPassed test s r). subst r.
  destruct (JsString.truthy (anthropicKey this)) eqn:Hk.
  - destruct (browserTool_execute screenshotInput (world s)) as [[error|initialState] w1]
      eqn:Hshot.
    + cbn [executeTest]. rewrite Hd, Hk. cbn [negb].
      rewrite (hostCall_bind_throw _ _ _ _ _ _ Hshot).
      apply StoresIffPassed_throw. reflexivity.
    + rewrite (executeTest_fresh this fuel test config s initialState w1)
        by (repeat split; assumption).
      apply StoresIffPassed_prefixed.
      * apply freshPrefix_quiet; reflexivity.
      * apply (freshRun_stores test initialState (withWorld s w1)).
  - cbn [executeTest]. rewrite Hd, Hk. cbn [negb].
    split; cbn [outcome final trace ret].
    + split; [intros [] | intros (v & [= <-] & Hs); discriminate].
    + reflexivity.
Qed.

(** C5, as amended.  When the before-hook of a test that is not a direct
    execution throws on the path without replay, [executeTest] returns a
    failed verdict whose reason is the text of the hook's error, with zero
    token usage; no model call is made, and the after-hook is not run. *)
Theorem before_hook_failure fuel test config s initialState w1 error w2 :
  FreshStart this test config s initialState w1 ->
  BeforeThrows test w1 error w2 ->
  let r := executeTest this (Datatypes.S fuel) test config s in
  outcome r = Ret {| status := "failed"; reason := errorText error;
                     tokenUsage := {| tokens_input := 0; tokens_output := 0 |} |} /\
  modelCalls (trace r) = 0 /\
  afterHookRuns (trace r) = false.
Proof.
  intros Hfresh Hb r. subst r.
  rewrite (executeTest_fresh this fuel test config s initialState w1 Hfresh).
  rewrite (freshRun_before_throws test initialState (withWorld s w1) error w2 Hb).
  cbn [prefixed outcome trace]. split; [reflexivity|].
  unfold freshPrefix, modelCalls, afterHookRuns.
  destruct (negb (noCache this) && negb (config_noCache config)); split; reflexivity.
Qed.

(** C4, as amended.  When the model-driven run of a test yields a parsed
    verdict and the after-hook then throws, [executeTest] returns a failed
    verdict: its reason is "AI: <reason of the verdict>, After: <text of the
    error>" when the status of the verdict is "failed", and the text of the
    error alone for any other status, "passed" included.  Nothing is written
    to the cache. *)
Theorem after_hook_failure_reason fuel test config s initialState
    w1 w2 w3 w4 result parsed error :
  FreshStart this test config s initialState w1 ->
  BeforeResolves test w1 w2 ->
  ModelReplies test initialState w2 result w3 ->
  parseAiResult result = inr parsed ->
  AfterThrows test w3 error w4 ->
  let r := executeTest this (Datatypes.S fuel) test config s in
  outcome r =
    Ret {| status := "failed";
           reason := if String.eqb (parsed_status parsed) "failed"
                     then "AI: " +:+ parsed_reason parsed +:+ ", After: " +:+ errorText error
                     else errorText error;
           tokenUsage := result_tokenUsage result |} /\
  List.filter isCacheSet (trace r) = [].
Proof.
  intros Hfresh Hb Hm Hparse (cb & Hcb & Hrun) r. subst r.
  rewrite (executeTest_fresh this fuel test config s initialState w1 Hfresh).
  rewrite (freshRun_replied test initialState (withWorld s w1) w2 result w3 Hb Hm).
  rewrite Hparse, concludeRun_run. cbv zeta. rewrite runAfterFn_run, Hcb.
  cbn [outcome final trace world withWorld]. rewrite Hrun.
  cbn [fst snd prefixed outcome final trace]. split; [reflexivity|].
  rewrite !List.filter_app, freshPrefix_quiet by reflexivity.
  unfold beforeEvents. destruct (beforeFn test); reflexivity.
Qed.

End FreshTheorems.

(** ** Fuel: two levels are enough *)

Section FuelBasics.
Context {World : Type} `{Host World}.
Implicit Types (s : RunnerState World) (test : TestFunction World).

Lemma Fueled_runCallback kind (cb : Callback World) : Fueled (runCallback kind cb).
Proof. apply Fueled_hostCall. Qed.

Lemma Fueled_cache_set test entry : Fueled (cache_set test entry).
Proof. intros s. discriminate. Qed.

Lemma Fueled_cache_delete test : Fueled (cache_delete test).
Proof. intros s. discriminate. Qed.

Lemma Fueled_liftThrown {A} (r : Thrown + A) : Fueled (liftThrown r : R World A).
Proof. destruct r; intros s; discriminate. Qed.

End FuelBasics.

Ltac fueled :=
  repeat first
    [ progress effects
    | simple apply Fueled_runCallback | simple apply Fueled_cache_set
    | simple apply Fueled_cache_delete | simple apply Fueled_liftThrown ].

Section FuelFacts.
Context {World : Type} `{Host World}.
Variable this : TestRunner.
Implicit Types (s : RunnerState World) (test : TestFunction World) (config : ExecConfig).

Lemma Fueled_replaySteps steps : Fueled (replaySteps steps).
Proof.
  induction steps as [|step rest IH]; cbn [replaySteps]; [fueled|].
  apply Fueled_bind; [unfold replayStep, verifyStep, executeStep; fueled|].
  intros [r|]; [fueled | exact IH].
Qed.

Lemma Fueled_runCachedTest test : Fueled (runCachedTest test).
Proof. unfold runCachedTest. fueled. apply Fueled_replaySteps. Qed.

Lemma Fueled_runAfterFn test ai usage : Fueled (runAfterFn test ai usage).
Proof. unfold runAfterFn. fueled. Qed.

Lemma Fueled_freshRun test initialState : Fueled (freshRun test initialState).
Proof.
  unfold freshRun, runBeforeFn, modelRun, concludeRun. fueled.
  all: apply Fueled_runAfterFn.
Qed.

Lemma Fueled_directRun test : Fueled (directRun test).
Proof. unfold directRun. fueled. Qed.

Lemma Fueled_cachedBranch retry test config initialState :
  Fueled retry -> Fueled (cachedBranch this retry test config initialState).
Proof.
  intros Hretry. unfold cachedBranch. fueled.
  - apply Fueled_runCachedTest.
  - apply Fueled_runAfterFn.
  - exact Hretry.
Qed.

Lemma Fueled_cachedBranch_disabled retry test initialState :
  Fueled (cachedBranch this retry test {| config_noCache := true |} initialState).
Proof.
  unfold cachedBranch. cbn [config_noCache negb]. rewrite andb_false_r. fueled.
Qed.

Lemma Fueled_executeTest_step fuel test config :
  (forall initialState,
     Fueled (cachedBranch this (executeTest this fuel test {| config_noCache := true |})
                          test config initialState)) ->
  Fueled (executeTest this (Datatypes.S fuel) test config).
Proof.
  intros Hbranch. cbn [executeTest]. fueled.
  - apply Fueled_directRun.
  - apply Hbranch.
  - apply Fueled_freshRun.
Qed.

(** The retry, which runs with [noCache: true], never recurses. *)
Lemma Fueled_executeTest_retry fuel test :
  Fueled (executeTest this (Datatypes.S fuel) test {| config_noCache := true |}).
Proof.
  apply Fueled_executeTest_step. intros initialState.
  apply Fueled_cachedBranch_disabled.
Qed.

(** Hence two units of fuel are enough for any call. *)
Lemma Fueled_executeTest fuel test config :
  Fueled (executeTest this (Datatypes.S (Datatypes.S fuel)) test config).
Proof.
  apply Fueled_executeTest_step. intros initialState.
  apply Fueled_cachedBranch. apply Fueled_executeTest_retry.
Qed.

End FuelFacts.

(** ** The fallback after an invalidated replay *)

Section FallbackTheorems.
Context {World : Type} `{Host World}.
Variable this : TestRunner.
Implicit Types (s : RunnerState World) (test : TestFunction World) (config : ExecConfig).

Lemma modelCalls_app (t t' : list Event) :
  modelCalls (t ++ t') = (modelCalls t + modelCalls t')%nat.
Proof. unfold modelCalls. rewrite List.filter_app, length_app. reflexivity. Qed.

Lemma concludeRun_modelCalls test result parsed s :
  modelCalls (trace (concludeRun test result parsed s)) = 0%nat.
Proof.
  rewrite concludeRun_run. cbv zeta. rewrite runAfterFn_run.
  destruct (afterFn test) as [cb|]; cbn [outcome final trace].
  - destruct (fst (cb (world s)));
      [|destruct (String.eqb (parsed_status parsed) "passed")]; reflexivity.
  - destruct (String.eqb (parsed_status parsed) "passed"); reflexivity.
Qed.

(** The model-driven part of a run calls the model exactly once. *)
Lemma modelRun_modelCalls test initialState s :
  modelCalls (trace (modelRun test initialState s)) = 1%nat.
Proof.
  rewrite modelRun_run.
  destruct (fst (aiClient_processAction test initialState (world s))) as [error|[result|]];
    try reflexivity.
  cbn [prefixed trace]. rewrite modelCalls_app.
  destruct (parseAiResult result) as [error|parsed]; [reflexivity|].
  rewrite concludeRun_modelCalls. reflexivity.
Qed.

Lemma freshRun_modelCalls test initialState s :
  BeforeQuiet test -> modelCalls (trace (freshRun test initialState s)) = 1%nat.
Proof.
  intros Hq. rewrite freshRun_run. destruct (beforeFn test) as [cb|] eqn:Hcb.
  - rewrite (Hq cb (world s) Hcb). cbn [prefixed trace].
    rewrite modelCalls_app, modelRun_modelCalls. reflexivity.
  - apply modelRun_modelCalls.
Qed.

(** A retry that returns a verdict has called the model once. *)
Lemma retry_modelCalls fuel test s verdict :
  directExecution test = false ->
  JsString.truthy (anthropicKey this) = true ->
  BeforeQuiet test ->
  outcome (executeTest this (Datatypes.S fuel) test {| config_noCache := true |} s)
    = Ret verdict ->
  modelCalls (trace (executeTest this (Datatypes.S fuel) test {| config_noCache := true |} s))
    = 1%nat.
Proof.
  intros Hd Hk Hq.
  destruct (browserTool_execute screenshotInput (world s)) as [[error|initialState] w1]
    eqn:Hshot.
  - cbn [executeTest]. rewrite Hd, Hk. cbn [negb].
    rewrite (hostCall_bind_throw _ _ _ _ _ _ Hshot). discriminate.
  - rewrite (executeTest_fresh this fuel test _ s initialState w1)
      by (repeat split; try assumption; right; left; reflexivity).
    intros _. cbn [prefixed trace]. rewrite modelCalls_app, freshRun_modelCalls by exact Hq.
    unfold modelCalls. rewrite freshPrefix_quiet; reflexivity.
Qed.

(** C2, what the code does.  When the replay of a cached trace throws, the
    entry is deleted, the page reset and the test run again with caching
    disabled; the verdict of that run is dropped, and [executeTest] goes on
    to line 298 and runs the test a second time.  With a before-hook that
    does not throw, the model is called twice, and the verdict returned is
    the one of the second run. *)
Theorem invalidated_replay_runs_fresh_twice fuel test config s initialState
    w1 entry error w2 verdict :
  CacheHit this test config s initialState w1 entry ->
  let rc := runCachedTest test (withWorld s w1) in
  outcome rc = Throw error ->
  page_goto (window_url initialState) (world (final rc)) = (inr tt, w2) ->
  let s2 := withWorld (withCache (final rc) (delete (hashData test) (cacheStore s))) w2 in
  let retry := executeTest this (Datatypes.S fuel) test {| config_noCache := true |} s2 in
  outcome retry = Ret verdict ->
  BeforeQuiet test ->
  let r := executeTest this (Datatypes.S (Datatypes.S fuel)) test config s in
  outcome r = outcome (freshRun test initialState (final retry)) /\
  modelCalls (trace r) = 2%nat /\
  cacheStore s2 !! hashData test = None.
Proof.
  intros Hhit rc Hrc Hgoto s2 retry Hretry Hq r.
  pose proof Hhit as (Hd & Hk & _).
  assert (Hpre : (cache_delete test ;;;
                  hostCall (EvGoto (window_url initialState))
                           (page_goto (window_url initialState)) ;;;
                  executeTest this (Datatypes.S fuel) test {| config_noCache := true |} ;;;
                  freshRun test initialState) (final rc) =
                 prefixed [EvCacheDelete (hashData test); EvGoto (window_url initialState)]
                   (prefixed (trace retry) (freshRun test initialState (final retry)))).
  { unfold cache_delete. rewrite bind_assoc, bind_emit.
    rewrite (bind_Ret _ _ _ tt) by reflexivity. cbn [final trace].
    rewrite prefixed_nil.
    rewrite (hostCall_bind _ _ _ _ tt w2) by exact Hgoto.
    rewrite prefixed_prefixed.
    replace (cacheStore (final rc)) with (cacheStore s)
      by (symmetry; apply (runCachedTest_preserves_cache test (withWorld s w1))).
    fold s2. fold retry.
    rewrite (bind_Ret _ _ _ verdict) by exact Hretry. reflexivity. }
  subst r. rewrite (executeTest_invalidated this _ _ _ _ _ _ _ _ Hhit Hrc).
  fold rc. rewrite Hpre. cbn [prefixed outcome trace]. repeat split.
  - rewrite !modelCalls_app.
    rewrite (freshRun_modelCalls _ _ _ Hq).
    unfold retry. rewrite (retry_modelCalls fuel test s2 verdict Hd Hk Hq Hretry).
    replace (modelCalls (EvExecute screenshotInput :: EvCacheGet (hashData test) :: trace rc))
      with 0%nat; [reflexivity|].
    unfold modelCalls, rc. cbn [List.filter isProcessAction].
    rewrite (replay_trace_quiet _ test)
      by (intros ? ? Hev; apply (ReplayEvent_kind _ _ _ Hev)).
    reflexivity.
  - cbn [s2 cacheStore withWorld withCache]. apply lookup_delete_eq.
Qed.

End FallbackTheorems.

(** ** Files and runs *)

Section FileFacts.
Context {World : Type} `{Host World}.
Variable this : TestRunner.
Implicit Types (s : RunnerState World) (test : TestFunction World) (config : ExecConfig).

Lemma runHooks_emits kind (hooks : list (Callback World)) :
  Emits (fun ev => ev = EvCallback kind) (runHooks kind hooks).
Proof.
  induction hooks as [|hook rest IH]; cbn [runHooks]; [effects|].
  apply Emits_bind; [effects; reflexivity | intros _; exact IH].
Qed.

Lemma Fueled_runHooks kind (hooks : list (Callback World)) : Fueled (runHooks kind hooks).
Proof.
  induction hooks as [|hook rest IH]; cbn [runHooks]; [fueled|].
  apply Fueled_bind; [fueled | intros _; exact IH].
Qed.

Lemma Fueled_report call : Fueled (report call : R World unit).
Proof. intros s. discriminate. Qed.

Lemma Fueled_modifyRegistry f : Fueled (modifyRegistry f : R World unit).
Proof. intros s. discriminate. Qed.

Lemma Fueled_runFileTests fuel tests :
  Fueled (runFileTests this (Datatypes.S (Datatypes.S fuel)) tests).
Proof.
  induction tests as [|test rest IH]; cbn [runFileTests]; [fueled|].
  apply Fueled_bind; [intros s0; apply Fueled_runHooks|]. intros _.
  apply Fueled_bind; [apply Fueled_report|]. intros _.
  apply Fueled_bind; [apply Fueled_executeTest|]. intros testResult.
  apply Fueled_bind; [apply Fueled_report|]. intros _.
  apply Fueled_bind; [intros s0; apply Fueled_runHooks|]. intros _.
  exact IH.
Qed.

Lemma Fueled_runFileBody fuel file :
  Fueled (runFileBody this (Datatypes.S (Datatypes.S fuel)) file).
Proof.
  unfold runFileBody. apply Fueled_tryFinally.
  - apply Fueled_bind; [intros s0; apply Fueled_runHooks|]. intros _.
    apply Fueled_bind; [intros s0; apply Fueled_report|]. intros _.
    apply Fueled_bind; [intros s0; apply Fueled_runFileTests|]. intros _.
    intros s0; apply Fueled_runHooks.
  - apply Fueled_bind; [apply Fueled_hostCall|]. intros _.
    apply Fueled_bind; [apply Fueled_modifyRegistry|]. intros _.
    apply Fueled_report.
Qed.

(** [executeTestFile] never lets an error out. *)
Lemma executeTestFile_returns fuel file s :
  outcome (executeTestFile this (Datatypes.S (Datatypes.S fuel)) file s) = Ret tt.
Proof.
  unfold executeTestFile. rewrite outcome_tryCatch.
  match goal with |- context [outcome (?body s)] =>
    assert (Hfuel : Fueled body); [|destruct (outcome (body s)) as [[]|[]|] eqn:Hbody]
  end; try reflexivity.
  - apply Fueled_bind; [apply Fueled_modifyRegistry|]. intros _.
    apply Fueled_bind.
    + intros s0. cbn beta.
      apply Fueled_bind; [apply Fueled_hostCall|]. intros r. apply Fueled_modifyRegistry.
    + intros _. apply Fueled_bind.
      * apply Fueled_tryCatch; [fueled | intros; fueled].
      * intros [|]; [apply Fueled_runFileBody | fueled].
  - destruct (Hfuel s Hbody).
Qed.

Lemma executeTestFile_imports fuel file s :
  In (EvImport file) (trace (executeTestFile this fuel file s)).
Proof.
  unfold executeTestFile. rewrite trace_tryCatch. apply in_or_app. left.
  rewrite trace_bind. cbn [modifyRegistry outcome final trace app].
  rewrite trace_bind. apply in_or_app. left.
  rewrite trace_bind, hostCall_run. cbn [trace]. left. reflexivity.
Qed.

(** Every file of the run is imported, whatever happened in the files
    before it. *)
Lemma runFiles_visits_all fuel files s :
  outcome (runFiles this (Datatypes.S (Datatypes.S fuel)) files s) = Ret tt /\
  forall file, In file files ->
    In (EvImport file) (trace (runFiles this (Datatypes.S (Datatypes.S fuel)) files s)).
Proof.
  revert s. induction files as [|file rest IH]; intros s; cbn [runFiles].
  - split; [reflexivity | intros ? []].
  - rewrite outcome_bind, trace_bind, executeTestFile_returns.
    destruct (IH (final (executeTestFile this (Datatypes.S (Datatypes.S fuel)) file s)))
      as [Hout Hin].
    split; [exact Hout|].
    intros file' [<-|Hrest]; apply in_or_app.
    + left. apply executeTestFile_imports.
    + right. apply Hin. exact Hrest.
Qed.

End FileFacts.

(** ** A reply without a verdict *)

Section InvalidReplyTheorems.
Context {World : Type} `{Host World}.
Variable this : TestRunner.
Implicit Types (s : RunnerState World) (test : TestFunction World) (config : ExecConfig).

(** The three ways in which a reply has no verdict. *)
Lemma parseAiResult_invalid result error :
  parseAiResult result = inl error ->
  (findFinalMessage (finalResponse_content result) = None /\
   error = ErrorObj "No test result found in AI response") \/
  (exists finalMessage,
     findFinalMessage (finalResponse_content result) = Some finalMessage /\
     JsString.match_braces finalMessage = None /\
     error = ErrorObj "Invalid test result format") \/
  (exists finalMessage jsonMatch,
     findFinalMessage (finalResponse_content result) = Some finalMessage /\
     JsString.match_braces finalMessage = Some jsonMatch /\
     JSON_parse jsonMatch = inl error).
Proof.
  unfold parseAiResult.
  destruct (findFinalMessage (finalResponse_content result)) as [finalMessage|] eqn:Hf.
  - destruct (JsString.match_braces finalMessage) as [jsonMatch|] eqn:Hm.
    + intros Hp. right. right. exists finalMessage, jsonMatch. auto.
    + intros [= <-]. right. left. exists finalMessage. auto.
  - intros [= <-]. left. auto.
Qed.


End InvalidReplyTheorems.

(** ** The adapter *)

Section AdapterTheorems.
Import LLMAdapter.
Context {World : Type} `{Browser World}.
Implicit Types (response : ActionInput) (w : World).

(** A tag without a [case] is refused, and the browser is not touched. *)
Lemma unrecognized_is_unsupported response w :
  ~ In (action response) recognized ->
  transformAndExecute response w = MkRun (Throw (unsupported (action response))) w [].
Proof.
  intros Hnot. unfold transformAndExecute, recognized in *. cbv zeta.
  repeat match goal with
  | |- context [String.eqb (action response) ?tag] =>
      destruct (String.eqb_spec (action response) tag) as [Heq|_];
        [exfalso; apply Hnot; rewrite Heq; cbn; tauto|]
  end.
  reflexivity.
Qed.

(** The cases that return: each one is its handler. *)
Lemma returning_cases response w :
  (action response = "key" -> transformAndExecute response w = handleKeyPress response w) /\
  (action response = "type" -> transformAndExecute response w = handleTypeText response w) /\
  (action response = "mouse_move" ->
     transformAndExecute response w = handleMouseMove response w) /\
  (action response = "left_click" ->
     transformAndExecute response w = handleLeftClick response w) /\
  (action response = "left_click_drag" ->
     transformAndExecute response w = handleLeftClickDrag response w) /\
  (action response = "double_click" ->
     transformAndExecute response w = handleDoubleClick response w) /\
  (action response = "screenshot" -> transformAndExecute response w = handleScreenshot w) /\
  (action response = "cursor_position" ->
     transformAndExecute response w = handleCursorPosition w) /\
  (action response = "navigate" -> transformAndExecute response w = handleNavigate response w).
Proof.
  unfold transformAndExecute. cbv zeta.
  repeat split; intros ->; reflexivity.
Qed.

(** C6, what the code does.  The tag "sleep" has a [case], and the sleep of
    the browser is started, but the case does not return: control runs on
    into [default], and the action is refused as unsupported. *)
Theorem sleep_is_refused response w :
  action response = "sleep" ->
  outcome (transformAndExecute response w) =
    Throw (ErrorObj "Unsupported action: sleep") /\
  trace (transformAndExecute response w) = [Sleep (duration response)] /\
  In "sleep" recognized.
Proof.
  intros Htag.
  assert (Hrun : transformAndExecute response w =
                 (floating (handleSleep response) ;;; throw (unsupported "sleep")) w).
  { unfold transformAndExecute. cbv zeta. rewrite Htag. reflexivity. }
  rewrite Hrun. unfold bind, floating, handleSleep, call.
  destruct (sleep (duration response) w) as [[error|result] w'];
    cbn; repeat split; auto 20.
Qed.

End AdapterTheorems.

(** ** Concrete runs *)

Module Scenarios.
Import Scripted.

Ltac pointer_inv :=
  let input := fresh "input" in
  let Hi := fresh "Hi" in
  let Ha := fresh "Ha" in
  let Hc := fresh "Hc" in
  intros ? ? (input & Hi & Ha & Hc);
  cbn in Hi; injection Hi as <-; cbn in Ha, Hc;
  try discriminate; injection Hc as <- <-.

Lemma login_cache_hit sc after :
  CacheHit (H := host sc) runner (login None after) defaultConfig cached page 1%nat loginTrace.
Proof. repeat split; reflexivity. Qed.

Lemma login_fresh_start sc before after :
  FreshStart (H := host sc) runner (login before after) defaultConfig uncached page 1%nat.
Proof. repeat split; try reflexivity. right. right. reflexivity. Qed.

Lemma login_replays_clean :
  CleanReplay (H := host passing) (List.filter notScreenshot loginSteps)
              (withWorld cached 1%nat).
Proof.
  change (List.filter notScreenshot loginSteps)
    with [moveTo 10 20 "A"; clickAt 10 20; typeText "admin"].
  repeat (apply clean_step; [pointer_inv; try (exists "A"; split; reflexivity)|]).
  apply clean_done.
Qed.

Lemma login_replay_mismatches :
  FirstMismatch (H := host stale) (List.filter notScreenshot loginSteps)
                (withWorld cached 1%nat).
Proof.
  change (List.filter notScreenshot loginSteps)
    with [moveTo 10 20 "A"; clickAt 10 20; typeText "admin"].
  apply mismatch_here. exists 10%Z, 20%Z, "B". split; [|split; [|split]].
  - eexists. repeat split; reflexivity.
  - reflexivity.
  - discriminate.
  - discriminate.
Qed.

(** C1: the trace of the login test was recorded with fingerprint "A" at
    (10, 20), the live fingerprint is "B".  The run ends with the mismatch
    verdict; the entry is still in the store and the model was not called. *)
Lemma stale_fingerprint_witness :
  let r := executeTest (H := host stale) runner 1 (login None None) defaultConfig cached in
  (exists v, outcome r = Ret v /\ status v = "failed" /\ tokenUsage v = zeroTokens) /\
  (exists x y t,
     trace (runCachedTest (H := host stale) (login None None) (withWorld cached 1%nat))
     = t ++ [EvFingerprint x y]) /\
  modelCalls (trace r) = 0%nat /\
  List.filter isCacheDelete (trace r) = [] /\
  cacheStore (final r) !! "login" = Some loginTrace.
Proof.
  apply (stale_fingerprint_not_invalidated (H := host stale) runner 0 (login None None)
           defaultConfig cached page 1%nat loginTrace loginSteps).
  - apply login_cache_hit.
  - reflexivity.
  - apply login_replay_mismatches.
Defined.



(** C10: an entry without steps, and an after-hook that resolves. *)
Lemma no_steps_witness :
  let r := executeTest (H := host passing) runner 1 (login None (Some resolves))
                       defaultConfig cachedEmpty in
  outcome r = Ret {| status := "failed";
                     reason := "No steps to execute, running test in normal mode";
                     tokenUsage := {| tokens_input := 0; tokens_output := 0 |} |} /\
  modelCalls (trace r) = 0%nat /\
  List.filter isCacheDelete (trace r) = [] /\
  cacheStore (final r) !! "login" = Some emptyTrace.
Proof.
  apply (no_steps_fails_without_fallback (H := host passing) runner 0
           (login None (Some resolves)) defaultConfig cachedEmpty page 1%nat emptyTrace).
  - repeat split; reflexivity.
  - reflexivity.
Defined.

(** C10, as stated, fails when the after-hook throws: the reason is the
    composed one. *)
Lemma no_steps_counterexample :
  data_steps emptyTrace = None /\
  exists v,
    outcome (executeTest (H := host passing) runner 1
               (login None (Some (throws "teardown failed"))) defaultConfig cachedEmpty)
    = Ret v /\
    reason v = "AI: No steps to execute, running test in normal mode, After: teardown failed" /\
    reason v <> "No steps to execute, running test in normal mode".
Proof.
  split; [reflexivity|].
  eexists. split; [reflexivity|]. split; [reflexivity | discriminate].
Qed.


(** C2: the fingerprint query throws during the replay of the login
    test, and the model reports success.  The model is called twice. *)
Lemma fallback_twice_witness :
  let r := executeTest (H := host flaky) runner 2 (login None None) defaultConfig cached in
  outcome (runCachedTest (H := host flaky) (login None None) (withWorld cached 1%nat))
    = Throw (ErrorObj "Execution context was destroyed") /\
  modelCalls (trace r) = 2%nat.
Proof.
  split; [reflexivity|].
  apply (invalidated_replay_runs_fresh_twice (H := host flaky) runner 0 (login None None)
           defaultConfig cached page 1%nat loginTrace
           (ErrorObj "Execution context was destroyed") 3%nat
           {| status := "passed"; reason := "login succeeded"; tokenUsage := usage |}).
  - apply login_cache_hit.
  - reflexivity.
  - reflexivity.
  - reflexivity.
  - intros cb w [=].
Defined.

(** C8: the first run of the login test, with the model reporting
    success: the trace is stored. *)
Lemma cache_set_witness :
  let r := executeTest (H := host passing) runner 1 (login None None) defaultConfig uncached in
  In (EvCacheSet "login") (trace r) /\
  exists v, outcome r = Ret v /\ status v = "passed".
Proof.
  pose proof (cache_set_iff_passed (H := host passing) runner 0 (login None None)
                defaultConfig uncached eq_refl (or_intror (or_intror eq_refl))) as [Hiff _].
  cbv zeta in Hiff. split.
  - apply Hiff. eexists. split; reflexivity.
  - eexists. split; reflexivity.
Defined.

(** C5: a before-hook that throws, and an after-hook that would resolve. *)
Lemma before_hook_witness :
  let r := executeTest (H := host passing) runner 1
             (login (Some (throws "seed failed")) (Some resolves)) defaultConfig uncached in
  outcome r = Ret {| status := "failed"; reason := "seed failed";
                     tokenUsage := {| tokens_input := 0; tokens_output := 0 |} |} /\
  modelCalls (trace r) = 0%nat /\
  afterHookRuns (trace r) = false.
Proof.
  apply (before_hook_failure (H := host passing) runner 0
           (login (Some (throws "seed failed")) (Some resolves)) defaultConfig uncached
           page 1%nat (ErrorObj "seed failed") 2%nat).
  - apply login_fresh_start.
  - eexists. split; reflexivity.
Defined.

(** C5, as stated, fails: the test has an after-hook, the before-hook
    throws, and the after-hook is not run. *)
Lemma before_hook_counterexample :
  let test := login (Some (throws "seed failed")) (Some resolves) in
  let r := executeTest (H := host passing) runner 1 test defaultConfig uncached in
  afterFn test = Some resolves /\
  outcome r = Ret (failedWith "seed failed" zeroTokens) /\
  trace r = [EvExecute screenshotInput; EvCacheGet "login"; EvCallback BeforeFn] /\
  afterHookRuns (trace r) = false.
Proof. repeat split; reflexivity. Qed.

(** C4: the model reports a failure and the after-hook throws: the two
    reasons are composed. *)
Lemma after_hook_witness :
  let r := executeTest (H := host failing) runner 1
             (login None (Some (throws "teardown failed"))) defaultConfig uncached in
  outcome r = Ret {| status := "failed";
                     reason := "AI: button not found, After: teardown failed";
                     tokenUsage := usage |} /\
  List.filter isCacheSet (trace r) = [].
Proof.
  apply (after_hook_failure_reason (H := host failing) runner 0
           (login None (Some (throws "teardown failed"))) defaultConfig uncached
           page 1%nat 1%nat 2%nat 3%nat (replyOf failing)
           {| parsed_status := "failed"; parsed_reason := "button not found" |}
           (ErrorObj "teardown failed")).
  - apply login_fresh_start.
  - reflexivity.
  - reflexivity.
  - reflexivity.
  - eexists. split; reflexivity.
Defined.

(** C4, as stated, fails: the model reports success, the after-hook throws,
    and the reason of the verdict is the text of the hook's error alone. *)
Lemma after_hook_counterexample :
  let test := login None (Some (throws "teardown failed")) in
  let r := executeTest (H := host passing) runner 1 test defaultConfig uncached in
  parseAiResult (H := host passing) (replyOf passing)
    = inr {| parsed_status := "passed"; parsed_reason := "login succeeded" |} /\
  outcome r = Ret {| status := "failed"; reason := "teardown failed"; tokenUsage := usage |} /\
  JsString.includes "teardown failed" "AI:" = false /\
  JsString.includes "teardown failed" "After:" = false.
Proof. repeat split; reflexivity. Qed.

(** C6: the model asks for a sleep of one second. *)
Lemma sleep_witness :
  outcome (LLMAdapter.transformAndExecute (H := browser) (sleepFor 1000) 0%nat)
    = Throw (ErrorObj "Unsupported action: sleep") /\
  trace (LLMAdapter.transformAndExecute (H := browser) (sleepFor 1000) 0%nat)
    = [LLMAdapter.Sleep (Some 1000%Z)] /\
  In "sleep" LLMAdapter.recognized.
Proof.
  apply (sleep_is_refused (H := browser) (sleepFor 1000) 0%nat). reflexivity.
Defined.

End Scenarios.

(** ** What one call of [executeTest] touches *)

Section ExecuteObservations.
Context {World : Type} `{Host World}.
Variable this : TestRunner.
Implicit Types (s : RunnerState World) (test : TestFunction World) (config : ExecConfig).

Lemma ExecEvent_retry config ev :
  ExecEvent this {| config_noCache := true |} ev -> ExecEvent this config ev.
Proof. destruct ev; cbn; auto; intros [_ Hc]; discriminate. Qed.

Lemma ReplayEvent_ExecEvent test steps config ev :
  noCache this = false -> config_noCache config = false ->
  ReplayEvent test steps ev -> ExecEvent this config ev.
Proof. intros Hn Hc. destruct ev; cbn; auto; intros []. Qed.

Lemma directRun_emits test :
  Emits (fun ev => ev = EvCallback DirectFn) (directRun test).
Proof. unfold directRun. effects; reflexivity. Qed.

Lemma freshRun_emits test initialState config :
  Emits (ExecEvent this config) (freshRun test initialState).
Proof.
  unfold freshRun, runBeforeFn, modelRun, concludeRun, runAfterFn, liftThrown, cache_set.
  effects; cbn; auto; intros s0; constructor.
Qed.

Lemma cachedBranch_emits retry test config initialState :
  Emits (ExecEvent this config) retry ->
  Emits (ExecEvent this config) (cachedBranch this retry test config initialState).
Proof.
  intros Hretry. unfold cachedBranch.
  destruct (negb (noCache this) && negb (config_noCache config)) eqn:Hon; [|effects].
  apply andb_true_iff in Hon as [Hn Hc]. apply negb_true_iff in Hn, Hc.
  apply Emits_bind; [apply Emits_cache_get; cbn; auto|].
  intros [entry|]; [|effects].
  apply Emits_tryCatch.
  - apply Emits_bind.
    + intros s. eapply List.Forall_impl; [|apply runCachedTest_emits].
      intros ev. apply ReplayEvent_ExecEvent; assumption.
    + intros result. apply Emits_bind.
      * eapply Emits_weaken; [|apply runAfterFn_emits]. intros ev ->. cbn. auto.
      * intros [r|]; effects.
  - intros error. unfold cache_delete. effects; cbn; auto; intros s0; constructor.
Qed.

(** Whatever the fuel, the test and the state, [executeTest] produces only
    the events of [ExecEvent]. *)
Lemma executeTest_emits fuel test config :
  Emits (ExecEvent this config) (executeTest this fuel test config).
Proof.
  revert config. induction fuel as [|fuel IH]; intros config; cbn [executeTest]; [effects|].
  destruct (directExecution test).
  { eapply Emits_weaken; [|apply directRun_emits]. intros ev ->. cbn. auto. }
  destruct (negb (JsString.truthy (anthropicKey this))); [effects|].
  apply Emits_bind; [apply Emits_hostCall; exact I|]. intros initialState.
  apply Emits_bind.
  - apply cachedBranch_emits. eapply Emits_weaken; [|apply IH]. apply ExecEvent_retry.
  - intros [r|]; [effects | apply freshRun_emits].
Qed.

End ExecuteObservations.

(** ** The shape of a run of [executeTest] *)

Section ExecuteShape.
Context {World : Type} `{Host World}.
Variable this : TestRunner.
Implicit Types (s : RunnerState World) (test : TestFunction World) (config : ExecConfig).

Lemma bind_Ret_inv {A B} (m : R World A) (k : A -> R World B) s v :
  outcome (bind m k s) = Ret v ->
  exists a, outcome (m s) = Ret a /\
            outcome (k a (final (m s))) = Ret v /\
            trace (bind m k s) = trace (m s) ++ trace (k a (final (m s))).
Proof.
  rewrite outcome_bind, trace_bind.
  destruct (outcome (m s)) as [a| |]; [|discriminate|discriminate].
  intros Hk. exists a. auto.
Qed.

Lemma modelCalls_bind {A B} (m : R World A) (k : A -> R World B) s n n' :
  (modelCalls (trace (m s)) <= n)%nat ->
  (forall a s', modelCalls (trace (k a s')) <= n')%nat ->
  (modelCalls (trace (bind m k s)) <= n + n')%nat.
Proof.
  intros Hm Hk. rewrite trace_bind, modelCalls_app.
  destruct (outcome (m s)) as [a| |]; [specialize (Hk a (final (m s)))|cbn|cbn]; lia.
Qed.

(** The five ways a call of [executeTest] can go. *)
Lemma executeTest_cases fuel test config s :
  let r := executeTest this (Datatypes.S fuel) test config s in
  (directExecution test = true /\ r = directRun test s) \/
  (directExecution test = false /\
   r = MkRun (Ret (failedWith "ANTHROPIC_KEY is not set" zeroTokens)) s []) \/
  (directExecution test = false /\
   exists error w1,
     browserTool_execute screenshotInput (world s) = (inl error, w1) /\
     r = MkRun (Throw error) (withWorld s w1) [EvExecute screenshotInput]) \/
  (exists initialState w1,
     FreshStart this test config s initialState w1 /\
     r = prefixed (freshPrefix this test config)
                  (freshRun test initialState (withWorld s w1))) \/
  (exists initialState w1 entry,
     CacheHit this test config s initialState w1 entry /\
     let rc := runCachedTest test (withWorld s w1) in
     match outcome rc with
     | Ret result =>
         let ra := runAfterFn test result zeroTokens (final rc) in
         r = MkRun (Ret (match outcome ra with
                         | Ret (Some v) => v
                         | _ => {| status := status result; reason := reason result;
                                   tokenUsage := zeroTokens |}
                         end))
                   (final ra)
                   (EvExecute screenshotInput :: EvCacheGet (hashData test) ::
                    trace rc ++ trace ra)
     | Throw error =>
         r = prefixed (EvExecute screenshotInput :: EvCacheGet (hashData test) :: trace rc)
               ((cache_delete test ;;;
                 hostCall (EvGoto (window_url initialState))
                          (page_goto (window_url initialState)) ;;;
                 executeTest this fuel test {| config_noCache := true |} ;;;
                 freshRun test initialState) (final rc))
     | OutOfFuel => False
     end).
Proof.
  intros r. subst r.
  destruct (directExecution test) eqn:Hd.
  { left. split; [reflexivity|]. cbn [executeTest]. rewrite Hd. reflexivity. }
  right.
  destruct (JsString.truthy (anthropicKey this)) eqn:Hk.
  2:{ left. split; [reflexivity|]. cbn [executeTest]. rewrite Hd, Hk. reflexivity. }
  right.
  destruct (browserTool_execute screenshotInput (world s)) as [[error|initialState] w1]
    eqn:Hshot.
  { left. split; [reflexivity|]. exists error, w1. split; [reflexivity|].
    cbn [executeTest]. rewrite Hd, Hk.
    cbn [negb]. apply (hostCall_bind_throw _ _ _ _ _ _ Hshot). }
  right.
  destruct (noCache this) eqn:Hn.
  { left. exists initialState, w1.
    assert (Hf : FreshStart this test config s initialState w1)
      by (repeat split; try assumption; left; assumption).
    split; [exact Hf | apply executeTest_fresh; exact Hf]. }
  destruct (config_noCache config) eqn:Hc.
  { left. exists initialState, w1.
    assert (Hf : FreshStart this test config s initialState w1)
      by (repeat split; try assumption; right; left; assumption).
    split; [exact Hf | apply executeTest_fresh; exact Hf]. }
  destruct (cacheStore s !! hashData test) as [entry|] eqn:Hget.
  2:{ left. exists initialState, w1.
      assert (Hf : FreshStart this test config s initialState w1)
        by (repeat split; try assumption; right; right; assumption).
      split; [exact Hf | apply executeTest_fresh; exact Hf]. }
  right. exists initialState, w1, entry.
  assert (Hhit : CacheHit this test config s initialState w1 entry)
    by (repeat split; assumption).
  split; [exact Hhit|]. cbv zeta.
  destruct (outcome (runCachedTest test (withWorld s w1))) as [result|error|] eqn:Hrc.
  - apply (executeTest_replayed this _ _ _ _ _ _ _ _ Hhit Hrc).
  - apply (executeTest_invalidated this _ _ _ _ _ _ _ _ Hhit Hrc).
  - apply (Fueled_runCachedTest test (withWorld s w1) Hrc).
Qed.

Lemma directRun_run test s :
  directRun test s =
  match fn test with
  | Some cb =>
      MkRun (Ret (match fst (cb (world s)) with
                  | None => {| status := "passed"; reason := "Direct execution successful";
                               tokenUsage := zeroTokens |}
                  | Some (ErrorObj message) => failedWith message zeroTokens
                  | Some (NonError _) => failedWith "Direct execution failed" zeroTokens
                  end))
            (withWorld s (snd (cb (world s)))) [EvCallback DirectFn]
  | None =>
      MkRun (Ret {| status := "passed"; reason := "Direct execution successful";
                    tokenUsage := zeroTokens |}) s []
  end.
Proof.
  unfold directRun. destruct (fn test) as [cb|]; [|reflexivity].
  unfold tryCatch, bind. rewrite runCallback_run. cbn [outcome final trace].
  destruct (fst (cb (world s))) as [[message|rendered]|]; reflexivity.
Qed.

Lemma directRun_modelCalls test s : modelCalls (trace (directRun test s)) = 0%nat.
Proof. rewrite directRun_run. destruct (fn test); reflexivity. Qed.

Lemma freshRun_modelCalls_le test initialState s :
  (modelCalls (trace (freshRun test initialState s)) <= 1)%nat.
Proof.
  rewrite freshRun_run. destruct (beforeFn test) as [cb|].
  - destruct (fst (cb (world s))); [cbn; lia|].
    cbn [prefixed trace]. rewrite modelCalls_app, modelRun_modelCalls. cbn. lia.
  - rewrite modelRun_modelCalls. lia.
Qed.

(** A fresh run that returns without having called the model was stopped
    by its before-hook, and reports no token. *)
Lemma freshRun_unbilled test initialState s v :
  outcome (freshRun test initialState s) = Ret v ->
  modelCalls (trace (freshRun test initialState s)) = 0%nat ->
  tokenUsage v = zeroTokens.
Proof.
  rewrite freshRun_run. destruct (beforeFn test) as [cb|].
  - destruct (fst (cb (world s))).
    + intros [= <-] _. reflexivity.
    + cbn [prefixed trace outcome]. rewrite modelCalls_app, modelRun_modelCalls.
      cbn. intros _ [=].
  - rewrite modelRun_modelCalls. intros _ [=].
Qed.

Lemma replay_modelCalls test s :
  modelCalls (trace (runCachedTest test s)) = 0%nat.
Proof.
  unfold modelCalls. rewrite (replay_trace_quiet _ test); [reflexivity|].
  intros ? ? Hev. apply (ReplayEvent_kind _ _ _ Hev).
Qed.

Lemma after_modelCalls test ai usage s :
  modelCalls (trace (runAfterFn test ai usage s)) = 0%nat.
Proof. unfold modelCalls. rewrite after_trace_quiet; reflexivity. Qed.

Lemma freshPrefix_modelCalls test config :
  modelCalls (freshPrefix this test config) = 0%nat.
Proof.
  unfold freshPrefix.
  destruct (negb (noCache this) && negb (config_noCache config)); reflexivity.
Qed.

(** With caching disabled on either side, one call of the model at most. *)
Lemma uncached_modelCalls fuel test config s :
  noCache this = true \/ config_noCache config = true ->
  (modelCalls (trace (executeTest this fuel test config s)) <= 1)%nat.
Proof.
  intros Hoff. destruct fuel as [|fuel]; [cbn; lia|].
  destruct (executeTest_cases fuel test config s)
    as [[_ ->]|[[_ ->]|[(_ & error & w1 & _ & ->)|[(i & w1 & _ & ->)|(i & w1 & entry & Hhit & _)]]]].
  - rewrite directRun_modelCalls. lia.
  - cbn. lia.
  - cbn. lia.
  - cbn [prefixed trace]. rewrite modelCalls_app, freshPrefix_modelCalls.
    apply freshRun_modelCalls_le.
  - destruct Hhit as (_ & _ & Hn & Hc & _). destruct Hoff; congruence.
Qed.

End ExecuteShape.

(** ** Direct execution, the cache switch, the cost of a run *)

Section ExecuteTheorems.
Context {World : Type} `{Host World}.
Variable this : TestRunner.
Implicit Types (s : RunnerState World) (test : TestFunction World) (config : ExecConfig).

(** X1. A test marked for direct execution is run by calling its function
    and nothing else: [executeTest] always returns a verdict with zero token
    usage, the verdict is "passed" exactly if the test has no function or
    its function resolves, the only event is the call of that function (no
    browser call, no model call, no cache access), and the cache is left as
    it was.  This holds whether or not the API key is set. *)
Theorem direct_execution_calls_only_fn fuel test config s :
  directExecution test = true ->
  let r := executeTest this (Datatypes.S fuel) test config s in
  (exists v, outcome r = Ret v /\ tokenUsage v = zeroTokens /\
             (status v = "passed" \/ status v = "failed") /\
             (status v = "passed" <->
              match fn test with
              | Some cb => fst (cb (world s)) = None
              | None => True
              end)) /\
  Forall (fun ev => ev = EvCallback DirectFn) (trace r) /\
  cacheStore (final r) = cacheStore s.
Proof.
  intros Hd r. subst r. cbn [executeTest]. rewrite Hd.
  split; [|split; [apply directRun_emits|]].
  - rewrite directRun_run. destruct (fn test) as [cb|]; cbn [outcome].
    + destruct (fst (cb (world s))) as [[message|rendered]|]; eexists;
        (split; [reflexivity|]); cbn; (split; [reflexivity|]);
        (split; [auto|]); split; intros Hs; try reflexivity; discriminate.
    + eexists. split; [reflexivity|]. cbn. tauto.
  - rewrite directRun_run. destruct (fn test); reflexivity.
Qed.

(** X2. When caching is disabled, by the runner's [noCache] option or by
    the [noCache] argument of the call, [executeTest] never consults the
    cache: its trace has no cache lookup, no deletion, no replay step and
    no page reset, and the model is called at most once. *)
Theorem disabled_cache_is_never_consulted fuel test config s :
  noCache this = true \/ config_noCache config = true ->
  let r := executeTest this fuel test config s in
  List.filter usesCache (trace r) = [] /\ (modelCalls (trace r) <= 1)%nat.
Proof.
  intros Hoff r. split; [|apply uncached_modelCalls; exact Hoff].
  apply filter_none. eapply List.Forall_impl; [|apply executeTest_emits].
  intros ev. destruct ev; cbn; auto; intros [Hn Hc]; destruct Hoff; congruence.
Qed.

(** X3. One call of [executeTest] calls the model at most twice, whatever
    the test, the cache and the collaborators do. *)
Theorem model_called_at_most_twice fuel test config s :
  (modelCalls (trace (executeTest this fuel test config s)) <= 2)%nat.
Proof.
  destruct fuel as [|fuel]; [cbn; lia|].
  destruct (executeTest_cases this fuel test config s)
    as [[_ ->]|[[_ ->]|[(_ & error & w1 & _ & ->)|[(i & w1 & _ & ->)|(i & w1 & entry & _ & Hrc)]]]].
  - rewrite directRun_modelCalls. lia.
  - cbn. lia.
  - cbn. lia.
  - cbn [prefixed trace]. rewrite modelCalls_app, freshPrefix_modelCalls.
    pose proof (freshRun_modelCalls_le test i (withWorld s w1)). lia.
  - cbv zeta in Hrc.
    destruct (outcome (runCachedTest test (withWorld s w1))) as [result|error|];
      [| |destruct Hrc]; rewrite Hrc.
    + cbn [trace]. change (EvExecute screenshotInput :: EvCacheGet (hashData test) :: ?t)
        with ([EvExecute screenshotInput; EvCacheGet (hashData test)] ++ t).
      rewrite !modelCalls_app, replay_modelCalls, after_modelCalls. cbn. lia.
    + cbn [prefixed trace].
      change (EvExecute screenshotInput :: EvCacheGet (hashData test) :: ?t)
        with ([EvExecute screenshotInput; EvCacheGet (hashData test)] ++ t).
      rewrite !modelCalls_app, replay_modelCalls.
      change (modelCalls [EvExecute screenshotInput; EvCacheGet (hashData test)])
        with 0%nat.
      apply (modelCalls_bind _ _ _ 0 2); [cbn; lia|]. intros _ s2.
      apply (modelCalls_bind _ _ _ 0 2); [rewrite hostCall_run; cbn; lia|]. intros _ s3.
      apply (modelCalls_bind _ _ _ 1 1).
      * apply uncached_modelCalls. right. reflexivity.
      * intros _ s4. apply freshRun_modelCalls_le.
Qed.

(** X4. A verdict that [executeTest] returns without having called the
    model carries zero token usage: direct execution, a missing key, a
    replay from the cache and a failing before-hook all cost nothing. *)
Theorem no_model_call_no_tokens fuel test config s v :
  let r := executeTest this fuel test config s in
  outcome r = Ret v -> modelCalls (trace r) = 0%nat -> tokenUsage v = zeroTokens.
Proof.
  intros r. subst r. destruct fuel as [|fuel]; [discriminate|].
  destruct (executeTest_cases this fuel test config s)
    as [[_ ->]|[[_ ->]|[(_ & error & w1 & _ & ->)|[(i & w1 & _ & ->)|(i & w1 & entry & _ & Hrc)]]]].
  - rewrite directRun_run. destruct (fn test) as [cb|]; cbn [outcome].
    + destruct (fst (cb (world s))) as [[message|rendered]|]; intros [= <-] _; reflexivity.
    + intros [= <-] _. reflexivity.
  - intros [= <-] _. reflexivity.
  - discriminate.
  - cbn [prefixed outcome trace]. rewrite modelCalls_app, freshPrefix_modelCalls.
    apply freshRun_unbilled.
  - cbv zeta in Hrc.
    destruct (outcome (runCachedTest test (withWorld s w1))) as [result|error|];
      [| |destruct Hrc]; rewrite Hrc.
    + cbn [outcome]. rewrite runAfterFn_run.
      destruct (afterFn test) as [cb|]; cbn [outcome].
      * destruct (fst (cb _)); intros [= <-] _; reflexivity.
      * intros [= <-] _. reflexivity.
    + cbn [prefixed outcome trace]. intros Hout Hcalls.
      apply bind_Ret_inv in Hout as (a1 & _ & Hout & Ht1).
      apply bind_Ret_inv in Hout as (a2 & _ & Hout & Ht2).
      apply bind_Ret_inv in Hout as (a3 & _ & Hout & Ht3).
      rewrite Ht1, Ht2, Ht3, !modelCalls_app in Hcalls.
      apply (freshRun_unbilled _ _ _ _ Hout). lia.
Qed.

(** X5. Recording round trip.  When a run without replay passes (the
    before-hook resolves, the model replies, the reply parses to a verdict
    with status "passed", the after-hook resolves), [executeTest] returns
    that verdict with the reply's token usage, a lookup of the test in the
    cache now finds the trace the model client handed over, and the entries
    of all other keys are unchanged. *)
Theorem passed_run_is_recorded fuel test config s initialState w1 w2 result w3 parsed w4 :
  FreshStart this test config s initialState w1 ->
  BeforeResolves test w1 w2 ->
  ModelReplies test initialState w2 result w3 ->
  parseAiResult result = inr parsed ->
  parsed_status parsed = "passed" ->
  AfterResolves test w3 w4 ->
  let r := executeTest this (Datatypes.S fuel) test config s in
  outcome r = Ret (aiResultOf result parsed) /\
  world (final r) = w4 /\
  cacheStore (final r) !! hashData test = Some (pendingCache result) /\
  (forall key, key <> hashData test -> cacheStore (final r) !! key = cacheStore s !! key).
Proof.
  intros Hfresh Hb Hm Hparse Hpassed Ha r. subst r.
  rewrite (executeTest_fresh this _ _ _ _ _ _ Hfresh).
  rewrite (freshRun_replied test initialState (withWorld s w1) w2 result w3 Hb Hm).
  rewrite Hparse, concludeRun_run. cbv zeta. rewrite runAfterFn_run, Hpassed.
  unfold AfterResolves in Ha.
  destruct (afterFn test) as [cb|]; cbn [outcome final trace prefixed world withWorld].
  - rewrite Ha. cbn [fst snd outcome final trace String.eqb Ascii.eqb Bool.eqb].
    cbn. repeat split; [apply lookup_insert_eq|].
    intros key Hkey. apply lookup_insert_ne. congruence.
  - cbn. subst w4. repeat split; [apply lookup_insert_eq|].
    intros key Hkey. apply lookup_insert_ne. congruence.
Qed.

End ExecuteTheorems.

(** ** What a replay executes *)

Section ReplayObservations.
Context {World : Type} `{Host World}.
Implicit Types (s : RunnerState World) (step : CacheStep) (test : TestFunction World).

Lemma executedInputs_app (t t' : list Event) :
  executedInputs (t ++ t') = executedInputs t ++ executedInputs t'.
Proof.
  induction t as [|ev t IH]; [reflexivity|].
  destruct ev; cbn; rewrite IH; reflexivity.
Qed.

Lemma verifyStep_executes_nothing step s :
  executedInputs (trace (verifyStep step s)) = [].
Proof.
  unfold verifyStep. destruct (verifiedAt step) as [[x y]|]; [|reflexivity].
  rewrite trace_bind, hostCall_run. cbn [outcome final trace app executedInputs].
  destruct (fst (getNormalizedComponentStringByCoords x y (world s))) as [error|live];
    [reflexivity|].
  destruct (step_extras step) as [extras|]; [|reflexivity].
  destruct (differs live extras); reflexivity.
Qed.

Lemma executeStep_executes step s :
  executedInputs (trace (executeStep step s)) = stepInputs [step].
Proof.
  unfold executeStep, stepInputs. destruct (step_input step) as [input|]; [|reflexivity].
  rewrite trace_tryCatch, trace_bind, outcome_bind, hostCall_run.
  cbn [outcome final trace].
  destruct (fst (browserTool_execute input (world s))); reflexivity.
Qed.

(** One iteration executes the input of its step exactly when it ends
    without leaving the loop. *)
Lemma replayStep_executes step s :
  executedInputs (trace (replayStep step s)) =
  match outcome (replayStep step s) with
  | Ret None => stepInputs [step]
  | _ => []
  end.
Proof.
  unfold replayStep. rewrite bind_emit. cbn [prefixed outcome trace app executedInputs].
  rewrite trace_bind, outcome_bind, executedInputs_app, verifyStep_executes_nothing.
  destruct (outcome (verifyStep step s)) as [[r|]| |]; try reflexivity.
  rewrite trace_bind, outcome_bind, executeStep_completes, executedInputs_app,
    executeStep_executes.
  cbn. rewrite app_nil_r. reflexivity.
Qed.

Lemma stepInputs_cons step rest :
  stepInputs (step :: rest) = stepInputs [step] ++ stepInputs rest.
Proof. cbn. destruct (step_input step); reflexivity. Qed.

(** The loop executes the inputs of a prefix of its steps, in order, and of
    all of them when it runs to its end. *)
Lemma replaySteps_executes steps s :
  exists k,
    executedInputs (trace (replaySteps steps s)) = stepInputs (take k steps) /\
    (outcome (replaySteps steps s) = Ret None -> k = length steps).
Proof.
  revert s. induction steps as [|step rest IH]; intros s.
  - exists 0%nat. split; reflexivity.
  - cbn [replaySteps]. rewrite trace_bind, outcome_bind, executedInputs_app,
      replayStep_executes.
    destruct (outcome (replayStep step s)) as [[r|]| |].
    + exists 0%nat. split; [reflexivity | discriminate].
    + destruct (IH (final (replayStep step s))) as (k & Hk & Hall).
      exists (Datatypes.S k). split.
      * cbn [take]. rewrite (stepInputs_cons step (take k rest)), Hk. reflexivity.
      * intros Hout. cbn [length]. f_equal. apply Hall. exact Hout.
    + exists 0%nat. split; [reflexivity | discriminate].
    + exists 0%nat. split; [reflexivity | discriminate].
Qed.

Lemma stepInputs_notScreenshot steps :
  stepInputs (List.filter notScreenshot steps) =
  List.filter (fun input => negb (String.eqb (action input) BrowserActionEnum.Screenshot))
              (stepInputs steps).
Proof.
  induction steps as [|step rest IH]; [reflexivity|].
  cbn [List.filter stepInputs]. unfold notScreenshot at 1.
  destruct (step_input step) as [input|] eqn:Hin.
  - cbn [List.filter].
    destruct (negb (String.eqb (action input) BrowserActionEnum.Screenshot));
      cbn [stepInputs]; rewrite ?Hin, IH; reflexivity.
  - cbn [stepInputs]. rewrite Hin. exact IH.
Qed.

(** X6. A replay in which every step verifies hands to the browser exactly
    the recorded inputs other than screenshots, each once and in recorded
    order; this is so even when the browser throws on some of them, since
    the error is swallowed and the loop goes on. *)
Theorem clean_replay_executes_recorded_inputs test s entry steps :
  cacheStore s !! hashData test = Some entry ->
  data_steps entry = Some steps ->
  CleanReplay (List.filter notScreenshot steps) s ->
  let r := runCachedTest test s in
  outcome r = Ret replayedResult /\
  executedInputs (trace r) =
  List.filter (fun input => negb (String.eqb (action input) BrowserActionEnum.Screenshot))
              (stepInputs steps).
Proof.
  intros Hget Hsteps Hclean r. subst r.
  rewrite (runCachedTest_steps test s entry steps Hget Hsteps). cbv zeta.
  pose proof (replaySteps_clean _ _ Hclean) as Hout.
  destruct (replaySteps_executes (List.filter notScreenshot steps) s) as (k & Hk & Hall).
  rewrite Hout. split; [reflexivity|].
  cbn [trace executedInputs]. rewrite Hk, (Hall Hout), firstn_all.
  apply stepInputs_notScreenshot.
Qed.

(** X7. Whatever happens during a replay, the inputs [runCachedTest] hands
    to the browser are those of a prefix of the entry's steps other than
    screenshots, in recorded order, and none of them is a screenshot. *)
Theorem replay_executes_a_prefix test s :
  let executed := executedInputs (trace (runCachedTest test s)) in
  (exists k, executed = stepInputs (take k (replayed test s))) /\
  Forall (fun input => action input <> BrowserActionEnum.Screenshot) executed.
Proof.
  intros executed.
  assert (Hprefix : exists k, executed = stepInputs (take k (replayed test s))).
  { subst executed. unfold runCachedTest, replayed.
    rewrite cache_get_bind. cbn [prefixed trace app executedInputs].
    destruct (stepsToReplay (cacheStore s !! hashData test)) as [steps|];
      [|exists 0%nat; reflexivity].
    destruct (replaySteps_executes steps s) as (k & Hk & _). exists k.
    rewrite trace_bind, executedInputs_app, Hk.
    destruct (outcome (replaySteps steps s)) as [[r|]| |]; cbn; apply app_nil_r. }
  split; [exact Hprefix|].
  destruct Hprefix as (k & ->).
  assert (Hall : Forall (fun step => notScreenshot step = true) (take k (replayed test s))).
  { apply Forall_take. unfold replayed, stepsToReplay.
    destruct (cacheStore s !! hashData test) as [entry|]; [|constructor].
    destruct (data_steps entry) as [steps|]; [|constructor].
    apply List.Forall_forall. intros step Hin. apply List.filter_In in Hin. tauto. }
  induction Hall as [|step rest Hstep _ IH]; [constructor|].
  rewrite stepInputs_cons. apply Forall_app. split; [|exact IH].
  unfold notScreenshot in Hstep. cbn. destruct (step_input step) as [input|]; [|constructor].
  constructor; [|constructor].
  destruct (String.eqb_spec (action input) BrowserActionEnum.Screenshot); [discriminate|].
  assumption.
Qed.

End ReplayObservations.

(** ** One file: import, launch, hooks and tests, close *)

Section FileObservations.
Context {World : Type} `{Host World}.
Variable this : TestRunner.
Implicit Types (s : RunnerState World) (test : TestFunction World) (config : ExecConfig).

Lemma reports_app (t t' : list Event) : reports (t ++ t') = reports t ++ reports t'.
Proof.
  induction t as [|ev t IH]; [reflexivity|].
  destruct ev; cbn; rewrite IH; reflexivity.
Qed.

Lemma importedFiles_app (t t' : list Event) :
  importedFiles (t ++ t') = importedFiles t ++ importedFiles t'.
Proof.
  induction t as [|ev t IH]; [reflexivity|].
  destruct ev; cbn; rewrite IH; reflexivity.
Qed.

Lemma closes_app (t t' : list Event) : closes (t ++ t') = (closes t + closes t')%nat.
Proof. unfold closes. rewrite List.filter_app, length_app. reflexivity. Qed.

Lemma launches_app (t t' : list Event) : launches (t ++ t') = (launches t + launches t')%nat.
Proof. unfold launches. rewrite List.filter_app, length_app. reflexivity. Qed.

Lemma ExecEvent_FileEvent config ev : ExecEvent this config ev -> FileEvent ev.
Proof. destruct ev; cbn; intros Hev; auto; destruct Hev. Qed.

Lemma runHooks_FileEvent kind (hooks : RunnerState World -> list (Callback World)) :
  Emits FileEvent (fun s => runHooks kind (hooks s) s).
Proof.
  intros s. eapply List.Forall_impl; [|apply runHooks_emits]. intros ev ->. exact I.
Qed.

Lemma runFileTests_emits fuel tests : Emits FileEvent (runFileTests this fuel tests).
Proof.
  induction tests as [|test rest IH]; cbn [runFileTests]; [effects|].
  apply Emits_bind; [apply runHooks_FileEvent|]. intros _.
  apply Emits_bind; [apply Emits_emit; exact I|]. intros _.
  apply Emits_bind.
  { eapply Emits_weaken; [|apply executeTest_emits]. apply ExecEvent_FileEvent. }
  intros testResult.
  apply Emits_bind; [apply Emits_emit; exact I|]. intros _.
  apply Emits_bind; [apply runHooks_FileEvent|]. intros _. exact IH.
Qed.

Lemma fileHooksAndTests_emits fuel file : Emits FileEvent (fileHooksAndTests this fuel file).
Proof.
  unfold fileHooksAndTests.
  apply Emits_bind; [apply runHooks_FileEvent|]. intros _.
  apply Emits_bind; [intros s; repeat constructor|]. intros _.
  apply Emits_bind; [intros s; apply runFileTests_emits|]. intros _.
  apply runHooks_FileEvent.
Qed.

Lemma Fueled_fileHooksAndTests fuel file :
  Fueled (fileHooksAndTests this (Datatypes.S (Datatypes.S fuel)) file).
Proof.
  unfold fileHooksAndTests.
  apply Fueled_bind; [intros s0; apply Fueled_runHooks|]. intros _.
  apply Fueled_bind; [intros s0; apply Fueled_report|]. intros _.
  apply Fueled_bind; [intros s0; apply Fueled_runFileTests|]. intros _.
  intros s0; apply Fueled_runHooks.
Qed.

Lemma FileEvent_quiet (t : list Event) :
  Forall FileEvent t -> importedFiles t = [] /\ launches t = 0%nat /\ closes t = 0%nat.
Proof.
  induction 1 as [|ev t Hev _ (Hi & Hl & Hc)]; [auto|].
  unfold launches, closes in *. destruct ev; cbn in *; auto; destruct Hev.
Qed.

(** [executeTestFile] when the compilation or the import of the file
    throws. *)
Lemma executeTestFile_import_throws fuel file s error w1 :
  compileAndImport file (resetTests (registry s)) (world s) = (inl error, w1) ->
  executeTestFile this fuel file s =
  MkRun (Ret tt)
        {| world := w1; cacheStore := cacheStore s; registry := resetTests (registry s) |}
        (EvImport file ::
         match error with
         | ErrorObj message => [EvReport (fileFailed file message)]
         | NonError _ => []
         end).
Proof.
  intros Himport. unfold executeTestFile.
  match goal with |- tryCatch ?body ?handler s = _ =>
    assert (Hbody : body s =
                    MkRun (Throw error)
                          {| world := w1; cacheStore := cacheStore s;
                             registry := resetTests (registry s) |}
                          [EvImport file])
  end.
  { rewrite (bind_Ret _ _ _ tt) by reflexivity.
    cbn [modifyRegistry final trace]. rewrite prefixed_nil.
    change (compileAndImport file
              (registry (withRegistry s (resetTests (registry s))))
              (world (withRegistry s (resetTests (registry s)))) = (inl error, w1))
      in Himport.
    rewrite (bind_Throw _ _ _ error);
      cbn beta; rewrite (hostCall_bind_throw _ _ _ _ _ _ Himport); reflexivity. }
  rewrite (tryCatch_Throw _ _ _ error) by (rewrite Hbody; reflexivity).
  rewrite Hbody. destruct error; reflexivity.
Qed.

Lemma launch_run s :
  tryCatch (hostCall EvLaunch browserManager_launch ;;; ret true) (fun _ => ret false) s =
  MkRun (Ret (match fst (browserManager_launch (world s)) with
              | inl _ => false
              | inr _ => true
              end))
        (withWorld s (snd (browserManager_launch (world s)))) [EvLaunch].
Proof.
  unfold tryCatch, bind. rewrite hostCall_run. cbn [outcome final trace].
  destruct (fst (browserManager_launch (world s))); reflexivity.
Qed.

(** The [finally] of a file: the browser is closed first; the hooks are
    reset and the file reported as passed only if closing resolves. *)
Lemma cleanup_run file s :
  (hostCall EvClose browserManager_close ;;;
   modifyRegistry resetHooks ;;;
   report (filePassed file)) s =
  match fst (browserManager_close (world s)) with
  | inr _ =>
      MkRun (Ret tt)
            {| world := snd (browserManager_close (world s));
               cacheStore := cacheStore s;
               registry := resetHooks (registry s) |}
            [EvClose; EvReport (filePassed file)]
  | inl error =>
      MkRun (Throw error) (withWorld s (snd (browserManager_close (world s)))) [EvClose]
  end.
Proof.
  unfold bind at 1. rewrite hostCall_run. cbn [outcome final trace].
  destruct (fst (browserManager_close (world s))); reflexivity.
Qed.

Lemma runFileBody_run fuel file s :
  let ri := fileHooksAndTests this fuel file s in
  runFileBody this fuel file s =
  match outcome ri with
  | OutOfFuel => ri
  | _ =>
      match fst (browserManager_close (world (final ri))) with
      | inr _ =>
          MkRun (outcome ri)
                {| world := snd (browserManager_close (world (final ri)));
                   cacheStore := cacheStore (final ri);
                   registry := resetHooks (registry (final ri)) |}
                (trace ri ++ [EvClose; EvReport (filePassed file)])
      | inl error =>
          MkRun (Throw error)
                (withWorld (final ri) (snd (browserManager_close (world (final ri)))))
                (trace ri ++ [EvClose])
      end
  end.
Proof.
  intros ri. unfold runFileBody, tryFinally.
  change ((fun s0 => runHooks BeforeAllHook (beforeAllFns (registry s0)) s0) ;;;
          (fun s0 => report (OnFileStart file (length (currentFileTests (registry s0)))) s0) ;;;
          (fun s0 => runFileTests this fuel (currentFileTests (registry s0)) s0) ;;;
          (fun s0 => runHooks AfterAllHook (afterAllFns (registry s0)) s0))
    with (fileHooksAndTests this fuel file).
  fold ri.
  change (OnFileEnd {| filePath := file; file_status := "passed";
                       file_reason := EmptyString |}) with (filePassed file).
  rewrite cleanup_run.
  destruct (outcome ri); [| |reflexivity];
    destruct (fst (browserManager_close (world (final ri)))); reflexivity.
Qed.

(** [executeTestFile] when the import resolves: the launch, and for a
    launched browser the body of the file and the outer [catch]. *)
Lemma executeTestFile_imported fuel file s reg w1 :
  compileAndImport file (resetTests (registry s)) (world s) = (inr reg, w1) ->
  let s2 := {| world := snd (browserManager_launch w1); cacheStore := cacheStore s;
               registry := reg |} in
  executeTestFile this fuel file s =
  match fst (browserManager_launch w1) with
  | inl _ => MkRun (Ret tt) s2 [EvImport file; EvLaunch]
  | inr _ =>
      let rb := runFileBody this fuel file s2 in
      MkRun (match outcome rb with Throw _ => Ret tt | other => other end)
            (final rb)
            (EvImport file :: EvLaunch :: trace rb ++
             match outcome rb with
             | Throw (ErrorObj message) => [EvReport (fileFailed file message)]
             | _ => []
             end)
  end.
Proof.
  intros Himport s2. unfold executeTestFile.
  change (compileAndImport file
            (registry (withRegistry s (resetTests (registry s))))
            (world (withRegistry s (resetTests (registry s)))) = (inr reg, w1))
    in Himport.
  match goal with |- tryCatch ?body ?handler s = _ =>
    assert (Hbody : body s =
                    prefixed [EvImport file; EvLaunch]
                      ((if match fst (browserManager_launch w1) with
                            | inl _ => false
                            | inr _ => true
                            end
                        then runFileBody this fuel file else ret tt) s2))
  end.
  { rewrite (bind_Ret _ _ _ tt) by reflexivity.
    cbn [modifyRegistry final trace]. rewrite prefixed_nil.
    match goal with |- bind ?m ?k ?s0 = _ =>
      assert (Hstep : m s0 =
                      MkRun (Ret tt)
                            {| world := w1; cacheStore := cacheStore s; registry := reg |}
                            [EvImport file])
        by (cbn beta; rewrite (hostCall_bind _ _ _ _ _ _ Himport); reflexivity)
    end.
    rewrite (bind_Ret _ _ _ tt) by (rewrite Hstep; reflexivity).
    rewrite Hstep. cbn [final trace].
    erewrite bind_Ret by (rewrite launch_run; reflexivity).
    rewrite launch_run. cbn [final trace world withWorld cacheStore registry].
    rewrite prefixed_prefixed. reflexivity. }
  unfold tryCatch at 1. cbv zeta. rewrite Hbody. unfold prefixed.
  destruct (fst (browserManager_launch w1)) as [error|[]];
    cbn [outcome final trace ret app]; [reflexivity|].
  destruct (outcome (runFileBody this fuel file s2)) as [[]|[message|rendered]|];
    cbn [outcome final trace report emit ret]; rewrite ?app_nil_r; reflexivity.
Qed.

End FileObservations.

(** ** What the reporter is told about a file *)

Section FileTheorems.
Context {World : Type} `{Host World}.
Variable this : TestRunner.
Implicit Types (s : RunnerState World) (test : TestFunction World) (config : ExecConfig).

(** X8. When the browser cannot be launched, [executeTestFile] gives up on
    the file without a word: it returns normally, the reporter is told
    nothing about the file (neither a start nor an end nor a failure), no
    hook or test runs, nothing is closed, and the registry is left as the
    import made it, the hooks the file registered included. *)
Theorem failed_launch_skips_file_silently fuel file s reg w1 error w2 :
  compileAndImport file (resetTests (registry s)) (world s) = (inr reg, w1) ->
  browserManager_launch w1 = (inl error, w2) ->
  let r := executeTestFile this fuel file s in
  outcome r = Ret tt /\
  trace r = [EvImport file; EvLaunch] /\
  reports (trace r) = [] /\
  registry (final r) = reg.
Proof.
  intros Himport Hlaunch r. subst r.
  rewrite (executeTestFile_imported this fuel file s reg w1 Himport). cbv zeta.
  rewrite Hlaunch. cbn. auto.
Qed.

(** X9. When compiling or importing the file throws, the browser is not
    launched and nothing of the file runs; an [Error] is reported as the
    failure of the file with its message, anything else that was thrown is
    swallowed without a report.  [executeTestFile] returns normally in both
    cases. *)
Theorem failed_import_is_reported fuel file s error w1 :
  compileAndImport file (resetTests (registry s)) (world s) = (inl error, w1) ->
  let r := executeTestFile this fuel file s in
  outcome r = Ret tt /\
  launches (trace r) = 0%nat /\
  trace r = EvImport file ::
            match error with
            | ErrorObj message => [EvReport (fileFailed file message)]
            | NonError _ => []
            end.
Proof.
  intros Himport r. subst r.
  rewrite (executeTestFile_import_throws this fuel file s error w1 Himport).
  destruct error; cbn; auto.
Qed.

(** X10. A browser that was launched for a file is closed exactly once
    before [executeTestFile] returns, whatever the hooks and the tests of
    the file do, and [executeTestFile] returns normally. *)
Theorem launched_browser_is_closed_once fuel file s reg w1 w2 :
  compileAndImport file (resetTests (registry s)) (world s) = (inr reg, w1) ->
  browserManager_launch w1 = (inr tt, w2) ->
  let r := executeTestFile this (Datatypes.S (Datatypes.S fuel)) file s in
  outcome r = Ret tt /\ launches (trace r) = 1%nat /\ closes (trace r) = 1%nat.
Proof.
  intros Himport Hlaunch r. subst r. split; [apply executeTestFile_returns|].
  rewrite (executeTestFile_imported this _ file s reg w1 Himport). cbv zeta.
  rewrite Hlaunch. cbn [fst snd]. rewrite runFileBody_run. cbv zeta.
  match goal with |- context [fileHooksAndTests this ?f file ?s2] =>
    pose proof (Fueled_fileHooksAndTests this fuel file s2) as Hfuel;
    destruct (FileEvent_quiet _ (fileHooksAndTests_emits this f file s2)) as (_ & Hl & Hc);
    set (ri := fileHooksAndTests this f file s2) in *
  end.
  destruct (outcome ri) as [[]|error|]; [| |destruct (Hfuel eq_refl)];
    destruct (fst (browserManager_close (world (final ri)))) as [e|[]];
    cbn [outcome final trace];
    change (EvImport file :: EvLaunch :: ?t) with ([EvImport file; EvLaunch] ++ t);
    rewrite ?launches_app, ?closes_app, Hl, Hc;
    try destruct e; try destruct error; split; reflexivity.
Qed.

(** X11. When the browser was launched and closing it resolves, the file is
    always reported as passed, also when one of its hooks or tests threw;
    if what was thrown is an [Error], a second report follows, which gives
    the file as failed with the error message.  The hooks of the registry
    are cleared. *)
Theorem launched_file_is_reported_passed fuel file s reg w1 w2 :
  compileAndImport file (resetTests (registry s)) (world s) = (inr reg, w1) ->
  browserManager_launch w1 = (inr tt, w2) ->
  let ri := fileHooksAndTests this (Datatypes.S (Datatypes.S fuel)) file
              {| world := w2; cacheStore := cacheStore s; registry := reg |} in
  fst (browserManager_close (world (final ri))) = inr tt ->
  let r := executeTestFile this (Datatypes.S (Datatypes.S fuel)) file s in
  reports (trace r) =
    reports (trace ri) ++
    filePassed file ::
    match outcome ri with
    | Throw (ErrorObj message) => [fileFailed file message]
    | _ => []
    end /\
  hooksCleared (registry (final r)).
Proof.
  intros Himport Hlaunch ri Hclose r. subst r.
  rewrite (executeTestFile_imported this _ file s reg w1 Himport). cbv zeta.
  rewrite Hlaunch. cbn [fst snd]. rewrite runFileBody_run. cbv zeta. fold ri.
  pose proof (Fueled_fileHooksAndTests this fuel file _ : outcome ri <> OutOfFuel) as Hfuel.
  rewrite Hclose.
  destruct (outcome ri) as [[]|[message|rendered]|]; [| | |destruct (Hfuel eq_refl)];
    cbn [outcome final trace registry reports];
    rewrite !reports_app; cbn [reports app]; rewrite ?app_nil_r;
    (split; [rewrite <- ?app_assoc; reflexivity | repeat split]).
Qed.

(** X12. When closing the browser throws, that error replaces whatever the
    hooks and tests of the file had thrown: the file is reported once, as
    failed with the message of the error of [close] (or not at all if that
    is not an [Error]), it is never reported as passed, and the hooks of
    the registry are not cleared. *)
Theorem failed_close_masks_the_outcome fuel file s reg w1 w2 error :
  compileAndImport file (resetTests (registry s)) (world s) = (inr reg, w1) ->
  browserManager_launch w1 = (inr tt, w2) ->
  let ri := fileHooksAndTests this (Datatypes.S (Datatypes.S fuel)) file
              {| world := w2; cacheStore := cacheStore s; registry := reg |} in
  fst (browserManager_close (world (final ri))) = inl error ->
  let r := executeTestFile this (Datatypes.S (Datatypes.S fuel)) file s in
  reports (trace r) =
    reports (trace ri) ++
    match error with
    | ErrorObj message => [fileFailed file message]
    | NonError _ => []
    end /\
  registry (final r) = registry (final ri).
Proof.
  intros Himport Hlaunch ri Hclose r. subst r.
  rewrite (executeTestFile_imported this _ file s reg w1 Himport). cbv zeta.
  rewrite Hlaunch. cbn [fst snd]. rewrite runFileBody_run. cbv zeta. fold ri.
  pose proof (Fueled_fileHooksAndTests this fuel file _ : outcome ri <> OutOfFuel) as Hfuel.
  rewrite Hclose.
  destruct (outcome ri) as [[]|e|]; [| |destruct (Hfuel eq_refl)];
    cbn [outcome final trace registry reports withWorld];
    destruct error; rewrite !reports_app; cbn [reports app]; rewrite ?app_nil_r;
    (split; [rewrite <- ?app_assoc; reflexivity | reflexivity]).
Qed.

End FileTheorems.

(** ** The order of the tests and of the files *)

Section OrderTheorems.
Context {World : Type} `{Host World}.
Variable this : TestRunner.
Implicit Types (s : RunnerState World) (test : TestFunction World) (config : ExecConfig).

Lemma testsStarted_app (t t' : list Event) :
  testsStarted (t ++ t') = testsStarted t ++ testsStarted t'.
Proof.
  induction t as [|ev t IH]; [reflexivity|].
  destruct ev as [| | | | | | | | | | | |[]|]; cbn; rewrite IH; reflexivity.
Qed.

Lemma testsEnded_app (t t' : list Event) :
  testsEnded (t ++ t') = (testsEnded t + testsEnded t')%nat.
Proof. unfold testsEnded. rewrite List.filter_app, length_app. reflexivity. Qed.

Lemma unreported (P : Event -> Prop) (t : list Event) :
  (forall call, ~ P (EvReport call)) ->
  Forall P t -> testsStarted t = [] /\ testsEnded t = 0%nat /\ reports t = [].
Proof.
  intros HP. induction 1 as [|ev t Hev _ (Hs & He & Hr)]; [auto|].
  unfold testsEnded in *.
  destruct ev; cbn; auto. destruct (HP _ Hev).
Qed.

Lemma runHooks_unreported kind (hooks : list (Callback World)) s :
  testsStarted (trace (runHooks kind hooks s)) = [] /\
  testsEnded (trace (runHooks kind hooks s)) = 0%nat /\
  reports (trace (runHooks kind hooks s)) = [].
Proof.
  apply (unreported (fun ev => ev = EvCallback kind)); [discriminate|].
  apply runHooks_emits.
Qed.

Lemma executeTest_unreported fuel test config s :
  testsStarted (trace (executeTest this fuel test config s)) = [] /\
  testsEnded (trace (executeTest this fuel test config s)) = 0%nat /\
  reports (trace (executeTest this fuel test config s)) = [].
Proof.
  apply (unreported (ExecEvent this config)); [intros call []|].
  apply executeTest_emits.
Qed.

(** X13. The tests of a file are started in the order in which the file
    declared them, one at a time: the names reported as started are a
    prefix of the declared names, at most one started test has no result
    yet, and when the loop runs to its end every test was started and has
    been given exactly one result.  The loop itself always comes to an
    end or is left by an exception. *)
Theorem tests_start_in_declared_order fuel tests s :
  let r := runFileTests this (Datatypes.S (Datatypes.S fuel)) tests s in
  outcome r <> OutOfFuel /\
  exists k,
    testsStarted (trace r) = take k (map name tests) /\
    (testsEnded (trace r) = k \/ Datatypes.S (testsEnded (trace r)) = k) /\
    match outcome r with
    | Ret _ => k = length tests /\ testsEnded (trace r) = k
    | _ => True
    end.
Proof.
  cbv zeta. split; [apply Fueled_runFileTests|].
  generalize (Datatypes.S (Datatypes.S fuel)). intros n.
  revert s. induction tests as [|test rest IH]; intros s.
  - exists 0%nat. cbn. auto.
  - cbn [runFileTests]. unfold report.
    rewrite trace_bind, outcome_bind.
    destruct (runHooks_unreported BeforeEachHook (beforeEachFns (registry s)) s)
      as (Hs1 & He1 & _).
    set (r1 := runHooks BeforeEachHook (beforeEachFns (registry s)) s) in *.
    rewrite testsStarted_app, testsEnded_app, Hs1, He1. cbn [app plus].
    destruct (outcome r1) as [[]| |];
      [|exists 0%nat; cbn; auto|exists 0%nat; cbn; auto].
    rewrite bind_emit. cbn [prefixed outcome trace app testsStarted].
    change (testsEnded (EvReport (OnTestStart (name test)) :: ?t)) with (testsEnded t).
    rewrite trace_bind, outcome_bind.
    destruct (executeTest_unreported n test defaultConfig (final r1)) as (Hs2 & He2 & _).
    set (r2 := executeTest this n test defaultConfig (final r1)) in *.
    rewrite testsStarted_app, testsEnded_app, Hs2, He2. cbn [app plus].
    destruct (outcome r2) as [testResult| |];
      [|exists 1%nat; cbn; auto|exists 1%nat; cbn; auto].
    rewrite bind_emit. cbn [prefixed outcome trace app testsStarted].
    change (testsEnded (EvReport (OnTestEnd testResult) :: ?t))
      with (Datatypes.S (testsEnded t)).
    rewrite trace_bind, outcome_bind.
    destruct (runHooks_unreported AfterEachHook (afterEachFns (registry (final r2)))
                (final r2)) as (Hs3 & He3 & _).
    set (r3 := runHooks AfterEachHook (afterEachFns (registry (final r2))) (final r2)) in *.
    rewrite testsStarted_app, testsEnded_app, Hs3, He3. cbn [app plus].
    destruct (outcome r3) as [[]| |];
      [|exists 1%nat; cbn; auto|exists 1%nat; cbn; auto].
    destruct (IH (final r3)) as (k & Hk & Hends & Hall).
    exists (Datatypes.S k). cbn [map take length]. rewrite Hk. split; [reflexivity|].
    split; [destruct Hends as [->| <-]; auto|].
    destruct (outcome (runFileTests this n rest (final r3))); [|exact I|exact I].
    destruct Hall as [-> ->]. auto.
Qed.

Lemma executeTestFile_imports_once fuel file s :
  importedFiles (trace (executeTestFile this fuel file s)) = [file].
Proof.
  destruct (compileAndImport file (resetTests (registry s)) (world s)) as [[error|reg] w1]
    eqn:Himport.
  - rewrite (executeTestFile_import_throws this fuel file s error w1 Himport).
    destruct error; reflexivity.
  - rewrite (executeTestFile_imported this fuel file s reg w1 Himport). cbv zeta.
    destruct (fst (browserManager_launch w1)); [reflexivity|].
    cbn [trace]. change (EvImport file :: EvLaunch :: ?t) with ([EvImport file; EvLaunch] ++ t).
    rewrite !importedFiles_app.
    match goal with |- context [runFileBody this fuel file ?s2] =>
      assert (Hbody : importedFiles (trace (runFileBody this fuel file s2)) = []);
      [|rewrite Hbody; destruct (outcome (runFileBody this fuel file s2)) as [|[]|];
        reflexivity]
    end.
    rewrite runFileBody_run. cbv zeta.
    match goal with |- context [fileHooksAndTests this fuel file ?s2] =>
      destruct (FileEvent_quiet _ (fileHooksAndTests_emits this fuel file s2)) as (Hi & _ & _);
      set (ri := fileHooksAndTests this fuel file s2) in *
    end.
    destruct (outcome ri) as [[]|error|]; [| |exact Hi];
      destruct (fst (browserManager_close (world (final ri))));
      cbn [trace]; rewrite importedFiles_app, Hi; reflexivity.
Qed.

(** Every file of the list is imported, once and in order, and the loop
    over the files returns. *)
Lemma runFiles_imports fuel files s :
  outcome (runFiles this (Datatypes.S (Datatypes.S fuel)) files s) = Ret tt /\
  importedFiles (trace (runFiles this (Datatypes.S (Datatypes.S fuel)) files s)) = files.
Proof.
  revert s. induction files as [|file rest IH]; intros s; cbn [runFiles]; [auto|].
  rewrite outcome_bind, trace_bind, executeTestFile_returns, importedFiles_app.
  rewrite executeTestFile_imports_once.
  destruct (IH (final (executeTestFile this (Datatypes.S (Datatypes.S fuel)) file s)))
    as [-> ->]. auto.
Qed.

(** X14. When the pattern matches no file, [runTests] reports the error
    "No test files found matching: <pattern>" under "Test Discovery" and
    exits with code 1: no run is started, nothing else is reported and no
    file is imported.  When it matches some, the run tells the reporter
    that it starts, with the number of files, imports every file once and
    in the given order, whatever happened in the files before it, and ends
    by telling the reporter that the run is over; no error of a file
    escapes. *)
Theorem run_visits_files_in_order fuel testPattern found s :
  let r := runTests this (Datatypes.S (Datatypes.S fuel)) testPattern found s in
  match found with
  | [] =>
      trace r = [EvReport (OnError "Test Discovery"
                             ("No test files found matching: " +:+ testPattern));
                 EvExit 1] /\
      final r = s
  | _ :: _ =>
      outcome r = Ret tt /\
      importedFiles (trace r) = found /\
      exists middle, reports (trace r) = OnRunStart (length found) :: middle ++ [OnRunEnd]
  end.
Proof.
  cbv zeta. destruct found as [|file rest]; [split; reflexivity|].
  unfold runTests. cbn [findTestFiles]. rewrite bind_ret_l.
  unfold report. rewrite bind_emit.
  cbn [prefixed outcome trace app importedFiles reports].
  rewrite outcome_bind, trace_bind.
  destruct (runFiles_imports fuel (file :: rest) s) as [Hout Himp]. rewrite Hout.
  cbn [outcome trace emit]. rewrite importedFiles_app, reports_app, Himp.
  cbn [importedFiles reports]. rewrite app_nil_r.
  split; [reflexivity|]. split; [reflexivity | eauto].
Qed.

End OrderTheorems.

(** ** A reply without a verdict, in its file *)

Section InvalidReplyFile.
Context {World : Type} `{Host World}.
Variable this : TestRunner.
Implicit Types (s : RunnerState World) (test : TestFunction World) (config : ExecConfig).




End InvalidReplyFile.

(** ** The adapter: arguments, clicks, key names *)

Section AdapterObservations.
Import LLMAdapter.
Context {World : Type} `{Browser World}.
Implicit Types (response : ActionInput) (w : World).

Lemma call_run {T} (ev : BrowserCall) (op : World -> (Thrown + T) * World) w :
  call ev op w =
  MkRun (match fst (op w) with inl error => Throw error | inr a => Ret a end)
        (snd (op w)) [ev].
Proof. unfold call. destruct (op w). reflexivity. Qed.

Lemma toLowerCase_empty (s : string) :
  String.eqb (JsString.toLowerCase s) EmptyString = String.eqb s EmptyString.
Proof. destruct s; reflexivity. Qed.

(** X15. One action of the model leads to at most one call of the browser,
    whatever the action and its arguments are. *)
Theorem adapter_calls_browser_at_most_once response w :
  (length (trace (transformAndExecute response w)) <= 1)%nat.
Proof.
  unfold transformAndExecute. cbv zeta.
  repeat match goal with
  | |- context [String.eqb (action response) ?tag] =>
      destruct (String.eqb (action response) tag)
  end;
  unfold handleKeyPress, handleTypeText, handleMouseMove, handleLeftClick,
    handleLeftClickDrag, handleRightClick, handleMiddleClick, handleDoubleClick,
    handleLeftClick, handleScreenshot, handleCursorPosition, handleNavigate, handleSleep;
  repeat match goal with
  | |- context [match JsString.nonEmpty ?o with _ => _ end] =>
      destruct (JsString.nonEmpty o)
  | |- context [match coordinate response with _ => _ end] =>
      destruct (coordinate response) as [[? ?]|]
  end;
  rewrite ?trace_bind; unfold floating; cbn [trace]; rewrite ?call_run;
  cbn [trace throw length app outcome];
  repeat match goal with
  | |- context [match ?x with _ => _ end] => destruct x
  end; cbn; lia.
Qed.

(** X16. An action that lacks the argument its handler requires is refused
    before the browser is touched: [key] and [type] without text or with
    the empty text, [mouse_move] and [left_click_drag] without coordinate,
    [navigate] without URL or with the empty URL.  The error names the
    argument and the action. *)
Theorem missing_argument_is_refused response w :
  (action response = "key" /\ JsString.truthy (text response) = false ->
   transformAndExecute response w =
   MkRun (Throw (ErrorObj "Text required for key press action.")) w []) /\
  (action response = "type" /\ JsString.truthy (text response) = false ->
   transformAndExecute response w =
   MkRun (Throw (ErrorObj "Text required for type action.")) w []) /\
  (action response = "mouse_move" /\ coordinate response = None ->
   transformAndExecute response w =
   MkRun (Throw (ErrorObj "Coordinate required for mouse_move action.")) w []) /\
  (action response = "left_click_drag" /\ coordinate response = None ->
   transformAndExecute response w =
   MkRun (Throw (ErrorObj "Coordinate required for left_click_drag action.")) w []) /\
  (action response = "navigate" /\ JsString.truthy (url response) = false ->
   transformAndExecute response w =
   MkRun (Throw (ErrorObj "URL required for navigate action.")) w []).
Proof.
  assert (Hfalsy : forall o, JsString.truthy o = false -> JsString.nonEmpty o = None).
  { intros [s|]; cbn; [|reflexivity]. destruct (String.eqb s EmptyString); [reflexivity|].
    discriminate. }
  unfold transformAndExecute. cbv zeta.
  repeat split; intros [-> Hmissing]; cbn [String.eqb Ascii.eqb Bool.eqb];
    unfold handleKeyPress, handleTypeText, handleMouseMove, handleLeftClickDrag,
      handleNavigate;
    rewrite ?Hmissing, ?(Hfalsy _ Hmissing); reflexivity.
Qed.

(** X17. The click variants.  [double_click] is carried out as a single
    left click: it behaves exactly as [left_click] with the same arguments.
    A left click calls [browser.click] once, at the coordinate of the
    action, or with two nulls when the action has no coordinate.
    [right_click] and [middle_click] are both refused with the error
    "Right click not supported yet." and do not touch the browser. *)
Theorem click_variants (c : option (Z * Z)) (t u : option string) (d : option Z) w :
  let response tag :=
    {| action := tag; coordinate := c; text := t; url := u; duration := d |} in
  transformAndExecute (response "double_click") w =
    transformAndExecute (response "left_click") w /\
  trace (transformAndExecute (response "left_click") w) =
    [Click (fst <$> c) (snd <$> c)] /\
  transformAndExecute (response "right_click") w =
    MkRun (Throw (ErrorObj "Right click not supported yet.")) w [] /\
  transformAndExecute (response "middle_click") w =
    MkRun (Throw (ErrorObj "Right click not supported yet.")) w [].
Proof.
  cbv zeta. repeat split.
  unfold transformAndExecute. cbn [action String.eqb Ascii.eqb Bool.eqb].
  unfold handleLeftClick. cbn [coordinate].
  destruct c as [[x y]|]; rewrite call_run; reflexivity.
Qed.

(** X18. Key names are matched without regard to ASCII case: two [key]
    actions whose texts differ only in the case of their letters lead to
    the same call of the browser, or are both refused. *)
Theorem key_names_ignore_case (c : option (Z * Z)) (t t' : string) (u : option string)
    (d : option Z) w :
  JsString.toLowerCase t = JsString.toLowerCase t' ->
  transformAndExecute
    {| action := "key"; coordinate := c; text := Some t; url := u; duration := d |} w =
  transformAndExecute
    {| action := "key"; coordinate := c; text := Some t'; url := u; duration := d |} w.
Proof.
  intros Hcase. unfold transformAndExecute. cbn [action String.eqb Ascii.eqb Bool.eqb].
  unfold handleKeyPress. cbn [text JsString.nonEmpty].
  rewrite <- (toLowerCase_empty t), <- (toLowerCase_empty t'), Hcase.
  destruct (String.eqb (JsString.toLowerCase t') EmptyString); [reflexivity|].
  cbv zeta. rewrite Hcase. reflexivity.
Qed.

End AdapterObservations.

(** ** The verdict object inside a reply *)

Section VerdictText.
Import JsString.

Lemma lacks_cons (c d : Ascii.ascii) (s : string) :
  lacks c (String d s) <-> d <> c /\ lacks c s.
Proof. unfold lacks. cbn. tauto. Qed.

Lemma lacks_nil (c : Ascii.ascii) : lacks c EmptyString.
Proof. intros []. Qed.

Lemma from_first_open_found (pre rest : string) :
  lacks "{"%char pre ->
  from_first_open (pre +:+ String "{"%char rest) = Some (String "{"%char rest).
Proof.
  induction pre as [|c pre IH]; intros Hpre; [reflexivity|].
  apply lacks_cons in Hpre as [Hc Hpre]. simpl.
  unfold is_open_brace. destruct (Ascii.eqb_spec c "{"%char); [contradiction|].
  apply IH. exact Hpre.
Qed.

Lemma from_first_open_inv (s r : string) :
  from_first_open s = Some r ->
  exists pre rest, s = pre +:+ r /\ r = String "{"%char rest /\ lacks "{"%char pre.
Proof.
  induction s as [|c s IH]; [discriminate|]. cbn [from_first_open]. unfold is_open_brace.
  destruct (Ascii.eqb_spec c "{"%char) as [->|Hc].
  - intros [= <-]. exists EmptyString, s. repeat split. apply lacks_nil.
  - intros Hr. destruct (IH Hr) as (pre & rest & -> & -> & Hpre).
    exists (String c pre), rest. repeat split. apply lacks_cons. auto.
Qed.

Lemma upto_last_close_none (s : string) :
  upto_last_close s = None <-> lacks "}"%char s.
Proof.
  induction s as [|c s IH]; [split; [intros _; apply lacks_nil | reflexivity]|].
  cbn [upto_last_close]. rewrite lacks_cons, <- IH. unfold is_close_brace.
  destruct (upto_last_close s); [split; [discriminate | intros [_ [=]]]|].
  destruct (Ascii.eqb_spec c "}"%char); split; try discriminate; tauto.
Qed.

Lemma upto_last_close_found (mid post : string) :
  lacks "}"%char post ->
  upto_last_close (mid +:+ String "}"%char post) = Some (mid +:+ String "}"%char EmptyString).
Proof.
  intros Hpost. apply upto_last_close_none in Hpost.
  induction mid as [|c mid IH]; simpl.
  - rewrite Hpost. reflexivity.
  - rewrite IH. reflexivity.
Qed.

Lemma upto_last_close_inv (s t : string) :
  upto_last_close s = Some t ->
  exists mid post, s = mid +:+ String "}"%char post /\
                   t = mid +:+ String "}"%char EmptyString /\ lacks "}"%char post.
Proof.
  revert t. induction s as [|c s IH]; intros t; [discriminate|]. cbn [upto_last_close].
  destruct (upto_last_close s) as [t'|] eqn:Hs.
  - intros [= <-]. destruct (IH t' eq_refl) as (mid & post & -> & -> & Hpost).
    exists (String c mid), post. auto.
  - unfold is_close_brace. destruct (Ascii.eqb_spec c "}"%char) as [->|]; [|discriminate].
    intros [= <-]. exists EmptyString, s. repeat split. apply upto_last_close_none, Hs.
Qed.

(** X19. The text handed to [JSON.parse] is the span of the reply from its
    first opening brace to its last closing brace: the match succeeds with
    [m] exactly if the text reads [pre { mid } post] with no opening brace
    in [pre] and no closing brace in [post], and then [m] is [{ mid }].  A
    text with no closing brace after its first opening brace has no
    match. *)
Theorem match_braces_spans_first_to_last (s m : string) :
  match_braces s = Some m <->
  exists pre mid post,
    s = pre +:+ String "{"%char (mid +:+ String "}"%char post) /\
    m = String "{"%char (mid +:+ String "}"%char EmptyString) /\
    lacks "{"%char pre /\ lacks "}"%char post.
Proof.
  unfold match_braces. split.
  - destruct (from_first_open s) as [[|c rest]|] eqn:Hopen; try discriminate.
    destruct (from_first_open_inv _ _ Hopen) as (pre & rest' & -> & [= -> <-] & Hpre).
    destruct (upto_last_close rest) as [t|] eqn:Hclose; [|discriminate].
    intros [= <-]. destruct (upto_last_close_inv _ _ Hclose) as (mid & post & -> & -> & Hpost).
    exists pre, mid, post. auto.
  - intros (pre & mid & post & -> & -> & Hpre & Hpost).
    rewrite (from_first_open_found _ _ Hpre), (upto_last_close_found _ _ Hpost).
    reflexivity.
Qed.

End VerdictText.

(** ** The command line *)

Section CliTheorems.
Import Cli.

Lemma includes_In (l : list string) (x : string) : includes l x = true <-> In x l.
Proof.
  unfold includes. rewrite existsb_exists. split.
  - intros (y & Hin & Heq). apply String.eqb_eq in Heq. subst. exact Hin.
  - intros Hin. exists x. split; [exact Hin | apply String.eqb_refl].
Qed.

Lemma split_eq_cons (s : string) : exists piece pieces, split_eq s = piece :: pieces.
Proof.
  induction s as [|c s (piece & pieces & IH)]; cbn [split_eq]; [eauto|].
  destruct (Ascii.eqb c "="%char); [eauto|]. rewrite IH. eauto.
Qed.

(** Splitting at the first equals sign. *)
Lemma split_eq_found (h v : string) :
  lacks "="%char h -> split_eq (h +:+ String "="%char v) = h :: split_eq v.
Proof.
  induction h as [|c h IH]; intros Hh; simpl.
  - reflexivity.
  - apply lacks_cons in Hh as [Hc Hh].
    destruct (Ascii.eqb_spec c "="%char); [contradiction|]. rewrite (IH Hh). reflexivity.
Qed.

Lemma split_eq_whole (h : string) : lacks "="%char h -> split_eq h = [h].
Proof.
  induction h as [|c h IH]; intros Hh; simpl; [reflexivity|].
  apply lacks_cons in Hh as [Hc Hh].
  destruct (Ascii.eqb_spec c "="%char); [contradiction|]. rewrite (IH Hh). reflexivity.
Qed.

(** The first piece is what stands before the first equals sign. *)
Lemma split_eq_head (s : string) :
  lacks "="%char (hd EmptyString (split_eq s)) /\
  (s = hd EmptyString (split_eq s) \/
   exists v, s = hd EmptyString (split_eq s) +:+ String "="%char v).
Proof.
  induction s as [|c s (IHl & IHs)]; simpl.
  - split; [apply lacks_nil | auto].
  - destruct (Ascii.eqb_spec c "="%char) as [->|Hc]; simpl.
    + split; [apply lacks_nil | right; exists s; reflexivity].
    + destruct (split_eq_cons s) as (piece & pieces & Hs). rewrite Hs in *. simpl in *.
      split; [apply lacks_cons; auto|].
      destruct IHs as [->|(v & ->)]; [left | right; exists v]; reflexivity.
Qed.

Lemma prefix_split (p s : string) :
  String.prefix p s = true -> exists v, s = p +:+ v.
Proof.
  revert s. induction p as [|c p IH]; intros s; simpl; [eauto|].
  destruct s as [|d s]; [discriminate|]. simpl.
  destruct (Ascii.ascii_dec c d) as [->|]; [|discriminate].
  intros Hp. destruct (IH s Hp) as (v & ->). eauto.
Qed.

Lemma append_assoc (a b c : string) : (a +:+ b) +:+ c = a +:+ (b +:+ c).
Proof.
  induction a as [|x a IH]; [reflexivity|].
  change (String x ((a +:+ b) +:+ c) = String x (a +:+ (b +:+ c))). f_equal. exact IH.
Qed.

Lemma VALID_PARAMS_lack_equals (p : string) : In p VALID_PARAMS -> lacks "="%char p.
Proof.
  intros [<-|[<-|[]]]; unfold lacks; cbn; intuition discriminate.
Qed.

(** X20. The arguments [isValidArg] accepts are exactly the six flags,
    written as they are, and the two parameters [--target] and [--secret],
    either bare or followed by an equals sign and any text.  So a flag
    that is given a value, as in [--headless=true], is not valid, while a
    parameter without a value is. *)
Theorem valid_arguments (arg : string) :
  isValidArg arg = true <->
  In arg VALID_FLAGS \/
  exists p, In p VALID_PARAMS /\ (arg = p \/ exists v, arg = p +:+ String "="%char v).
Proof.
  unfold isValidArg. cbv zeta. split.
  - destruct (includes VALID_FLAGS arg) eqn:Hflag; [left; apply includes_In, Hflag|].
    destruct (includes VALID_PARAMS (hd EmptyString (split_eq arg))) eqn:Hparam;
      [|discriminate].
    intros _. right. exists (hd EmptyString (split_eq arg)).
    split; [apply includes_In, Hparam | apply split_eq_head].
  - intros [Hflag|(p & Hp & Harg)].
    + apply includes_In in Hflag. rewrite Hflag. reflexivity.
    + destruct (includes VALID_FLAGS arg); [reflexivity|].
      pose proof (VALID_PARAMS_lack_equals p Hp) as Hlacks.
      assert (Hhead : hd EmptyString (split_eq arg) = p).
      { destruct Harg as [->|(v & ->)];
          [rewrite (split_eq_whole _ Hlacks) | rewrite (split_eq_found _ _ Hlacks)];
          reflexivity. }
      rewrite Hhead. apply includes_In in Hp. rewrite Hp. reflexivity.
Qed.

(** X21. The value read for a parameter stops at the next equals sign: if
    [paramValue] finds a value for the prefix [p=], that value contains no
    equals sign, and it is the text that follows [p=] in one of the
    arguments, up to the end of the argument or to its next equals sign.
    A target URL with a query string is thus cut short. *)
Theorem param_value_stops_at_equals (p : string) (args : list string) (value : string) :
  lacks "="%char p ->
  paramValue (p +:+ "=") args = Some value ->
  lacks "="%char value /\
  exists v, In (p +:+ String "="%char v) args /\
            (v = value \/ exists rest, v = value +:+ String "="%char rest).
Proof.
  intros Hp. unfold paramValue.
  destruct (List.find (String.prefix (p +:+ "=")) args) as [arg|] eqn:Hfind; [|discriminate].
  apply List.find_some in Hfind as [Hin Hprefix].
  apply prefix_split in Hprefix as (v & ->).
  rewrite append_assoc in *. change ("=" +:+ v) with (String "="%char v) in *.
  rewrite (split_eq_found _ _ Hp). simpl.
  destruct (split_eq_cons v) as (piece & pieces & Hv).
  pose proof (split_eq_head v) as Hhead. rewrite Hv in *. simpl in *.
  intros [= <-]. split; [apply Hhead|]. exists v. split; [exact Hin | apply Hhead].
Qed.

(** X22. From the command line to the runner.  When [main] goes on to run
    the tests, every argument that starts with two dashes is a valid one,
    the runner's [noCache] option is set exactly if [--no-cache] is among
    the arguments, and with that flag no call of [executeTest] looks into
    the cache, replays a step or resets the page. *)
Theorem no_cache_flag_reaches_runner (args : list string) (key : option string)
    (runner : TestRunner) :
  runnerOf (main args) key = Some runner ->
  (forall arg, In arg args -> String.prefix "--" arg = true -> isValidArg arg = true) /\
  (noCache runner = true <-> In "--no-cache" args) /\
  (In "--no-cache" args ->
   forall (World : Type) (H : Host World) fuel (test : TestFunction World) config
          (s : RunnerState World),
     List.filter usesCache (trace (executeTest runner fuel test config s)) = []).
Proof.
  unfold main.
  destruct (match args with first :: _ => String.eqb first "init" | [] => false end);
    [discriminate|].
  destruct (includes args "--help" || includes args "-h"); [discriminate|].
  destruct (includes args "--github-code"); [discriminate|]. cbv zeta.
  destruct (List.filter (fun arg => negb (isValidArg arg))
              (List.filter (String.prefix "--") args)) as [|bad rest] eqn:Hinvalid;
    [|discriminate].
  cbn [length Nat.ltb Nat.leb runnerOf]. intros [= <-]. cbn [noCache].
  split; [|split].
  - intros arg Hin Hdash. destruct (isValidArg arg) eqn:Hvalid; [reflexivity|].
    assert (Hbad : In arg (List.filter (fun arg => negb (isValidArg arg))
                             (List.filter (String.prefix "--") args))).
    { apply List.filter_In. split; [apply List.filter_In; auto | rewrite Hvalid; reflexivity]. }
    rewrite Hinvalid in Hbad. destruct Hbad.
  - apply includes_In.
  - intros Hflag World H fuel test config s. apply includes_In in Hflag.
    apply filter_none. eapply List.Forall_impl; [|apply executeTest_emits].
    intros ev. destruct ev; cbn; auto; intros [Hn _]; congruence.
Qed.

End CliTheorems.

(** ** What can make a test throw *)

Section Robustness.
Context {World : Type} `{Host World}.
Variable this : TestRunner.
Implicit Types (s : RunnerState World) (test : TestFunction World) (config : ExecConfig).

Lemma verifyStep_returns step s :
  (forall x y w, exists live, fst (getNormalizedComponentStringByCoords x y w) = inr live) ->
  (forall x y, PointerMove step x y -> step_extras step <> None) ->
  outcome (verifyStep step s) = Ret None \/
  outcome (verifyStep step s) = Ret (Some mismatchResult).
Proof.
  intros Hlive Hextras. unfold verifyStep.
  destruct (verifiedAt step) as [[x y]|] eqn:Hat; [|auto].
  apply verifiedAt_PointerMove in Hat. specialize (Hextras x y Hat).
  rewrite outcome_bind, hostCall_run. cbn [outcome final].
  destruct (Hlive x y (world s)) as (live & ->).
  destruct (step_extras step) as [extras|]; [|contradiction].
  destruct (differs live extras); auto.
Qed.

Lemma replayStep_returns step s :
  (forall x y w, exists live, fst (getNormalizedComponentStringByCoords x y w) = inr live) ->
  (forall x y, PointerMove step x y -> step_extras step <> None) ->
  outcome (replayStep step s) = Ret None \/
  outcome (replayStep step s) = Ret (Some mismatchResult).
Proof.
  intros Hlive Hextras. unfold replayStep. rewrite bind_emit. cbn [prefixed outcome].
  rewrite outcome_bind.
  destruct (verifyStep_returns step s Hlive Hextras) as [-> | ->]; [|auto].
  rewrite outcome_bind, executeStep_completes. auto.
Qed.

Lemma replaySteps_returns steps s :
  (forall x y w, exists live, fst (getNormalizedComponentStringByCoords x y w) = inr live) ->
  Forall (fun step => forall x y, PointerMove step x y -> step_extras step <> None) steps ->
  outcome (replaySteps steps s) = Ret None \/
  outcome (replaySteps steps s) = Ret (Some mismatchResult).
Proof.
  intros Hlive Hextras. revert s.
  induction Hextras as [|step rest Hstep _ IH]; intros s; [auto|].
  cbn [replaySteps]. rewrite outcome_bind.
  destruct (replayStep_returns step s Hlive Hstep) as [-> | ->]; [apply IH | auto].
Qed.

(** X23. Errors of the browser do not make a replay throw: if the
    fingerprint query answers and every pointer move among the replayed
    steps carries its extras, [runCachedTest] returns a verdict, and that
    verdict is one of three: all actions replayed, a changed interface, or
    no steps to execute.  It reports no token. *)
Theorem replay_returns_one_of_three_verdicts test s :
  (forall x y w, exists live, fst (getNormalizedComponentStringByCoords x y w) = inr live) ->
  Forall (fun step => forall x y, PointerMove step x y -> step_extras step <> None)
         (replayed test s) ->
  exists v, outcome (runCachedTest test s) = Ret v /\
            (v = replayedResult \/ v = mismatchResult \/ v = noStepsResult) /\
            tokenUsage v = zeroTokens.
Proof.
  intros Hlive Hextras. unfold replayed in Hextras.
  unfold runCachedTest. rewrite cache_get_bind. cbn [prefixed outcome].
  destruct (stepsToReplay (cacheStore s !! hashData test)) as [steps|].
  - rewrite outcome_bind.
    destruct (replaySteps_returns steps s Hlive Hextras) as [-> | ->]; cbn [outcome ret];
      eexists; (split; [reflexivity|]); auto.
  - eexists. split; [reflexivity|]. auto.
Qed.

Lemma freshRun_returns test initialState s :
  (forall t i w, exists result parsed,
      fst (aiClient_processAction t i w) = inr (Some result) /\
      parseAiResult result = inr parsed) ->
  exists v, outcome (freshRun test initialState s) = Ret v.
Proof.
  intros Hmodel.
  assert (Hrun : forall s0, exists v, outcome (modelRun test initialState s0) = Ret v).
  { intros s0. rewrite modelRun_run.
    destruct (Hmodel test initialState (world s0)) as (result & parsed & -> & ->).
    cbn [prefixed outcome]. rewrite concludeRun_run. cbv zeta. rewrite runAfterFn_run.
    destruct (afterFn test) as [cb|]; cbn [outcome].
    - destruct (fst (cb _)); [eauto|].
      destruct (String.eqb (parsed_status parsed) "passed"); eauto.
    - destruct (String.eqb (parsed_status parsed) "passed"); eauto. }
  rewrite freshRun_run. destruct (beforeFn test) as [cb|]; [|apply Hrun].
  destruct (fst (cb (world s))); [eauto|]. cbn [prefixed outcome]. apply Hrun.
Qed.

(** X24. What the callbacks of a test throw never escapes [executeTest].
    If the initial screenshot and the reset of the page resolve and the
    model answers with a reply that carries a parsable verdict, then
    [executeTest] returns a verdict, whatever the test function, the
    before-hook and the after-hook do, and whatever the cache holds and the
    replay meets. *)
Theorem hook_errors_do_not_escape fuel test config s :
  (forall w, exists initialState, fst (browserTool_execute screenshotInput w) = inr initialState) ->
  (forall target w, fst (page_goto target w) = inr tt) ->
  (forall t i w, exists result parsed,
      fst (aiClient_processAction t i w) = inr (Some result) /\
      parseAiResult result = inr parsed) ->
  exists v, outcome (executeTest this (Datatypes.S (Datatypes.S fuel)) test config s) = Ret v.
Proof.
  intros Hshot Hgoto Hmodel.
  assert (Hretry : forall s0, exists v,
            outcome (executeTest this (Datatypes.S fuel) test {| config_noCache := true |} s0)
            = Ret v).
  { intros s0.
    destruct (executeTest_cases this fuel test {| config_noCache := true |} s0)
      as [[_ ->]|[[_ ->]|[(_ & e & w1 & Hthrow & _)|[(i & w1 & _ & ->)
                                                  |(i & w1 & entry & Hhit & _)]]]].
    - rewrite directRun_run. destruct (fn test); cbn [outcome]; eauto.
    - cbn [outcome]. eauto.
    - destruct (Hshot (world s0)) as (i & Hi). rewrite Hthrow in Hi. discriminate.
    - cbn [prefixed outcome]. apply freshRun_returns, Hmodel.
    - destruct Hhit as (_ & _ & _ & Hc & _). discriminate. }
  destruct (executeTest_cases this (Datatypes.S fuel) test config s)
    as [[_ ->]|[[_ ->]|[(_ & e & w1 & Hthrow & _)|[(i & w1 & _ & ->)
                                                |(i & w1 & entry & _ & Hrc)]]]].
  - rewrite directRun_run. destruct (fn test); cbn [outcome]; eauto.
  - cbn [outcome]. eauto.
  - destruct (Hshot (world s)) as (i & Hi). rewrite Hthrow in Hi. discriminate.
  - cbn [prefixed outcome]. apply freshRun_returns, Hmodel.
  - cbv zeta in Hrc.
    destruct (outcome (runCachedTest test (withWorld s w1))) as [result|error|];
      [| |destruct Hrc]; rewrite Hrc; cbn [prefixed outcome]; [eauto|].
    rewrite outcome_bind. cbn [cache_delete bind emit outcome final].
    rewrite outcome_bind, hostCall_run. cbn [outcome final]. rewrite Hgoto.
    rewrite outcome_bind.
    match goal with |- context [executeTest this (Datatypes.S fuel) test _ ?s0] =>
      destruct (Hretry s0) as (verdict & ->)
    end.
    apply freshRun_returns, Hmodel.
Qed.

End Robustness.

(** ** More concrete runs *)

Module MoreScenarios.
Import Scripted.

(** X1: a direct test whose function throws a string. *)
Lemma direct_execution_witness :
  let r := executeTest (H := host passing) runner 1
             (Faulty.ping (Some (fun w => (Some (NonError "boom"), Datatypes.S w))))
             defaultConfig cached in
  (exists v, outcome r = Ret v /\ tokenUsage v = zeroTokens /\
             (status v = "passed" \/ status v = "failed") /\
             (status v = "passed" <-> (Some (NonError "boom") : option Thrown) = None)) /\
  Forall (fun ev => ev = EvCallback DirectFn) (trace r) /\
  cacheStore (final r) = cacheStore cached.
Proof.
  apply (direct_execution_calls_only_fn (H := host passing) runner 0
           (Faulty.ping (Some (fun w => (Some (NonError "boom"), Datatypes.S w))))
           defaultConfig cached).
  reflexivity.
Defined.

(** X2: the retry configuration, with the login trace in the cache. *)
Lemma disabled_cache_witness :
  let r := executeTest (H := host passing) runner 2 (login None None)
             {| config_noCache := true |} cached in
  List.filter usesCache (trace r) = [] /\ (modelCalls (trace r) <= 1)%nat.
Proof.
  apply (disabled_cache_is_never_consulted (H := host passing) runner 2 (login None None)
           {| config_noCache := true |} cached).
  right. reflexivity.
Defined.

(** X4: the clean replay of the login trace. *)
Lemma no_model_call_witness :
  let r := executeTest (H := host passing) runner 1 (login None None) defaultConfig cached in
  outcome r = Ret replayedResult /\ modelCalls (trace r) = 0%nat /\
  tokenUsage replayedResult = zeroTokens.
Proof.
  split; [reflexivity|]. split; [reflexivity|].
  apply (no_model_call_no_tokens (H := host passing) runner 1 (login None None)
           defaultConfig cached replayedResult); reflexivity.
Defined.

(** X5: the login test passes on an empty cache, and its trace is stored. *)
Lemma passed_run_witness :
  let r := executeTest (H := host passing) runner 1 (login None None) defaultConfig
             uncached in
  outcome r = Ret (aiResultOf (replyOf passing)
                     {| parsed_status := "passed"; parsed_reason := "login succeeded" |}) /\
  world (final r) = 2%nat /\
  cacheStore (final r) !! "login" = Some loginTrace /\
  (forall key, key <> "login" -> cacheStore (final r) !! key = cacheStore uncached !! key).
Proof.
  apply (passed_run_is_recorded (H := host passing) runner 0 (login None None)
           defaultConfig uncached page 1%nat 1%nat (replyOf passing) 2%nat
           {| parsed_status := "passed"; parsed_reason := "login succeeded" |} 2%nat).
  - repeat split; try reflexivity. right. right. reflexivity.
  - reflexivity.
  - reflexivity.
  - reflexivity.
  - reflexivity.
  - reflexivity.
Defined.

(** X6: the replay of the login trace hands over the move, the click and
    the text, and not the screenshot. *)
Lemma clean_replay_inputs_witness :
  let r := runCachedTest (H := host passing) (login None None) (withWorld cached 1%nat) in
  outcome r = Ret replayedResult /\
  executedInputs (trace r) =
  List.filter (fun input => negb (String.eqb (action input) BrowserActionEnum.Screenshot))
              (stepInputs loginSteps).
Proof.
  apply (clean_replay_executes_recorded_inputs (H := host passing) (login None None)
           (withWorld cached 1%nat) loginTrace loginSteps).
  - reflexivity.
  - reflexivity.
  - apply Scenarios.login_replays_clean.
Defined.

(** X8: no browser can be launched; the before-all hook the file
    registered stays in the registry. *)
Lemma failed_launch_witness :
  let r := executeTestFile (H := Faulty.host Faulty.hooked Faulty.noDisplay) runner 2
             "hooked.test.ts" uncached in
  outcome r = Ret tt /\
  trace r = [EvImport "hooked.test.ts"; EvLaunch] /\
  reports (trace r) = [] /\
  registry (final r) = Faulty.hookedFile "hooked.test.ts".
Proof.
  apply (failed_launch_skips_file_silently
           (H := Faulty.host Faulty.hooked Faulty.noDisplay) runner 2 "hooked.test.ts"
           uncached (Faulty.hookedFile "hooked.test.ts") 1%nat
           (ErrorObj "browserType.launch: Executable not found") 2%nat); reflexivity.
Defined.

(** X9: the file does not compile. *)
Lemma failed_import_witness :
  let r := executeTestFile (H := Faulty.host Faulty.hooked Faulty.syntaxError) runner 2
             "hooked.test.ts" uncached in
  outcome r = Ret tt /\
  launches (trace r) = 0%nat /\
  trace r = [EvImport "hooked.test.ts";
             EvReport (fileFailed "hooked.test.ts" "Unexpected token")].
Proof.
  apply (failed_import_is_reported
           (H := Faulty.host Faulty.hooked Faulty.syntaxError) runner 2 "hooked.test.ts"
           uncached (ErrorObj "Unexpected token") 1%nat); reflexivity.
Defined.

(** X10: a file with a before-all hook and one direct test. *)
Lemma closed_once_witness :
  let r := executeTestFile (H := Faulty.host Faulty.hooked Faulty.noFault) runner 2
             "hooked.test.ts" uncached in
  outcome r = Ret tt /\ launches (trace r) = 1%nat /\ closes (trace r) = 1%nat.
Proof.
  apply (launched_browser_is_closed_once
           (H := Faulty.host Faulty.hooked Faulty.noFault) runner 0 "hooked.test.ts"
           uncached (Faulty.hookedFile "hooked.test.ts") 1%nat 2%nat); reflexivity.
Defined.

(** X11: the model ends without a verdict, so the login test throws an
    [Error]; the file is reported as passed, then as failed. *)
Lemma reported_twice_witness :
  let r := executeTestFile (H := host silent) runner 2 "login.test.ts" uncached in
  reports (trace r) =
    [OnFileStart "login.test.ts" 2; OnTestStart "login";
     filePassed "login.test.ts";
     fileFailed "login.test.ts" "No test result found in AI response"] /\
  hooksCleared (registry (final r)).
Proof.
  apply (launched_file_is_reported_passed (H := host silent) runner 0 "login.test.ts"
           uncached (loginFile "login.test.ts") 1%nat 2%nat); reflexivity.
Defined.

(** X12: the tests of the file pass, closing the browser throws. *)
Lemma failed_close_witness :
  let r := executeTestFile (H := Faulty.host Faulty.hooked Faulty.crashOnClose) runner 2
             "hooked.test.ts" uncached in
  reports (trace r) =
    [OnFileStart "hooked.test.ts" 1; OnTestStart "ping";
     OnTestEnd {| status := "passed"; reason := "Direct execution successful";
                  tokenUsage := zeroTokens |};
     fileFailed "hooked.test.ts" "Target closed"] /\
  registry (final r) = Faulty.hookedFile "hooked.test.ts".
Proof.
  apply (failed_close_masks_the_outcome
           (H := Faulty.host Faulty.hooked Faulty.crashOnClose) runner 0 "hooked.test.ts"
           uncached (Faulty.hookedFile "hooked.test.ts") 1%nat 2%nat
           (ErrorObj "Target closed")); reflexivity.
Defined.

(** X16: a key press with the empty text. *)
Lemma missing_argument_witness :
  LLMAdapter.transformAndExecute (H := browser)
    {| action := "key"; coordinate := None; text := Some EmptyString; url := None;
       duration := None |} 0%nat =
  MkRun (Throw (ErrorObj "Text required for key press action.")) 0%nat [].
Proof.
  apply (missing_argument_is_refused (H := browser)
           {| action := "key"; coordinate := None; text := Some EmptyString; url := None;
              duration := None |} 0%nat).
  split; reflexivity.
Defined.

(** X18: Return, in two spellings. *)
Lemma key_case_witness :
  LLMAdapter.transformAndExecute (H := browser)
    {| action := "key"; coordinate := None; text := Some "Return"; url := None;
       duration := None |} 0%nat =
  LLMAdapter.transformAndExecute (H := browser)
    {| action := "key"; coordinate := None; text := Some "RETURN"; url := None;
       duration := None |} 0%nat.
Proof.
  apply (key_names_ignore_case (H := browser) None "Return" "RETURN" None None 0%nat). reflexivity.
Defined.

(** X21: a target with a query string. *)
Lemma param_value_witness :
  lacks "="%char "http://localhost:3000/search?q" /\
  exists v, In ("--target" +:+ String "="%char v)
               ["--headless"; "--target=http://localhost:3000/search?q=shoes"] /\
            (v = "http://localhost:3000/search?q" \/
             exists rest, v = "http://localhost:3000/search?q" +:+ String "="%char rest).
Proof.
  apply (param_value_stops_at_equals "--target"
           ["--headless"; "--target=http://localhost:3000/search?q=shoes"]
           "http://localhost:3000/search?q").
  - unfold lacks. cbn. intuition discriminate.
  - reflexivity.
Defined.

(** X22: [shortest --no-cache login.test.ts]. *)
Lemma no_cache_flag_witness :
  (forall arg, In arg ["--no-cache"; "login.test.ts"] -> String.prefix "--" arg = true ->
               Cli.isValidArg arg = true) /\
  (noCache {| noCache := true; anthropicKey := Some "sk-test" |} = true <->
   In "--no-cache" ["--no-cache"; "login.test.ts"]) /\
  (In "--no-cache" ["--no-cache"; "login.test.ts"] ->
   forall (World : Type) (H : Host World) fuel (test : TestFunction World) config
          (s : RunnerState World),
     List.filter usesCache
       (trace (executeTest {| noCache := true; anthropicKey := Some "sk-test" |}
                 fuel test config s)) = []).
Proof.
  apply (no_cache_flag_reaches_runner ["--no-cache"; "login.test.ts"] (Some "sk-test")
           {| noCache := true; anthropicKey := Some "sk-test" |}).
  reflexivity.
Defined.

(** X23: the fingerprint query of the passing script always answers, and
    the pointer move of the login trace carries its fingerprint. *)
Lemma replay_returns_witness :
  exists v, outcome (runCachedTest (H := host passing) (login None None) cached) = Ret v /\
            (v = replayedResult \/ v = mismatchResult \/ v = noStepsResult) /\
            tokenUsage v = zeroTokens.
Proof.
  apply (replay_returns_one_of_three_verdicts (H := host passing) (login None None) cached).
  - intros x y w. exists "A". reflexivity.
  - apply List.Forall_forall. intros step Hin. vm_compute in Hin.
    destruct Hin as [<-|[<-|[<-|[]]]]; intros x y (input & Hi & Ha & Hc);
      first [discriminate | injection Hi as <-; discriminate].
Defined.

(** X24: hooks that throw, under the passing script. *)
Lemma hook_errors_witness :
  exists v, outcome (executeTest (H := host passing) runner 2
                       (login (Some (throws "seed failed")) (Some (throws "teardown failed")))
                       defaultConfig cached) = Ret v.
Proof.
  apply (hook_errors_do_not_escape (H := host passing) runner 0
           (login (Some (throws "seed failed")) (Some (throws "teardown failed")))
           defaultConfig cached).
  - intros w. exists page. reflexivity.
  - intros target w. reflexivity.
  - intros t i w. exists (replyOf passing).
    exists {| parsed_status := "passed"; parsed_reason := "login succeeded" |}.
    split; reflexivity.
Defined.



End MoreScenarios.
